(** * YNAB4 register to Firefly III importer: canonicalisation and synchronisation

    A shallow embedding of [import.py].  Python values are modelled as follows.

    - [str] is [string]; a character is a code point below 256.
    - [Decimal] is a rational number [Q]; arithmetic is exact (the 28-digit
      context precision of the decimal module is not reached by the amounts of a
      register), equality and order are the numeric ones.
    - [arrow.Arrow] is a calendar date (the register has no time of day).
    - an exception is a value of [exn]; a function that may raise returns
      [result].
    - a [dict] is an insertion-ordered association list ([PyDict]).
    - the remote Firefly III server is an oracle from the requests sent so far
      and the current request to an HTTP response. *)

From Stdlib Require Import List String Ascii Bool Arith ZArith QArith Qabs Lia.
From Stdlib Require Import Permutation.
Import ListNotations.

Open Scope string_scope.
Open Scope Z_scope.

Set Implicit Arguments.

(** ** Exceptions and fallible computations *)

Unset Elimination Schemes.
Inductive Json : Type :=
| JNull
| JBool (b : bool)
| JNum (q : Q)
| JStr (s : string)
| JArr (items : list Json)
| JObj (fields : list (string * Json)).
Set Elimination Schemes.

Inductive exn : Type :=
| AssertionError
| ValueError
| IndexError
| KeyError
| TypeError
| AttributeError
| UnboundLocalError
| InvalidOperation
| HTTPError (status_code : Z) (payload : Json).

Inductive result (A : Type) : Type :=
| Ok (a : A)
| Raise (e : exn).

Arguments Ok {A} a.
Arguments Raise {A} e.

Definition bind {A B} (m : result A) (k : A -> result B) : result B :=
  match m with
  | Ok a => k a
  | Raise e => Raise e
  end.

Declare Scope py_scope.
Delimit Scope py_scope with py.
Notation "x <- m ;; k" := (bind m (fun x => k))
  (at level 61, m at next level, right associativity) : py_scope.
Notation "' p <- m ;; k" := (bind m (fun x => match x with p => k end))
  (at level 61, p pattern, m at next level, right associativity) : py_scope.
Notation "'assert' b ;; k" := (if b then k else Raise AssertionError)
  (at level 61, b at next level, right associativity) : py_scope.
Open Scope py_scope.

(** [l[i]] on a Python list. *)
Definition index {A} (l : list A) (i : nat) : result A :=
  match nth_error l i with
  | Some a => Ok a
  | None => Raise IndexError
  end.

(** ** Strings *)

Module PyStr.

Definition code (c : ascii) : nat := nat_of_ascii c.

(** [str.isspace] and the [\s] class of [re], on code points below 256. *)
Definition isspace (c : ascii) : bool :=
  let n := code c in
  ((9 <=? n) && (n <=? 13) || (28 <=? n) && (n <=? 32)
   || (n =? 133) || (n =? 160))%nat.

Definition isdigit (c : ascii) : bool :=
  let n := code c in ((48 <=? n) && (n <=? 57))%nat.

Definition isupper_AZ (c : ascii) : bool :=
  let n := code c in ((65 <=? n) && (n <=? 90))%nat.

Definition newline : ascii := ascii_of_nat 10.

Definition is_newline (c : ascii) : bool := Ascii.eqb c newline.

Definition startswith (s p : string) : bool := String.prefix p s.

(** [sub in s] *)
Fixpoint contains (sub s : string) : bool :=
  String.prefix sub s ||
  match s with
  | EmptyString => false
  | String _ s' => contains sub s'
  end.

Definition cons_head (c : ascii) (l : list string) : list string :=
  match l with
  | [] => [String c EmptyString]
  | h :: t => String c h :: t
  end.

(** [s.split(sep)] for a non-empty [sep]: [skip] counts the characters of a
    separator just matched that are still to be passed over. *)
Fixpoint split_from (sep : string) (skip : nat) (s : string) : list string :=
  match s with
  | EmptyString => [EmptyString]
  | String c s' =>
      match skip with
      | S k => split_from sep k s'
      | O =>
          if String.prefix sep s
          then EmptyString :: split_from sep (String.length sep - 1) s'
          else cons_head c (split_from sep 0 s')
      end
  end.

Definition split (s sep : string) : list string := split_from sep 0 s.

Fixpoint lstrip (s : string) : string :=
  match s with
  | EmptyString => EmptyString
  | String c s' => if isspace c then lstrip s' else s
  end.

Fixpoint rstrip (s : string) : string :=
  match s with
  | EmptyString => EmptyString
  | String c s' =>
      match rstrip s' with
      | EmptyString => if isspace c then EmptyString else String c EmptyString
      | r => String c r
      end
  end.

Definition strip (s : string) : string := rstrip (lstrip s).

(** [s.replace(",", "")] *)
Fixpoint remove_commas (s : string) : string :=
  match s with
  | EmptyString => EmptyString
  | String c s' =>
      if Ascii.eqb c ","%char then remove_commas s' else String c (remove_commas s')
  end.

(** The longest prefix of [s] whose characters satisfy [p], and the rest. *)
Fixpoint span (p : ascii -> bool) (s : string) : string * string :=
  match s with
  | EmptyString => (EmptyString, EmptyString)
  | String c s' =>
      if p c then let (a, b) := span p s' in (String c a, b)
      else (EmptyString, s)
  end.

Definition is_empty (s : string) : bool :=
  match s with EmptyString => true | _ => false end.

(** Where [$] matches: at the end, or before a final newline. *)
Definition at_end (s : string) : bool :=
  match s with
  | EmptyString => true
  | String c EmptyString => is_newline c
  | _ => false
  end.

(** [sorted([a, b])] *)
Definition sorted2 (a b : string) : string * string :=
  if String.ltb b a then (b, a) else (a, b).

End PyStr.

(** ** Decimal numbers *)

Definition Decimal : Type := Q.
Bind Scope Q_scope with Decimal.

Module Dec.

Definition eqb (x y : Decimal) : bool := Qeq_bool x y.
Definition leb (x y : Decimal) : bool := Qle_bool x y.
Definition ltb (x y : Decimal) : bool := negb (Qle_bool y x).

(** Truth value of a Decimal: non-zero. *)
Definition truthy (x : Decimal) : bool := negb (Qeq_bool x 0).

(** [x or y] *)
Definition or_else (x y : Decimal) : Decimal := if truthy x then x else y.

Arguments eqb (x y)%_Q.
Arguments leb (x y)%_Q.
Arguments ltb (x y)%_Q.

Definition digit_of (c : ascii) : option Z :=
  if PyStr.isdigit c then Some (Z.of_nat (PyStr.code c) - 48) else None.

Fixpoint scan (s : string) (num : Z) (scale : positive) (dot digit : bool)
  : option Decimal :=
  match s with
  | EmptyString => if digit then Some (num # scale) else None
  | String c s' =>
      if Ascii.eqb c "."%char
      then if dot then None else scan s' num scale true digit
      else match digit_of c with
           | Some d =>
               scan s' (10 * num + d) (if dot then 10 * scale else scale)%positive
                    dot true
           | None => None
           end
  end.

(** [Decimal(s)] for fixed-point notation: an optional sign, digits with at
    most one point and at least one digit.  Every string the amount patterns
    of the importer capture is either of this form or rejected by the decimal
    module too; the other notations of the module (exponents, infinities,
    digit separators, white space around) are outside the model. *)
Definition of_string (s : string) : result Decimal :=
  let unsigned r := scan r 0 1%positive false false in
  let parsed :=
    match s with
    | String "-"%char r => option_map Qopp (unsigned r)
    | String "+"%char r => unsigned r
    | _ => unsigned s
    end in
  match parsed with
  | Some d => Ok d
  | None => Raise InvalidOperation
  end.

End Dec.

(** ** Dates *)

Record Arrow : Type := mkArrow { year : Z; month : Z; day : Z }.

Module Date.

Definition eqb (a b : Arrow) : bool :=
  (year a =? year b) && (month a =? month b) && (day a =? day b).

Definition ltb (a b : Arrow) : bool :=
  (year a <? year b)
  || (year a =? year b) && ((month a <? month b)
                            || (month a =? month b) && (day a <? day b)).

(** [d.replace(day=1)] *)
Definition first_of_month (d : Arrow) : Arrow :=
  {| year := year d; month := month d; day := 1 |}.

End Date.

(** ** Rows of the YNAB register *)

Record YNABTransaction : Type := mkYNABTransaction {
  account : string;
  flag : string;
  date : Arrow;
  payee : string;
  category : string;
  master_category : string;
  sub_category : string;
  memo : string;
  outflow : Decimal;
  inflow : Decimal;
  cleared : string;
  running_balance : Decimal
}.

(** [dataclasses.replace(tx, payee=p)] *)
Definition replace_payee (tx : YNABTransaction) (p : string) : YNABTransaction :=
  {| account := account tx; flag := flag tx; date := date tx; payee := p;
     category := category tx; master_category := master_category tx;
     sub_category := sub_category tx; memo := memo tx;
     outflow := outflow tx; inflow := inflow tx; cleared := cleared tx;
     running_balance := running_balance tx |}.

(** [dataclasses.replace(tx, account=a, payee=p, running_balance=b, outflow=o, inflow=i)] *)
Definition replace_transfer (tx : YNABTransaction) (a p : string) (b o i : Decimal)
  : YNABTransaction :=
  {| account := a; flag := flag tx; date := date tx; payee := p;
     category := category tx; master_category := master_category tx;
     sub_category := sub_category tx; memo := memo tx;
     outflow := o; inflow := i; cleared := cleared tx;
     running_balance := b |}.

(** ** Transfer rows *)

Definition _is_transfer (tx : YNABTransaction) : bool :=
  PyStr.contains "Transfer : " (payee tx).

Definition _transfer_account (tx : YNABTransaction) : result string :=
  if PyStr.contains " / Transfer : " (payee tx)
  then
    second <- index (PyStr.split (payee tx) " / ") 1 ;;
    index (PyStr.split second " : ") 1
  else index (PyStr.split (payee tx) " : ") 1.

(** The value written over the running balance of a rewritten row. *)
Definition balance_sentinel : Decimal := (-1)%Q.

Definition _correct_transfer_to_from (tx : YNABTransaction) : result YNABTransaction :=
  assert (_is_transfer tx) ;;
  account_from_payee <- _transfer_account tx ;;
  if Dec.ltb 0 (outflow tx)
  then Ok (replace_payee tx account_from_payee)
  else
    let real_from_account := account_from_payee in
    let real_to_account := account tx in
    Ok (replace_transfer tx real_from_account real_to_account
                         balance_sentinel (inflow tx) (outflow tx)).

(** ** Dictionaries

    A Python [dict] keeps its keys in insertion order: assigning to a key that is
    present replaces the value in place, assigning to a new key appends. *)

Module PyDict.
Section Dict.
Variables K V : Type.
Variable eqb : K -> K -> bool.

Definition t : Type := list (K * V).

Definition empty : t := [].

Fixpoint get (d : t) (k : K) : option V :=
  match d with
  | [] => None
  | (k', v) :: d' => if eqb k' k then Some v else get d' k
  end.

Fixpoint set (d : t) (k : K) (v : V) : t :=
  match d with
  | [] => [(k, v)]
  | (k', v') :: d' => if eqb k' k then (k', v) :: d' else (k', v') :: set d' k v
  end.

Definition mem (d : t) (k : K) : bool :=
  match get d k with Some _ => true | None => false end.

(** [d[k]] *)
Definition item (d : t) (k : K) : result V :=
  match get d k with Some v => Ok v | None => Raise KeyError end.

(** [d.get(k, default)] *)
Definition get_default (d : t) (k : K) (default : V) : V :=
  match get d k with Some v => v | None => default end.

Definition values (d : t) : list V := map snd d.

(** Truth value of a dict: non-empty. *)
Definition truthy (d : t) : bool :=
  match d with [] => false | _ => true end.
End Dict.
End PyDict.

Definition StrDict (V : Type) : Type := PyDict.t string V.
Definition sget {V} (d : StrDict V) (k : string) : option V := PyDict.get String.eqb d k.
Definition sset {V} (d : StrDict V) (k : string) (v : V) : StrDict V :=
  PyDict.set String.eqb d k v.
Definition sitem {V} (d : StrDict V) (k : string) : result V := PyDict.item String.eqb d k.
Definition smem {V} (d : StrDict V) (k : string) : bool := PyDict.mem String.eqb d k.

(** [x in l] for a list of strings *)
Definition str_in (x : string) (l : list string) : bool := existsb (String.eqb x) l.

(** ** Configuration *)

Module Config.

Inductive Role : Type := credit_card | default | savings | cash.

Module Account.
Record t : Type := mk {
  currency : string;
  role : Role;
  monthly_payment_date : string;
  inactive : bool
}.
(** [Config.Account()] *)
Definition default_account : t :=
  {| currency := ""; role := default; monthly_payment_date := ""; inactive := false |}.
End Account.

(** The register column a category or budget is read from: the three values
    the configuration documents for [category_field] and [budget_field]. *)
Inductive Field : Type := Category | MasterCategory | SubCategory.

Record t : Type := mk {
  accounts : StrDict Account.t;
  currency_conv_fallback : StrDict Decimal;
  currency : string;
  payee_mapping : StrDict string;
  budget_mapping : StrDict string;
  skip_budget_limits_import : bool;
  category_field : Field;
  budget_field : Field;
  memo_to_description : bool;
  empty_description : string
}.

End Config.

(** [getattr(tx, _ynab_field_name(field))] *)
Definition field_of (f : Config.Field) (tx : YNABTransaction) : string :=
  match f with
  | Config.Category => category tx
  | Config.MasterCategory => master_category tx
  | Config.SubCategory => sub_category tx
  end.

(** ** Regular expressions

    [re.match] tries the alternatives of a pattern in priority order.  Both
    patterns below are deterministic after their leading [.*]: the classes that
    follow one another are disjoint, so each greedy repetition takes the whole
    run.  The leading [.*] of [MEMO_RE] is greedy, cannot cross a newline, and
    gives characters back one at a time: the match found is the one that starts
    its currency code latest.  The groups are the three capitals, the run of
    amount characters, the optional [K] and the optional note from its
    semicolon on. *)

Record MemoMatch : Type := mkMemoMatch {
  group1 : string;
  group2 : string;
  group3 : option string;
  group4 : option string
}.

Definition amount_char (c : ascii) : bool :=
  PyStr.isdigit c || Ascii.eqb c ","%char || Ascii.eqb c "\"%char || Ascii.eqb c "."%char.

(** The part of [MEMO_RE] after its leading any-characters repetition, matched
    at the start of [s]: three capitals, white space, amount characters, an
    optional [K], an optional semicolon with the rest of the line, the end. *)
Definition memo_tail (s : string) : option MemoMatch :=
  match s with
  | String a (String b (String c r)) =>
      if PyStr.isupper_AZ a && PyStr.isupper_AZ b && PyStr.isupper_AZ c then
        let (ws, r1) := PyStr.span PyStr.isspace r in
        if PyStr.is_empty ws then None else
        let (num, r2) := PyStr.span amount_char r1 in
        if PyStr.is_empty num then None else
        let (k, r3) :=
          match r2 with
          | String "K"%char r' => (Some "K", r')
          | _ => (None, r2)
          end in
        let (note, r4) :=
          match r3 with
          | String ";"%char r' =>
              let (n, r'') := PyStr.span (fun x => negb (PyStr.is_newline x)) r' in
              (Some (String ";"%char n), r'')
          | _ => (None, r3)
          end in
        if PyStr.at_end r4
        then Some {| group1 := String a (String b (String c EmptyString));
                     group2 := num; group3 := k; group4 := note |}
        else None
      else None
  | _ => None
  end.

(** [MEMO_RE.match(s)] *)
Fixpoint MEMO_RE_match (s : string) : option MemoMatch :=
  match s with
  | EmptyString => memo_tail s
  | String c s' =>
      match (if PyStr.is_newline c then None else MEMO_RE_match s') with
      | Some m => Some m
      | None => memo_tail s
      end
  end.

(** [int] of a run of ASCII digits. *)
Fixpoint digits_to_Z (s : string) (acc : Z) : Z :=
  match s with
  | EmptyString => acc
  | String c s' =>
      match Dec.digit_of c with
      | Some d => digits_to_Z s' (10 * acc + d)
      | None => acc
      end
  end.

Fixpoint drop_prefix (p s : string) : option string :=
  match p, s with
  | EmptyString, _ => Some s
  | String a p', String b s' => if Ascii.eqb a b then drop_prefix p' s' else None
  | String _ _, EmptyString => None
  end.

(** [DUPLICATE_TX_RE.match(s)]: the literal text, one or more digits, a full
    stop, the end; the result is [int(m.group(1))]. *)
Definition DUPLICATE_TX_RE_match (s : string) : option Z :=
  match drop_prefix "Duplicate of transaction #" s with
  | None => None
  | Some r =>
      let (num, r1) := PyStr.span PyStr.isdigit r in
      if PyStr.is_empty num then None else
      match r1 with
      | String "."%char r2 => if PyStr.at_end r2 then Some (digits_to_Z num 0) else None
      | _ => None
      end
  end.

(** ** The canonical model *)

Module ImportData.

Record TransactionMetadata : Type := mkMeta {
  date : Arrow;
  amount : Decimal;
  description : string;
  notes : string;
  tags : list string;
  reconciled : bool;
  (* the text of the row's running balance, kept as the number it denotes *)
  external_id : Decimal
}.

Inductive Leg : Type :=
| Withdrawal (meta : TransactionMetadata) (account payee budget category : string)
| Deposit (meta : TransactionMetadata) (account payee budget category : string)
| Transfer (meta : TransactionMetadata) (from_account to_account : string)
           (foreign_amount : option Decimal).

Definition meta_of (l : Leg) : TransactionMetadata :=
  match l with
  | Withdrawal m _ _ _ _ | Deposit m _ _ _ _ | Transfer m _ _ _ => m
  end.

Record TransactionGroup : Type := mkGroup {
  title : string;
  transactions : list Leg
}.

Record Budget : Type := mkBudget { name : string; active : bool }.

Inductive Role : Type := credit_card | default | savings | cash.

Record Account : Type := mkAccount {
  acc_name : string;
  opening_date : Arrow;
  monthly_payment_date : option Arrow;
  role : Role;
  opening_balance : Decimal
}.

End ImportData.

(** ** The importer: row-level resolvers *)

Record Importer : Type := mkImporter {
  config : Config.t;
  (* the tag derived from the time of the run *)
  _import_tag : string;
  filter_min_date : option Arrow;
  filter_max_date : option Arrow
}.

Section Resolvers.

Variable self : Importer.

Definition _acc_config (acc : string) : Config.Account.t :=
  PyDict.get_default String.eqb (Config.accounts (config self)) acc
                     Config.Account.default_account.

Definition _is_foreign (acc : string) : bool :=
  negb (PyStr.is_empty (Config.Account.currency (_acc_config acc)))
  && negb (String.eqb (Config.Account.currency (_acc_config acc))
                      (Config.currency (config self))).

Definition _payee (tx : YNABTransaction) : string :=
  PyDict.get_default String.eqb (Config.payee_mapping (config self))
                     (PyStr.strip (payee tx)) (PyStr.strip (payee tx)).

(** Whether the memo pattern matched with the currency code [code]. *)
Definition memo_for (code : string) (m : option MemoMatch) : option MemoMatch :=
  match m with
  | Some g => if String.eqb (group1 g) code then Some g else None
  | None => None
  end.

(** [currency_conv_fallback.get(code)] when it is truthy. *)
Definition conv_fallback_for (code : string) : option Decimal :=
  match sget (Config.currency_conv_fallback (config self)) code with
  | Some r => if Dec.truthy r then Some r else None
  | None => None
  end.

Definition _amount (tx : YNABTransaction) : result Decimal :=
  let amount := Dec.or_else (outflow tx) (inflow tx) in
  if negb (_is_foreign (account tx)) then Ok amount else
  let m := MEMO_RE_match (memo tx) in
  let foreign_currency_code := Config.Account.currency (_acc_config (account tx)) in
  match memo_for (Config.Account.currency (_acc_config (account tx))) m with
  | Some g =>
      d <- Dec.of_string (PyStr.remove_commas (group2 g)) ;;
      Ok (d * (if Dec.ltb 0 (inflow tx) then -1 else 1))%Q
  | None =>
      match conv_fallback_for foreign_currency_code with
      | None => Raise ValueError
      | Some conv_fallback => Ok (amount * conv_fallback)%Q
      end
  end.

Definition _category (tx : YNABTransaction) : string :=
  field_of (Config.category_field (config self)) tx.

Definition _budget (tx : YNABTransaction) : result string :=
  let budget := field_of (Config.budget_field (config self)) tx in
  budget <-
    (if String.eqb (master_category tx) "Hidden Categories"
     then
       inner <- index (PyStr.split budget "`") 1 ;;
       Ok (PyStr.strip inner ++ " (hidden)")
     else Ok budget) ;;
  let budget := PyStr.strip budget in
  Ok (PyDict.get_default String.eqb (Config.budget_mapping (config self))
                         (category tx) budget).

Definition _description (tx : YNABTransaction) : result string :=
  if negb (Config.memo_to_description (config self))
  then Ok (Config.empty_description (config self))
  else
    let memo0 := PyStr.strip (memo tx) in
    memo1 <-
      (if PyStr.contains "(Split" memo0
       then
         rest <- index (PyStr.split memo0 ")") 1 ;;
         Ok (PyStr.strip rest)
       else Ok memo0) ;;
    let memo2 :=
      if _is_foreign (account tx) then
        match MEMO_RE_match (memo tx) with
        | Some {| group4 := Some note |} => PyStr.strip note
        | _ => memo1
        end
      else memo1 in
    Ok (if PyStr.is_empty memo2 then Config.empty_description (config self) else memo2).

Definition _notes (tx : YNABTransaction) : string :=
  if negb (Config.memo_to_description (config self))
  then PyStr.strip (memo tx)
  else "".

Definition _tags (tx : YNABTransaction) : list string :=
  _import_tag self :: (if PyStr.is_empty (flag tx) then [] else [flag tx]).

(** The float [0.20]: the double nearest to one fifth, as the exact rational
    it denotes (a Decimal is compared with a float by value). *)
Definition float_0_20 : Q := 3602879701896397 # 18014398509481984.

(** [abs(amount - fallback_amount) / fallback_amount <= 0.20] *)
Definition within_tolerance (amount fallback_amount : Decimal) : bool :=
  Dec.leb (Qabs (amount - fallback_amount) / fallback_amount)%Q float_0_20.

Definition _transfer_foreign_amount (tx : YNABTransaction) : result (option Decimal) :=
  assert (negb (PyStr.contains "Transfer : " (payee tx))) ;;
  let to_account := payee tx in
  if _is_foreign (account tx) && negb (_is_foreign to_account)
  then Ok (Some (Dec.or_else (outflow tx) (inflow tx)))
  else if negb (_is_foreign (account tx)) && _is_foreign to_account
  then
    let foreign_currency_code := Config.Account.currency (_acc_config to_account) in
    let conv_fallback := conv_fallback_for foreign_currency_code in
    let fallback_amount :=
      match conv_fallback with
      | Some r => Some (Dec.or_else (outflow tx) (inflow tx) * r)%Q
      | None => None
      end in
    let fallback_truthy :=
      match fallback_amount with
      | Some f => if Dec.truthy f then Some f else None
      | None => None
      end in
    let m := MEMO_RE_match (memo tx) in
    match memo_for (Config.Account.currency (_acc_config to_account)) m with
    | Some g =>
        amount <- Dec.of_string (PyStr.remove_commas (group2 g)) ;;
        let amount := if String.eqb (group2 g) "K" then (amount * 1000)%Q else amount in
        match fallback_truthy with
        | Some f => assert (within_tolerance amount f) ;; Ok (Some amount)
        | None => Ok (Some amount)
        end
    | None =>
        match fallback_truthy with
        | None => Raise ValueError
        | Some f => Ok (Some f)
        end
    end
  else if _is_foreign (account tx) && _is_foreign to_account
  then
    assert (String.eqb (Config.Account.currency (_acc_config (account tx)))
                       (Config.Account.currency (_acc_config to_account))) ;;
    Ok None
  else Ok None.

End Resolvers.

(** ** Processing the register into transaction groups *)

(** The key a transfer is paired by: the two account names in order, the date,
    [abs(outflow - inflow)]. *)
Definition TransferKey : Type := (string * string) * Arrow * Decimal.

Definition key_eqb (a b : TransferKey) : bool :=
  let '((a1, a2), ad, aq) := a in
  let '((b1, b2), bd, bq) := b in
  String.eqb a1 b1 && String.eqb a2 b2 && Date.eqb ad bd && Dec.eqb aq bq.

Definition transfer_key (tx : YNABTransaction) : TransferKey :=
  (PyStr.sorted2 (account tx) (payee tx), date tx, Qabs (outflow tx - inflow tx)).

(** The key the rows of one split transaction share. *)
Definition SplitKey : Type := string * Arrow * Decimal.

Definition split_key_eqb (a b : SplitKey) : bool :=
  let '(a1, ad, aq) := a in
  let '(b1, bd, bq) := b in
  String.eqb a1 b1 && Date.eqb ad bd && Dec.eqb aq bq.

(** What survives from one row of the loop to the next: the pairing counters
    and the local variable [category], which an iteration may leave untouched. *)
Record RowState : Type := mkRowState {
  transfers_seen_map : PyDict.t TransferKey Z;
  category_var : option string
}.

Definition initial_row_state : RowState :=
  {| transfers_seen_map := []; category_var := None |}.

Definition somes {A} (l : list (option A)) : list A :=
  flat_map (fun o => match o with Some a => [a] | None => [] end) l.

Section ProcessTransactions.

Variable self : Importer.
Variable budgets : StrDict ImportData.Budget.
Variable categories : list string.

Definition read_category (st : RowState) : result string :=
  match category_var st with
  | Some c => Ok c
  | None => Raise UnboundLocalError
  end.

Definition make_meta (tx : YNABTransaction) (amount : Decimal) (description : string)
           (external_id : Decimal) : ImportData.TransactionMetadata :=
  {| ImportData.date := date tx;
     ImportData.amount := amount;
     ImportData.description := description;
     ImportData.notes := _notes self tx;
     ImportData.tags := _tags self tx;
     ImportData.reconciled := String.eqb (cleared tx) "R";
     ImportData.external_id := external_id |}.

(** The body of [for tx in tx_group]: the new state and the leg appended to
    the group, if any. *)
Definition process_row (st : RowState) (tx : YNABTransaction)
  : result (RowState * option ImportData.Leg) :=
  budget <- _budget self tx ;;
  cat <-
    (if negb (PyStr.is_empty budget) then
       assert (smem budgets budget) ;;
       b <- sitem budgets budget ;;
       if ImportData.active b then
         let category := _category self tx in
         assert (PyStr.is_empty category || str_in category categories) ;;
         Ok (Some category)
       else Ok (category_var st)
     else Ok (Some "")) ;;
  let st := {| transfers_seen_map := transfers_seen_map st; category_var := cat |} in
  let external_id := running_balance tx in
  if _is_transfer tx then
    tx <- _correct_transfer_to_from tx ;;
    let transfer_seen_map_key := transfer_key tx in
    let seen := PyDict.get_default key_eqb (transfers_seen_map st)
                                   transfer_seen_map_key 0 in
    if seen mod 2 =? 1 then
      Ok ({| transfers_seen_map :=
               PyDict.set key_eqb (transfers_seen_map st) transfer_seen_map_key (seen + 1);
             category_var := cat |}, None)
    else
      let st := {| transfers_seen_map :=
                     PyDict.set key_eqb (transfers_seen_map st) transfer_seen_map_key 1;
                   category_var := cat |} in
      amount <- _amount self tx ;;
      description <- _description self tx ;;
      foreign_amount <- _transfer_foreign_amount self tx ;;
      Ok (st, Some (ImportData.Transfer (make_meta tx amount description external_id)
                                        (account tx) (payee tx) foreign_amount))
  else if Dec.ltb 0 (outflow tx) then
    amount <- _amount self tx ;;
    description <- _description self tx ;;
    category <- read_category st ;;
    Ok (st, Some (ImportData.Withdrawal (make_meta tx amount description external_id)
                                        (account tx) (_payee self tx) budget category))
  else if Dec.ltb 0 (inflow tx) then
    amount <- _amount self tx ;;
    description <- _description self tx ;;
    category <- read_category st ;;
    Ok (st, Some (ImportData.Deposit (make_meta tx amount description external_id)
                                     (account tx) (_payee self tx) budget category))
  else Raise ValueError.

(** [for tx in tx_group]: one outcome per row, [None] for a row passed over. *)
Fixpoint process_rows (st : RowState) (txs : list YNABTransaction)
  : result (RowState * list (option ImportData.Leg)) :=
  match txs with
  | [] => Ok (st, [])
  | tx :: rest =>
      '(st1, out) <- process_row st tx ;;
      '(st2, outs) <- process_rows st1 rest ;;
      Ok (st2, out :: outs)
  end.

(** [for tx_group in all_tx_grouped]: the groups appended to
    [data.transaction_groups]. *)
Fixpoint process_groups (st : RowState) (all_tx_grouped : list (list YNABTransaction))
  : result (RowState * list ImportData.TransactionGroup) :=
  match all_tx_grouped with
  | [] => Ok (st, [])
  | tx_group :: rest =>
      '(st1, outs) <- process_rows st tx_group ;;
      let transaction_group :=
        {| ImportData.title :=
             if (0 <? List.length tx_group)%nat
             then Config.empty_description (config self) else "";
           ImportData.transactions := somes outs |} in
      '(st2, groups) <- process_groups st1 rest ;;
      Ok (st2, match ImportData.transactions transaction_group with
               | [] => groups
               | _ => transaction_group :: groups
               end)
  end.

(** [splits_grouped]: the split rows by (account, date, running balance), in
    order of first appearance. *)
Fixpoint group_splits (splits : list YNABTransaction)
         (splits_grouped : PyDict.t SplitKey (list YNABTransaction))
  : PyDict.t SplitKey (list YNABTransaction) :=
  match splits with
  | [] => splits_grouped
  | tx :: rest =>
      let split_group_key := (account tx, date tx, running_balance tx) in
      let group := PyDict.get_default split_key_eqb splits_grouped split_group_key [] in
      group_splits rest (PyDict.set split_key_eqb splits_grouped split_group_key
                                    (group ++ [tx])%list)
  end.

Definition all_tx_grouped (all_transactions : list YNABTransaction)
  : list (list YNABTransaction) :=
  let transactions :=
    filter (fun tx => negb ((Dec.eqb (inflow tx) 0 && Dec.eqb (outflow tx) 0)
                            || String.eqb (payee tx) "Starting Balance"))
           all_transactions in
  let splits := filter (fun tx => PyStr.contains "(Split " (memo tx)) transactions in
  let non_splits :=
    filter (fun tx => negb (PyStr.contains "(Split " (memo tx))) transactions in
  (PyDict.values (group_splits splits []) ++ map (fun tx => [tx]) non_splits)%list.

(** [running_balances]: the membership test of the source looks a
    (month, account) pair up among keys that are months, so it never finds
    one and every row, from the last to the first, assigns its balance. *)
Definition record_balance (rb : PyDict.t Arrow (StrDict Decimal)) (tx : YNABTransaction)
  : PyDict.t Arrow (StrDict Decimal) :=
  let tx_month := Date.first_of_month (date tx) in
  PyDict.set Date.eqb rb tx_month
             (sset (PyDict.get_default Date.eqb rb tx_month []) (account tx)
                   (running_balance tx)).

Definition running_balances_of (all_transactions : list YNABTransaction)
  : PyDict.t Arrow (StrDict Decimal) :=
  fold_left record_balance (rev all_transactions) [].

Definition _process_transactions (all_transactions : list YNABTransaction)
  : result (PyDict.t Arrow (StrDict Decimal) * list ImportData.TransactionGroup) :=
  '(_, groups) <- process_groups initial_row_state (all_tx_grouped all_transactions) ;;
  Ok (running_balances_of all_transactions, groups).

End ProcessTransactions.

(** ** JSON documents of the remote API and Python values sent to it *)

Module PyJson.

(** [j[key]] *)
Definition item (j : Json) (key : string) : result Json :=
  match j with
  | JObj fields => sitem fields key
  | _ => Raise TypeError
  end.

(** [j.get(key)]: [None] is [JNull]. *)
Definition get (j : Json) (key : string) : result Json :=
  match j with
  | JObj fields => Ok (PyDict.get_default String.eqb fields key JNull)
  | _ => Raise AttributeError
  end.

(** Names and codes of remote entities are JSON strings. *)
Definition str (j : Json) : result string :=
  match j with
  | JStr s => Ok s
  | _ => Raise TypeError
  end.

Definition list_of (j : Json) : result (list Json) :=
  match j with
  | JArr l => Ok l
  | _ => Raise TypeError
  end.

Definition truthy (j : Json) : bool :=
  match j with
  | JNull => false
  | JBool b => b
  | JNum q => Dec.truthy q
  | JStr s => negb (PyStr.is_empty s)
  | JArr l => match l with [] => false | _ => true end
  | JObj l => match l with [] => false | _ => true end
  end.

Fixpoint int_digits (s : string) (acc : Z) (after_digit : bool) : option Z :=
  match s with
  | EmptyString => if after_digit then Some acc else None
  | String c s' =>
      if Ascii.eqb c "_"%char
      then if after_digit then int_digits s' acc false else None
      else match Dec.digit_of c with
           | Some d => int_digits s' (10 * acc + d) true
           | None => None
           end
  end.

(** [int(s)] for a string: white space around, a sign, digits that single
    underscores may separate. *)
Definition int_of_string (s : string) : result Z :=
  let s := PyStr.strip s in
  let '(negative, digits) :=
    match s with
    | String "-"%char r => (true, r)
    | String "+"%char r => (false, r)
    | _ => (false, s)
    end in
  match int_digits digits 0 false with
  | Some z => Ok (if negative then - z else z)
  | None => Raise ValueError
  end.

(** [int(j)]: a number is truncated towards zero. *)
Definition int (j : Json) : result Z :=
  match j with
  | JStr s => int_of_string s
  | JNum q => Ok (Z.quot (Qnum q) (Zpos (Qden q)))
  | JBool b => Ok (if b then 1 else 0)
  | _ => Raise TypeError
  end.

End PyJson.

Inductive PyVal : Type :=
| PNone
| PBool (b : bool)
| PInt (z : Z)
| PDec (d : Decimal)
| PStr (s : string)
| PDate (d : Arrow).

Definition digit_char (d : Z) : ascii := ascii_of_nat (48 + Z.to_nat (d mod 10)).

Definition two_digits (n : Z) : string :=
  String (digit_char (n / 10)) (String (digit_char n) EmptyString).

(** [d.format("YYYY-MM-DD")] *)
Definition format_date (d : Arrow) : string :=
  two_digits (year d / 100) ++ two_digits (year d) ++ "-" ++ two_digits (month d)
  ++ "-" ++ two_digits (day d).

(** What [json.dumps] with [_json_default] sends for a value. *)
Definition to_json (v : PyVal) : Json :=
  match v with
  | PNone => JNull
  | PBool b => JBool b
  | PInt z => JNum (inject_Z z)
  | PDec d => JNum d
  | PStr s => JStr s
  | PDate d => JStr (format_date d)
  end.

Definition bool_num (b : bool) : Q := if b then 1%Q else 0%Q.

(** [obj == 0] *)
Definition eq_zero (obj : PyVal) : bool :=
  match obj with
  | PBool b => negb b
  | PInt z => z =? 0
  | PDec d => Dec.eqb d 0
  | _ => false
  end.

(** [obj == firefly_obj] between a value and a JSON value that is not null. *)
Definition py_eq (obj : PyVal) (firefly_obj : Json) : bool :=
  match obj, firefly_obj with
  | PStr s, JStr t => String.eqb s t
  | PBool b, JBool c => Bool.eqb b c
  | PBool b, JNum q => Dec.eqb (bool_num b) q
  | PInt z, JNum q => Dec.eqb (inject_Z z) q
  | PInt z, JBool c => Dec.eqb (inject_Z z) (bool_num c)
  | _, _ => false
  end.

(** [Decimal(str(firefly_obj))] *)
Definition decimal_of_json (firefly_obj : Json) : result Decimal :=
  match firefly_obj with
  | JStr s => Dec.of_string s
  | JNum q => Ok q
  | _ => Raise InvalidOperation
  end.

Definition is_null (j : Json) : bool :=
  match j with JNull => true | _ => false end.

Definition _firefly_compare (obj : PyVal) (firefly_obj : Json) : result bool :=
  match obj with
  | PDate d =>
      Ok (match firefly_obj with
          | JStr s => String.eqb (format_date d) s
          | _ => false
          end)
  | _ =>
      match obj, is_null firefly_obj with
      | PDec d, false =>
          r <- decimal_of_json firefly_obj ;;
          Ok (Dec.eqb d r)
      | _, true => Ok (eq_zero obj)
      | _, false => Ok (py_eq obj firefly_obj)
      end
  end.

(** The loop of [_firefly_needs_update] over [obj.items()], leaving at the
    first field that differs. *)
Fixpoint needs_update_loop (items : list (string * PyVal)) (attributes : Json)
  : result bool :=
  match items with
  | [] => Ok false
  | (k, v) :: rest =>
      remote <- PyJson.get attributes k ;;
      same <- _firefly_compare v remote ;;
      if negb same then Ok true else needs_update_loop rest attributes
  end.

Definition _firefly_needs_update (obj : list (string * PyVal)) (firefly_obj : Json)
  : result bool :=
  match obj with
  | [] => Ok false
  | _ =>
      attributes <- PyJson.item firefly_obj "attributes" ;;
      needs_update_loop obj attributes
  end.

(** ** The session with the remote server *)

Inductive Method : Type := GET | POST | PUT.

(** A request: the URL is [path], then the identifier interpolated into it (if
    any, kept as the JSON value it was read from), then [action]. *)
Record Request : Type := mkRequest {
  method : Method;
  path : string;
  ident : option Json;
  action : string;
  json : Json
}.

Record Response : Type := mkResponse {
  status_code : Z;
  content : Json
}.

(** The server: from the requests already served (latest first) and the
    current one to its response. *)
Definition Remote : Type := list Request -> Request -> Response.

(** [FireflyData]: what is known of the server, by kind. *)
Record FireflyData : Type := mkFireflyData {
  fd_currencies : StrDict Z;
  fd_categories : StrDict Z;
  fd_budgets : StrDict Json;
  fd_asset_accounts : StrDict Json;
  fd_revenue_accounts : StrDict Json;
  fd_expense_accounts : StrDict Json
}.

Definition empty_firefly_data : FireflyData :=
  {| fd_currencies := []; fd_categories := []; fd_budgets := [];
     fd_asset_accounts := []; fd_revenue_accounts := []; fd_expense_accounts := [] |}.

(** A line written to the buffer that [_create_transactions] prints when it
    leaves. *)
Inductive Line : Type :=
| Created (id : Json)
| Ignoring (dup_id : Z)
| Payload (response : Json).

Record World : Type := mkWorld {
  sent : list Request;            (* latest first *)
  firefly_data : FireflyData;
  cache_file : option FireflyData;
  output : list Line              (* latest first *)
}.

(** Computations that read and write a state and may raise. *)
Definition ST (S A : Type) : Type := S -> result A * S.

Definition ret {S A} (a : A) : ST S A := fun s => (Ok a, s).

Definition raise {S A} (e : exn) : ST S A := fun s => (Raise e, s).

Definition lift {S A} (r : result A) : ST S A := fun s => (r, s).

Definition iobind {S A B} (m : ST S A) (k : A -> ST S B) : ST S B :=
  fun s =>
    match m s with
    | (Ok a, s') => k a s'
    | (Raise e, s') => (Raise e, s')
    end.

Declare Scope io_scope.
Delimit Scope io_scope with io.
Notation "x <~ m ;; k" := (iobind m (fun x => k))
  (at level 61, m at next level, right associativity) : io_scope.
Notation "' p <~ m ;; k" := (iobind m (fun x => match x with p => k end))
  (at level 61, p pattern, m at next level, right associativity) : io_scope.
Notation "m ;;; k" := (iobind m (fun _ => k))
  (at level 61, right associativity) : io_scope.
Open Scope io_scope.

Definition when {S} (b : bool) (m : ST S unit) : ST S unit := if b then m else ret tt.

(** [for x in l: body(x)] *)
Fixpoint for_each {S A} (l : list A) (body : A -> ST S unit) : ST S unit :=
  match l with
  | [] => ret tt
  | x :: rest => body x ;;; for_each rest body
  end.

Definition IO (A : Type) : Type := ST World A.

Definition get_data : IO FireflyData := fun w => (Ok (firefly_data w), w).

Definition put_data (fd : FireflyData) : IO unit :=
  fun w => (Ok tt, {| sent := sent w; firefly_data := fd;
                      cache_file := cache_file w; output := output w |}).

Definition print_line (l : Line) : IO unit :=
  fun w => (Ok tt, {| sent := sent w; firefly_data := firefly_data w;
                      cache_file := cache_file w; output := l :: output w |}).

Definition _update_cache : IO unit :=
  fun w => (Ok tt, {| sent := sent w; firefly_data := firefly_data w;
                      cache_file := Some (firefly_data w); output := output w |}).

Section Session.

Variable remote : Remote.

(** [FireflySession.request]: a response with a 4xx or 5xx status raises. *)
Definition request (r : Request) : IO Response :=
  fun w =>
    let response := remote (sent w) r in
    let w' := {| sent := r :: sent w; firefly_data := firefly_data w;
                 cache_file := cache_file w; output := output w |} in
    if (400 <=? status_code response) && (status_code response <? 600)
    then (Raise (HTTPError (status_code response) (content response)), w')
    else (Ok response, w').

(** [get_all_pages(url)["data"]]; the pages of a listing are one request to
    the oracle. *)
Definition get_all_pages (url : string) : IO (list Json) :=
  response <~ request (mkRequest GET url None "" JNull) ;;
  data <~ lift (PyJson.item (content response) "data") ;;
  lift (PyJson.list_of data).

(** [try: m  except requests.HTTPError as e: if e.response.status_code == 500: pass  else: raise] *)
Definition ignoring_500 (m : IO unit) : IO unit :=
  fun w =>
    match m w with
    | (Raise (HTTPError status payload), w') =>
        if status =? 500 then (Ok tt, w') else (Raise (HTTPError status payload), w')
    | r => r
    end.

End Session.

(** ** Synchronising currencies, budgets and asset accounts *)

Definition set_currencies (fd : FireflyData) (v : StrDict Z) : FireflyData :=
  {| fd_currencies := v; fd_categories := fd_categories fd; fd_budgets := fd_budgets fd;
     fd_asset_accounts := fd_asset_accounts fd;
     fd_revenue_accounts := fd_revenue_accounts fd;
     fd_expense_accounts := fd_expense_accounts fd |}.

Definition set_budgets (fd : FireflyData) (v : StrDict Json) : FireflyData :=
  {| fd_currencies := fd_currencies fd; fd_categories := fd_categories fd; fd_budgets := v;
     fd_asset_accounts := fd_asset_accounts fd;
     fd_revenue_accounts := fd_revenue_accounts fd;
     fd_expense_accounts := fd_expense_accounts fd |}.

Definition set_asset_accounts (fd : FireflyData) (v : StrDict Json) : FireflyData :=
  {| fd_currencies := fd_currencies fd; fd_categories := fd_categories fd;
     fd_budgets := fd_budgets fd; fd_asset_accounts := v;
     fd_revenue_accounts := fd_revenue_accounts fd;
     fd_expense_accounts := fd_expense_accounts fd |}.

(** [d["attributes"][key]] *)
Definition attribute (d : Json) (key : string) : result Json :=
  attributes <- PyJson.item d "attributes" ;;
  PyJson.item attributes key.

(** [{d["attributes"][key]: value(d) for d in data}] *)
Fixpoint index_by {V} (key : string) (value : Json -> result V) (data : list Json)
         (acc : StrDict V) : result (StrDict V) :=
  match data with
  | [] => Ok acc
  | d :: rest =>
      k <- attribute d key ;;
      k <- PyJson.str k ;;
      v <- value d ;;
      index_by key value rest (sset acc k v)
  end.

(** [currencies_to_keep]: the list [_create_currencies] builds and does not
    read again. *)
Definition currencies_to_keep (cfg : Config.t) : list string :=
  (["EUR"; Config.currency cfg]
   ++ map Config.Account.currency
        (filter (fun a => negb (PyStr.is_empty (Config.Account.currency a)))
                (PyDict.values (Config.accounts cfg))))%list.

Definition budget_data (budget : ImportData.Budget) : list (string * PyVal) :=
  [("name", PStr (ImportData.name budget)); ("active", PBool (ImportData.active budget))].

Definition body_of (data : list (string * PyVal)) : Json :=
  JObj (map (fun kv => (fst kv, to_json (snd kv))) data).

Definition role_value (r : ImportData.Role) : string :=
  match r with
  | ImportData.credit_card => "ccAsset"
  | ImportData.default => "defaultAsset"
  | ImportData.savings => "savingAsset"
  | ImportData.cash => "cashWalletAsset"
  end.

Section Sync.

Variable self : Importer.
Variable remote : Remote.

Definition _create_currencies : IO unit :=
  fd <~ get_data ;;
  if PyDict.truthy (fd_currencies fd) then ret tt else
  data <~ get_all_pages remote "/api/v1/currencies" ;;
  ids <~ lift (index_by "code" (fun d => id <- PyJson.item d "id" ;; PyJson.int id) data []) ;;
  put_data (set_currencies fd ids) ;;;
  currencies <~ lift (index_by "code" (fun d => Ok d) data []) ;;
  let _keep := currencies_to_keep (config self) in
  for_each currencies (fun '(code, data) =>
    when (String.eqb code (Config.currency (config self)))
         (is_default <~ lift (attribute data "default") ;;
          when (negb (PyJson.truthy is_default))
               (request remote (mkRequest POST "/api/v1/currencies/" (Some (JStr code))
                                          "/default" JNull) ;;; ret tt)) ;;;
    if str_in code [Config.currency (config self); "INR"; "EUR"] then
      enabled <~ lift (attribute data "enabled") ;;
      when (negb (PyJson.truthy enabled))
           (request remote (mkRequest POST "/api/v1/currencies/" (Some (JStr code))
                                      "/enable" JNull) ;;; ret tt)
    else
      enabled <~ lift (attribute data "enabled") ;;
      when (PyJson.truthy enabled)
           (request remote (mkRequest POST "/api/v1/currencies/" (Some (JStr code))
                                      "/disable" JNull) ;;; ret tt)) ;;;
  _update_cache.

(** The body of the loop of [_create_budgets] over the desired budgets. *)
Definition sync_budget (budget : ImportData.Budget) : IO unit :=
  let data := budget_data budget in
  ignoring_500
    (fd <~ get_data ;;
     match sget (fd_budgets fd) (ImportData.name budget) with
     | Some known =>
         differs <~ lift (_firefly_needs_update data known) ;;
         when differs
              (id <~ lift (PyJson.item known "id") ;;
               request remote (mkRequest PUT "/api/v1/budgets/" (Some id) ""
                                         (body_of data)) ;;; ret tt)
     | None =>
         response <~ request remote (mkRequest POST "/api/v1/budgets" None ""
                                               (body_of data)) ;;
         created <~ lift (PyJson.item (content response) "data") ;;
         fd <~ get_data ;;
         put_data (set_budgets fd (sset (fd_budgets fd) (ImportData.name budget) created))
     end).

Definition _create_budgets (budgets : StrDict ImportData.Budget) : IO unit :=
  fd <~ get_data ;;
  if PyDict.truthy (fd_budgets fd) then ret tt else
  data <~ get_all_pages remote "/api/v1/budgets" ;;
  listed <~ lift (index_by "name" (fun d => Ok d) data (fd_budgets fd)) ;;
  put_data (set_budgets fd listed) ;;;
  for_each (PyDict.values budgets) sync_budget ;;;
  _update_cache.

End Sync.

Section AssetAccounts.

Variable self : Importer.
Variable remote : Remote.
Variable asset_accounts : list ImportData.Account.
Variable running_balances : PyDict.t Arrow (StrDict Decimal).

Definition account_data (fd : FireflyData) (account : ImportData.Account)
  : result (list (string * PyVal)) :=
  let configured := Config.Account.currency (_acc_config self (ImportData.acc_name account)) in
  currency_id <-
    sitem (fd_currencies fd)
          (if PyStr.is_empty configured then Config.currency (config self) else configured) ;;
  let data :=
    [("name", PStr (ImportData.acc_name account)); ("active", PBool true);
     ("type", PStr "asset"); ("account_role", PStr (role_value (ImportData.role account)));
     ("currency_id", PInt currency_id); ("include_net_worth", PBool true)] in
  let data :=
    if Dec.truthy (ImportData.opening_balance account)
    then (data ++ [("opening_balance", PDec (ImportData.opening_balance account));
                   ("opening_balance_date", PDate (ImportData.opening_date account))])%list
    else data in
  Ok (match ImportData.role account with
      | ImportData.credit_card =>
          (data ++ [("credit_card_type", PStr "monthlyFull");
                    ("monthly_payment_date",
                     match ImportData.monthly_payment_date account with
                     | Some d => PDate d
                     | None => PNone
                     end)])%list
      | _ => data
      end).

Definition sync_asset_account (account : ImportData.Account) : IO unit :=
  fd <~ get_data ;;
  data <~ lift (account_data fd account) ;;
  match sget (fd_asset_accounts fd) (ImportData.acc_name account) with
  | Some known =>
      differs <~ lift (_firefly_needs_update data known) ;;
      when differs
           (id <~ lift (PyJson.item known "id") ;;
            request remote (mkRequest PUT "/api/v1/accounts/" (Some id) "" (body_of data)) ;;;
            ret tt)
  | None =>
      response <~ request remote (mkRequest POST "/api/v1/accounts" None "" (body_of data)) ;;
      created <~ lift (PyJson.item (content response) "data") ;;
      fd <~ get_data ;;
      put_data (set_asset_accounts fd (sset (fd_asset_accounts fd)
                                            (ImportData.acc_name account) created))
  end.

Definition _create_asset_accounts (ignore_cache : bool) : IO unit :=
  fd <~ get_data ;;
  if negb ignore_cache && PyDict.truthy (fd_asset_accounts fd) then ret tt else
  data <~ get_all_pages remote "/api/v1/accounts?type=asset" ;;
  listed <~ lift (index_by "name" (fun d => Ok d) data (fd_asset_accounts fd)) ;;
  put_data (set_asset_accounts fd listed) ;;;
  for_each asset_accounts sync_asset_account ;;;
  _update_cache.

(** [balance != firefly_balance] *)
Definition balance_differs (balance : Decimal) (firefly_balance : Json) : bool :=
  match firefly_balance with
  | JNum q => negb (Dec.eqb balance q)
  | JBool b => negb (Dec.eqb balance (bool_num b))
  | _ => true
  end.

Definition _verify_running_balance (month : Arrow) : IO unit :=
  _create_asset_accounts true ;;;
  for_each (PyDict.get_default Date.eqb running_balances month [])
           (fun '(account, balance) =>
              if _is_foreign self account then ret tt else
              fd <~ get_data ;;
              known <~ lift (sitem (fd_asset_accounts fd) account) ;;
              firefly_balance <~ lift (attribute known "running_balance") ;;
              if balance_differs balance firefly_balance then raise ValueError else ret tt).

End AssetAccounts.

(** ** Submitting the transaction groups *)

Definition DupErrors : Type := PyDict.t Z Z.
Definition TxErrors : Type := PyDict.t Z (StrDict Json).

(** [len(field_errors) == 1 and DUPLICATE_TX_RE.match(field_errors[0])]: the
    identifier of the transaction duplicated, if the test holds. *)
Definition duplicate_of (field_errors : Json) : result (option Z) :=
  match field_errors with
  | JArr [JStr s] => Ok (DUPLICATE_TX_RE_match s)
  | JArr [_] => Raise TypeError
  | JArr _ => Ok None
  | JStr _ => Ok None
  | JObj [_] => Raise KeyError
  | JObj _ => Ok None
  | _ => Raise TypeError
  end.

(** The loop of [_firefly_create_transaction_errors] over the items of the
    errors of a response. *)
Fixpoint classify_errors (items : list (string * Json))
         (dup_errors : DupErrors) (other_tx_errors : TxErrors) (other_errors : StrDict Json)
  : result (DupErrors * TxErrors * StrDict Json) :=
  match items with
  | [] => Ok (dup_errors, other_tx_errors, other_errors)
  | (field, field_errors) :: rest =>
      let split := PyStr.split field "." in
      field <- index split 0 ;;
      if negb (String.eqb field "transactions")
      then classify_errors rest dup_errors other_tx_errors (sset other_errors field field_errors)
      else
        idx <- index split 1 ;;
        tx_idx <- PyJson.int_of_string idx ;;
        child_field <- index split 2 ;;
        dup <- duplicate_of field_errors ;;
        match dup with
        | Some dup_id =>
            assert (negb (PyDict.mem Z.eqb other_tx_errors tx_idx)) ;;
            classify_errors rest (PyDict.set Z.eqb dup_errors tx_idx dup_id)
                            other_tx_errors other_errors
        | None =>
            assert (negb (PyDict.mem Z.eqb dup_errors tx_idx)) ;;
            classify_errors rest dup_errors
                            (PyDict.set Z.eqb other_tx_errors tx_idx
                               (sset (PyDict.get_default Z.eqb other_tx_errors tx_idx [])
                                     child_field field_errors))
                            other_errors
        end
  end.

Definition _firefly_create_transaction_errors (response : Json)
  : result (DupErrors * TxErrors * StrDict Json) :=
  errors <- PyJson.item response "errors" ;;
  match errors with
  | JObj items => classify_errors items [] [] []
  | _ => Raise AttributeError
  end.

(** The local variables of [_create_transactions], next to the world. *)
Record TxState : Type := mkTxState {
  world : World;
  imported : Z;
  ignored : Z;
  current_month : option Arrow
}.

Definition initial_tx_state (w : World) : TxState :=
  {| world := w; imported := 0; ignored := 0; current_month := None |}.

Definition TxIO (A : Type) : Type := ST TxState A.

Definition in_world {A} (m : IO A) : TxIO A :=
  fun s =>
    let (r, w) := m (world s) in
    (r, {| world := w; imported := imported s; ignored := ignored s;
           current_month := current_month s |}).

Definition get_locals : TxIO TxState := fun s => (Ok s, s).

Definition set_current_month (m : Arrow) : TxIO unit :=
  fun s => (Ok tt, {| world := world s; imported := imported s; ignored := ignored s;
                      current_month := Some m |}).

Definition incr_imported : TxIO unit :=
  fun s => (Ok tt, {| world := world s; imported := imported s + 1; ignored := ignored s;
                      current_month := current_month s |}).

Definition incr_ignored : TxIO unit :=
  fun s => (Ok tt, {| world := world s; imported := imported s; ignored := ignored s + 1;
                      current_month := current_month s |}).

(** [int(d[key]["id"])] *)
Definition id_in (d : StrDict Json) (key : string) : result Z :=
  known <- sitem d key ;;
  id <- PyJson.item known "id" ;;
  PyJson.int id.

Definition jint (z : Z) : Json := JNum (inject_Z z).

Definition tx_type (tx : ImportData.Leg) : string :=
  match tx with
  | ImportData.Withdrawal _ _ _ _ _ => "withdrawal"
  | ImportData.Deposit _ _ _ _ _ => "deposit"
  | ImportData.Transfer _ _ _ _ => "transfer"
  end.

(** [tx_data] for one leg of a group. *)
Definition tx_data (fd : FireflyData) (tx : ImportData.Leg) : result Json :=
  let m := ImportData.meta_of tx in
  let common :=
    [("type", JStr (tx_type tx));
     ("date", JStr (format_date (ImportData.date m)));
     ("amount", JNum (ImportData.amount m));
     ("description", JStr (ImportData.description m));
     ("tags", JArr (map JStr (ImportData.tags m)));
     ("notes", JStr (ImportData.notes m));
     ("reconciled", JBool (ImportData.reconciled m));
     ("external_id", JNum (ImportData.external_id m))] in
  let budget_and_category budget category :=
    b <- (if PyStr.is_empty budget then Ok []
          else id <- id_in (fd_budgets fd) budget ;; Ok [("budget_id", jint id)]) ;;
    c <- (if PyStr.is_empty category then Ok []
          else id <- sitem (fd_categories fd) category ;; Ok [("category_id", jint id)]) ;;
    Ok (b ++ c)%list in
  match tx with
  | ImportData.Deposit _ account payee budget category =>
      source_id <- id_in (fd_revenue_accounts fd) payee ;;
      destination_id <- id_in (fd_asset_accounts fd) account ;;
      extra <- budget_and_category budget category ;;
      Ok (JObj (common ++ [("source_id", jint source_id);
                           ("destination_id", jint destination_id)] ++ extra)%list)
  | ImportData.Withdrawal _ account payee budget category =>
      source_id <- id_in (fd_asset_accounts fd) account ;;
      destination_id <- id_in (fd_expense_accounts fd) payee ;;
      extra <- budget_and_category budget category ;;
      Ok (JObj (common ++ [("source_id", jint source_id);
                           ("destination_id", jint destination_id)] ++ extra)%list)
  | ImportData.Transfer _ from_account to_account foreign_amount =>
      source_id <- id_in (fd_asset_accounts fd) from_account ;;
      destination_id <- id_in (fd_asset_accounts fd) to_account ;;
      Ok (JObj (common ++ [("source_id", jint source_id);
                           ("destination_id", jint destination_id)]
                ++ match foreign_amount with
                   | Some f => if Dec.truthy f then [("foreign_amount", JNum f)] else []
                   | None => []
                   end)%list)
  end.

Fixpoint transactions_data (fd : FireflyData) (txs : list ImportData.Leg)
  : result (list Json) :=
  match txs with
  | [] => Ok []
  | tx :: rest =>
      d <- tx_data fd tx ;;
      ds <- transactions_data fd rest ;;
      Ok (d :: ds)
  end.

Definition group_data (fd : FireflyData) (tx_group : ImportData.TransactionGroup)
  : result Json :=
  txs <- transactions_data fd (ImportData.transactions tx_group) ;;
  Ok (JObj [("error_if_duplicate_hash", JBool true); ("apply_rules", JBool false);
            ("group_title", JStr (ImportData.title tx_group));
            ("transactions", JArr txs)]).

(** [transaction_groups[0].transactions[0].date.replace(day=1)] *)
Definition first_group_month (transaction_groups : list ImportData.TransactionGroup)
  : result Arrow :=
  g <- index transaction_groups 0 ;;
  tx <- index (ImportData.transactions g) 0 ;;
  Ok (Date.first_of_month (ImportData.date (ImportData.meta_of tx))).

Definition month_differs (a : Arrow) (b : option Arrow) : bool :=
  match b with
  | Some b => negb (Date.eqb a b)
  | None => true
  end.

Definition post_transactions (data : Json) : Request :=
  mkRequest POST "/api/v1/transactions" None "" data.

Section CreateTransactions.

Variable self : Importer.
Variable remote : Remote.
Variable asset_accounts : list ImportData.Account.
Variable running_balances : PyDict.t Arrow (StrDict Decimal).
Variable transaction_groups : list ImportData.TransactionGroup.

(** Whether the date filters pass the group over. *)
Definition filtered_out (tx_group : ImportData.TransactionGroup) : result bool :=
  after <-
    match filter_max_date self with
    | Some max_date =>
        tx <- index (ImportData.transactions tx_group) 0 ;;
        Ok (Date.ltb max_date (ImportData.date (ImportData.meta_of tx)))
    | None => Ok false
    end ;;
  if after then Ok true else
  match filter_min_date self with
  | Some min_date =>
      tx <- index (ImportData.transactions tx_group) 0 ;;
      Ok (Date.ltb (ImportData.date (ImportData.meta_of tx)) min_date)
  | None => Ok false
  end.

(** The [try] around the submission of one group: the request, and what the
    handler of [requests.HTTPError] does with a failure. *)
Definition submit (data : Json) : IO unit :=
  fun w =>
    match request remote (post_transactions data) w with
    | (Ok response, w') =>
        (created <~ lift (PyJson.item (content response) "data") ;;
         id <~ lift (PyJson.item created "id") ;;
         print_line (Created id)) w'
    | (Raise (HTTPError status payload), w') =>
        (if status =? 422 then
           '(dup_errors, other_tx_errors, other_errors) <~
             lift (_firefly_create_transaction_errors payload) ;;
           if PyDict.truthy other_tx_errors || PyDict.truthy other_errors
           then print_line (Payload payload) ;;; raise (HTTPError status payload)
           else for_each dup_errors (fun '(tx_idx, dup_id) => print_line (Ignoring dup_id))
         else print_line (Payload payload) ;;; raise (HTTPError status payload)) w'
    | (Raise e, w') => (Raise e, w')
    end.

(** The body of [for tx_group in self.data.transaction_groups]. *)
Definition submit_group (tx_group : ImportData.TransactionGroup) : TxIO unit :=
  tx_month <~ lift (first_group_month transaction_groups) ;;
  s <~ get_locals ;;
  (if month_differs tx_month (current_month s) then
     match current_month s with
     | Some m => in_world (_verify_running_balance self remote asset_accounts
                                                   running_balances m)
     | None => raise UnboundLocalError
     end ;;;
     set_current_month tx_month ;;;
     raise ValueError
   else ret tt) ;;;
  skip <~ lift (filtered_out tx_group) ;;
  if skip then incr_ignored else
  s <~ get_locals ;;
  data <~ lift (group_data (firefly_data (world s)) tx_group) ;;
  in_world (submit data) ;;;
  incr_imported ;;;
  s <~ get_locals ;;
  if 200 <? imported s then raise ValueError else ret tt.

Definition _create_transactions : TxIO unit :=
  current_month <~ lift (first_group_month transaction_groups) ;;
  set_current_month current_month ;;;
  for_each transaction_groups submit_group.

End CreateTransactions.

(** ** Notions the properties are stated with *)

(** The key a row is paired by: that of its corrected form. *)
Definition pairing_key (tx : YNABTransaction) : option TransferKey :=
  if _is_transfer tx then
    match _correct_transfer_to_from tx with
    | Ok tx' => Some (transfer_key tx')
    | Raise _ => None
    end
  else None.

(** Whether [tx] is a sighting of the key [k]. *)
Definition sighting (k : TransferKey) (tx : YNABTransaction) : bool :=
  match pairing_key tx with
  | Some k' => key_eqb k' k
  | None => false
  end.

(** How many rows of [txs] are sightings of [k]. *)
Definition sightings (k : TransferKey) (txs : list YNABTransaction) : nat :=
  List.length (filter (sighting k) txs).

(** ** Sample data *)

Module Sample.

Definition jan15 : Arrow := mkArrow 2020 1 15.
Definition feb10 : Arrow := mkArrow 2020 2 10.

(** Default currency USD; no account is configured. *)
Definition plain_config : Config.t :=
  Config.mk [] [] "USD" [] [] false Config.SubCategory Config.SubCategory true
            "(empty description)".

Definition plain : Importer := mkImporter plain_config "import-2020" None None.

(** The two rows the register holds for one transfer of 50 from A to B. *)
Definition row_A : YNABTransaction :=
  mkYNABTransaction "A" "" jan15 "Transfer : B" "" "" "" "" 50 0 "" 950.
Definition row_B : YNABTransaction :=
  mkYNABTransaction "B" "" jan15 "Transfer : A" "" "" "" "" 0 50 "" 550.

(** What the loop over [[row_A]; [row_B]] leaves and produces. *)
Definition paired_state : RowState :=
  {| transfers_seen_map := [(("A", "B", jan15, 50%Q), 2)]; category_var := Some "" |}.
Definition paired_groups : list ImportData.TransactionGroup :=
  [ImportData.mkGroup "(empty description)"
     [ImportData.Transfer
        (ImportData.mkMeta jan15 50 "(empty description)" "" ["import-2020"] false 950)
        "A" "B" None]].

(** Default currency INR; the account Chase is held in USD, with a fallback
    rate of 1.1 for USD. *)
Definition foreign_config : Config.t :=
  Config.mk [("Chase", Config.Account.mk "USD" Config.default "" false)]
            [("USD", 1.1%Q)] "INR" [] [] false Config.SubCategory Config.SubCategory true
            "(empty description)".

Definition foreign : Importer := mkImporter foreign_config "import-2020" None None.

(** Money received on the USD account, its USD value in the memo. *)
Definition deposit_row : YNABTransaction :=
  mkYNABTransaction "Chase" "" jan15 "Employer" "" "" "" "USD 120.50;lunch"
                    0 9000 "" 9000.

(** Money spent from the USD account, its USD value in the memo. *)
Definition withdrawal_row : YNABTransaction :=
  mkYNABTransaction "Chase" "" jan15 "Cafe" "" "" "" "USD 120.50;lunch"
                    9000 0 "" 0.

(** A corrected transfer from the USD account to the default-currency
    account Savings: 9000 INR left, the memo says 10 USD, the fallback rate
    says 9900. *)
Definition transfer_out_of_foreign : YNABTransaction :=
  mkYNABTransaction "Chase" "" jan15 "Savings" "" "" "" "USD 10" 9000 0 "" 0.

(** The row of the register that is corrected to [transfer_out_of_foreign]. *)
Definition raw_transfer_out_of_foreign : YNABTransaction :=
  mkYNABTransaction "Chase" "" jan15 "Transfer : Savings" "" "" "" "USD 10" 9000 0 "" 0.

(** A corrected transfer from Savings to the USD account: 100 INR left, the
    memo says 108 USD, the fallback rate says 110. *)
Definition transfer_into_foreign : YNABTransaction :=
  mkYNABTransaction "Savings" "" jan15 "Chase" "" "" "" "USD 108" 100 0 "" 0.

Definition fresh_world : World := mkWorld [] empty_firefly_data None [].

Definition currency_json (code : string) (is_default enabled : bool) : Json :=
  JObj [("id", JStr "1");
        ("attributes", JObj [("code", JStr code); ("default", JBool is_default);
                             ("enabled", JBool enabled)])].

(** A server that lists INR (default, enabled), USD (enabled) and EUR
    (disabled) and accepts every request. *)
Definition currency_server : Remote :=
  fun _ _ => mkResponse 200
    (JObj [("data", JArr [currency_json "INR" true true; currency_json "USD" false true;
                          currency_json "EUR" false false])]).


(** Two groups, one in January and one in February, each a transfer of 50
    from A to B. *)
Definition transfer_on (d : Arrow) : ImportData.TransactionGroup :=
  ImportData.mkGroup "(empty description)"
    [ImportData.Transfer (ImportData.mkMeta d 50 "rent" "" ["import-2020"] false 950)
                         "A" "B" None].

Definition two_months : list ImportData.TransactionGroup :=
  [transfer_on jan15; transfer_on feb10].

(** The export says that A stood at 950 at the end of January. *)
Definition january_balances : PyDict.t Arrow (StrDict Decimal) :=
  [(mkArrow 2020 1 1, [("A", 950%Q)])].

Definition account_json (id name : string) (balance : Q) : Json :=
  JObj [("id", JStr id);
        ("attributes", JObj [("name", JStr name); ("running_balance", JNum balance)])].

(** The accounts A and B are known to the importer. *)
Definition synced_world : World :=
  mkWorld []
          (mkFireflyData [] [] []
                         [("A", account_json "1" "A" 0); ("B", account_json "2" "B" 0)]
                         [] [])
          None [].

(** A server that creates every transaction submitted and, asked for the
    asset accounts, reports A at 1000: not the 950 of the export. *)
Definition accepting_server : Remote :=
  fun _ r =>
    match method r with
    | GET => mkResponse 200 (JObj [("data", JArr [account_json "1" "A" 1000;
                                                  account_json "2" "B" 0])])
    | _ => mkResponse 200 (JObj [("data", JObj [("id", JStr "77")])])
    end.


Definition duplicate_payload : Json :=
  JObj [("message", JStr "The given data was invalid.");
        ("errors", JObj [("transactions.0.description",
                          JArr [JStr "Duplicate of transaction #7995."])])].

(** A server that reports every submission as a duplicate of transaction
    7995. *)
Definition duplicate_server : Remote := fun _ _ => mkResponse 422 duplicate_payload.

Definition mixed_payload : Json :=
  JObj [("message", JStr "The given data was invalid.");
        ("errors", JObj [("transactions.0.description",
                          JArr [JStr "Duplicate of transaction #7995."]);
                         ("transactions.0.amount",
                          JArr [JStr "The amount must be greater than zero."])])].

(** A server that reports the first leg both as a duplicate and as having an
    invalid amount. *)
Definition mixed_server : Remote := fun _ _ => mkResponse 422 mixed_payload.


Definition budget_json (id name : string) (is_active : bool) : Json :=
  JObj [("id", JStr id);
        ("attributes", JObj [("name", JStr name); ("active", JBool is_active)])].

(** A server that lists the budget Food as active and accepts every
    request. *)
Definition budget_server : Remote :=
  fun _ _ => mkResponse 200 (JObj [("data", JArr [budget_json "3" "Food" true])]).

Definition food_active : StrDict ImportData.Budget :=
  [("Food", ImportData.mkBudget "Food" true)].
Definition food_inactive : StrDict ImportData.Budget :=
  [("Food", ImportData.mkBudget "Food" false)].

(** The cache of an earlier run: Food is known as active. *)
Definition cached_world : World :=
  mkWorld []
          (mkFireflyData [] [] [("Food", budget_json "3" "Food" true)] [] [] [])
          None [].


(** Three rows of account A, in the order of the register: a purchase on
    5 January (balance 100 after it), and the two lines of a split purchase
    on 20 January (balance 300 after it). *)
Definition early_row : YNABTransaction :=
  mkYNABTransaction "A" "" (mkArrow 2020 1 5) "Shop" "" "" "" "" 10 0 "" 100.
Definition split_row_1 : YNABTransaction :=
  mkYNABTransaction "A" "" (mkArrow 2020 1 20) "Market" "" "" "" "(Split 1/2) food"
                    20 0 "" 300.
Definition split_row_2 : YNABTransaction :=
  mkYNABTransaction "A" "" (mkArrow 2020 1 20) "Market" "" "" "" "(Split 2/2) soap"
                    5 0 "" 300.

End Sample.

(** Whether the counter of [k] is odd: a sighting of [k] waits for its pair. *)
Definition pending (m : PyDict.t TransferKey Z) (k : TransferKey) : bool :=
  PyDict.get_default key_eqb m k 0 mod 2 =? 1.

(** A transfer leg from [tx]'s account to its payee. *)
Definition is_transfer_leg (tx : YNABTransaction) (out : option ImportData.Leg) : Prop :=
  exists meta foreign_amount,
    out = Some (ImportData.Transfer meta (account tx) (payee tx) foreign_amount).

(** The world after a request has been sent. *)
Definition after_request (w : World) (r : Request) : World :=
  {| sent := r :: sent w; firefly_data := firefly_data w; cache_file := cache_file w;
     output := output w |}.

(** The world after lines have been written to the buffer, in this order. *)
Definition after_lines (w : World) (lines : list Line) : World :=
  {| sent := sent w; firefly_data := firefly_data w; cache_file := cache_file w;
     output := (rev lines ++ output w)%list |}.

(** An item of the errors of a response that reports a leg as a duplicate: its
    key starts with the part [transactions] and its value is a single message
    of the duplicate form. *)
Definition is_duplicate_item (item : string * Json) : bool :=
  match index (PyStr.split (fst item) ".") 0 with
  | Ok field =>
      String.eqb field "transactions"
      && match duplicate_of (snd item) with
         | Ok (Some _) => true
         | _ => false
         end
  | Raise _ => false
  end.

(** Type-aware equality of a desired value and a remote attribute, in the words
    of the specification: a date is compared as its formatted calendar date, a
    number as a decimal value, a remote null as zero, anything else as it is. *)
Definition type_aware_equal (desired : PyVal) (remote : Json) : bool :=
  match desired, remote with
  | PDate d, JStr s => String.eqb (format_date d) s
  | PDec d, JNull => Dec.eqb d 0
  | PDec d, JNum q => Dec.eqb d q
  | PDec d, JStr s => match Dec.of_string s with Ok q => Dec.eqb d q | Raise _ => false end
  | PInt z, JNull => z =? 0
  | PInt z, JNum q => Dec.eqb (inject_Z z) q
  | PInt z, JBool b => Dec.eqb (inject_Z z) (bool_num b)
  | PBool b, JNull => negb b
  | PBool b, JBool c => Bool.eqb b c
  | PBool b, JNum q => Dec.eqb (bool_num b) q
  | PStr s, JStr t => String.eqb s t
  | _, _ => false
  end.

(** At least one desired field differs from the remote attributes. *)
Definition fields_differ (desired : list (string * PyVal)) (attributes : StrDict Json)
  : Prop :=
  exists k v,
    In (k, v) desired
    /\ type_aware_equal v (PyDict.get_default String.eqb attributes k JNull) = false.

(** The update call for a budget known to the server under [id]. *)
Definition budget_update (id : Json) (budget : ImportData.Budget) : Request :=
  mkRequest PUT "/api/v1/budgets/" (Some id) "" (body_of (budget_data budget)).

Definition budget_listing : Request := mkRequest GET "/api/v1/budgets" None "" JNull.

(** The cache holds [budget] with attributes that agree with the desired ones. *)
Definition in_sync (cache : StrDict Json) (budget : ImportData.Budget) : Prop :=
  exists known attributes,
    sget cache (ImportData.name budget) = Some known
    /\ PyJson.item known "attributes" = Ok (JObj attributes)
    /\ ~ fields_differ (budget_data budget) attributes.

(** The cache holds [budget] under [id] with a desired field that differs. *)
Definition out_of_sync (cache : StrDict Json) (budget : ImportData.Budget) (id : Json)
  : Prop :=
  exists known attributes,
    sget cache (ImportData.name budget) = Some known
    /\ PyJson.item known "attributes" = Ok (JObj attributes)
    /\ PyJson.item known "id" = Ok id
    /\ fields_differ (budget_data budget) attributes.

(** Computations that send nothing. *)
Definition silent {A} (m : IO A) : Prop := forall w, sent (snd (m w)) = sent w.

(** How many rows of [txs] are sightings of [k] that were kept, [outs] being
    the outcomes of the rows. *)
Definition kept_sightings (k : TransferKey) (txs : list YNABTransaction)
           (outs : list (option ImportData.Leg)) : nat :=
  List.length
    (filter (fun p => sighting k (fst p)
                      && match snd p with Some _ => true | None => false end)
            (combine txs outs)).

(** ** Amounts of the register

    [AMOUNT_RE] is a start anchor, a greedy repetition of characters that are
    no digits, a group of one or more digits, commas and points, and the end.
    The repetition gives characters back one at a time; the group takes its
    whole run, since the end cannot follow a shorter one. *)

Definition amount_cell_char (c : ascii) : bool :=
  PyStr.isdigit c || Ascii.eqb c ","%char || Ascii.eqb c "."%char.

(** The group and the end anchor of [AMOUNT_RE], matched at the start of [s]. *)
Definition amount_tail (s : string) : option string :=
  let (num, r) := PyStr.span amount_cell_char s in
  if PyStr.is_empty num then None
  else if PyStr.at_end r then Some num else None.

(** [AMOUNT_RE.match(s)]: its group 1. *)
Fixpoint AMOUNT_RE_match (s : string) : option string :=
  match s with
  | EmptyString => amount_tail s
  | String c s' =>
      match (if PyStr.isdigit c then None else AMOUNT_RE_match s') with
      | Some m => Some m
      | None => amount_tail s
      end
  end.

Definition _to_amount (s : string) : result Decimal :=
  match AMOUNT_RE_match s with
  | None => Raise AssertionError
  | Some g => Dec.of_string (PyStr.remove_commas g)
  end.

(** The characters of a string. *)
Definition chars (s : string) : list ascii := list_ascii_of_string s.


(** ** Notions for the rows and legs of the register *)

(** The balance recorded for a month and an account. *)
Definition recorded_balance (rb : PyDict.t Arrow (StrDict Decimal)) (m : Arrow) (a : string)
  : option Decimal :=
  match PyDict.get Date.eqb rb m with
  | Some balances => sget balances a
  | None => None
  end.

(** The first row of the register, in its order, of a month and an account. *)
Definition first_row_of (m : Arrow) (a : string) (txs : list YNABTransaction)
  : option YNABTransaction :=
  find (fun tx => Date.eqb (Date.first_of_month (date tx)) m && String.eqb (account tx) a) txs.

(** The rows that are grouped: those with an inflow or an outflow that are no
    starting balance. *)
Definition moves_money (tx : YNABTransaction) : bool :=
  negb ((Dec.eqb (inflow tx) 0 && Dec.eqb (outflow tx) 0)
        || String.eqb (payee tx) "Starting Balance").

Definition is_split_row (tx : YNABTransaction) : bool :=
  PyStr.contains "(Split " (memo tx).

Definition split_key (tx : YNABTransaction) : SplitKey :=
  (account tx, date tx, running_balance tx).

(** The account a leg takes money from or puts money on, whose currency
    decides how its amount is read. *)
Definition booked_on (leg : ImportData.Leg) : string :=
  match leg with
  | ImportData.Withdrawal _ account _ _ _ => account
  | ImportData.Deposit _ account _ _ _ => account
  | ImportData.Transfer _ from_account _ _ => from_account
  end.

(** Budget and category of a leg that is no transfer. *)
Definition budget_and_category_of (leg : ImportData.Leg) : option (string * string) :=
  match leg with
  | ImportData.Withdrawal _ _ _ budget category => Some (budget, category)
  | ImportData.Deposit _ _ _ budget category => Some (budget, category)
  | ImportData.Transfer _ _ _ _ => None
  end.


(** Where the category in force after a row comes from: it is empty for a row
    without budget, the configured column (a known category, or empty) for a
    row with an active budget, and what it was before the row for a row whose
    budget is not active. *)
Definition category_source (self : Importer) (budgets : StrDict ImportData.Budget)
           (categories : list string) (st : RowState) (tx : YNABTransaction)
           (budget : string) (cat : option string) : Prop :=
  (budget = "" /\ cat = Some "")
  \/ (exists b, sget budgets budget = Some b /\ ImportData.active b = true
                /\ cat = Some (_category self tx)
                /\ (_category self tx = "" \/ str_in (_category self tx) categories = true))
  \/ (exists b, sget budgets budget = Some b /\ ImportData.active b = false
                /\ cat = category_var st).


(** ** Notions for the submission of the groups *)

(** Computations that leave what is known of the server as it is. *)
Definition keeps_data {A} (m : IO A) : Prop :=
  forall w, firefly_data (snd (m w)) = firefly_data w.

(** Whether the date filters let a group through. *)
Definition passes_filters (self : Importer) (tx_group : ImportData.TransactionGroup) : bool :=
  match filtered_out self tx_group with
  | Ok false => true
  | _ => false
  end.


(** ** Synchronising categories and payee accounts *)

Definition set_categories (fd : FireflyData) (v : StrDict Z) : FireflyData :=
  {| fd_currencies := fd_currencies fd; fd_categories := v; fd_budgets := fd_budgets fd;
     fd_asset_accounts := fd_asset_accounts fd;
     fd_revenue_accounts := fd_revenue_accounts fd;
     fd_expense_accounts := fd_expense_accounts fd |}.

Definition set_revenue_accounts (fd : FireflyData) (v : StrDict Json) : FireflyData :=
  {| fd_currencies := fd_currencies fd; fd_categories := fd_categories fd;
     fd_budgets := fd_budgets fd; fd_asset_accounts := fd_asset_accounts fd;
     fd_revenue_accounts := v;
     fd_expense_accounts := fd_expense_accounts fd |}.

Definition set_expense_accounts (fd : FireflyData) (v : StrDict Json) : FireflyData :=
  {| fd_currencies := fd_currencies fd; fd_categories := fd_categories fd;
     fd_budgets := fd_budgets fd; fd_asset_accounts := fd_asset_accounts fd;
     fd_revenue_accounts := fd_revenue_accounts fd;
     fd_expense_accounts := v |}.

(** [for data in response["data"]: categories[data["attributes"]["name"]] = int(data["id"])]:
    an assignment evaluates its right-hand side before the key. *)
Fixpoint index_categories (data : list Json) (acc : StrDict Z) : result (StrDict Z) :=
  match data with
  | [] => Ok acc
  | d :: rest =>
      id <- PyJson.item d "id" ;;
      id <- PyJson.int id ;;
      k <- attribute d "name" ;;
      k <- PyJson.str k ;;
      index_categories rest (sset acc k id)
  end.

Definition category_listing : Request := mkRequest GET "/api/v1/categories" None "" JNull.

(** The request that creates a category. *)
Definition post_category (category : string) : Request :=
  mkRequest POST "/api/v1/categories" None "" (JObj [("name", JStr category)]).

(** [getattr(self.firefly_data, f"{account_type}_accounts")] for the two kinds
    of payee account. *)
Definition payee_accounts (account_type : string) (fd : FireflyData) : StrDict Json :=
  if String.eqb account_type "revenue" then fd_revenue_accounts fd else fd_expense_accounts fd.

Definition set_payee_accounts (account_type : string) (fd : FireflyData) (v : StrDict Json)
  : FireflyData :=
  if String.eqb account_type "revenue" then set_revenue_accounts fd v
  else set_expense_accounts fd v.

Definition payee_account_data (account account_type : string) : list (string * PyVal) :=
  [("name", PStr account); ("active", PBool true); ("type", PStr account_type);
   ("include_net_worth", PBool true)].

(** The request that creates a payee account. *)
Definition post_payee_account (account account_type : string) : Request :=
  mkRequest POST "/api/v1/accounts" None "" (body_of (payee_account_data account account_type)).

Section SyncPayees.

Variable remote : Remote.

(** The body of the loop of [_create_categories] over the desired categories. *)
Definition sync_category (category : string) : IO unit :=
  fd <~ get_data ;;
  if smem (fd_categories fd) category then ret tt else
  response <~ request remote (post_category category) ;;
  created <~ lift (PyJson.item (content response) "data") ;;
  id <~ lift (PyJson.item created "id") ;;
  id <~ lift (PyJson.int id) ;;
  fd <~ get_data ;;
  put_data (set_categories fd (sset (fd_categories fd) category id)).

Definition _create_categories (categories : list string) : IO unit :=
  fd <~ get_data ;;
  if PyDict.truthy (fd_categories fd) then ret tt else
  data <~ get_all_pages remote "/api/v1/categories" ;;
  listed <~ lift (index_categories data (fd_categories fd)) ;;
  put_data (set_categories fd listed) ;;;
  for_each categories sync_category ;;;
  _update_cache.

(** The body of the loop of [_create_payee_accounts] over the desired
    accounts: an account created now is recorded by the identifier of the
    response, an account listed by the object of the listing. *)
Definition sync_payee_account (account_type account : string) : IO unit :=
  let data := payee_account_data account account_type in
  fd <~ get_data ;;
  match sget (payee_accounts account_type fd) account with
  | Some known =>
      differs <~ lift (_firefly_needs_update data known) ;;
      when differs
           (id <~ lift (PyJson.item known "id") ;;
            request remote (mkRequest PUT "/api/v1/accounts/" (Some id) "" (body_of data)) ;;;
            ret tt)
  | None =>
      response <~ request remote (post_payee_account account account_type) ;;
      created <~ lift (PyJson.item (content response) "data") ;;
      id <~ lift (PyJson.item created "id") ;;
      fd <~ get_data ;;
      put_data (set_payee_accounts account_type fd
                                   (sset (payee_accounts account_type fd) account id))
  end.

(** [revenue_accounts] and [expense_accounts] are the two lists of
    [self.data] the account type selects from. *)
Definition _create_payee_accounts (revenue_accounts expense_accounts : list string)
           (account_type : string) : IO unit :=
  if negb (str_in account_type ["revenue"; "expense"]) then raise AssertionError else
  let accounts :=
    if String.eqb account_type "revenue" then revenue_accounts else expense_accounts in
  fd <~ get_data ;;
  if PyDict.truthy (payee_accounts account_type fd) then ret tt else
  data <~ get_all_pages remote ("/api/v1/accounts?type=" ++ account_type) ;;
  listed <~ lift (index_by "name" (fun d => Ok d) data (payee_accounts account_type fd)) ;;
  put_data (set_payee_accounts account_type fd listed) ;;;
  for_each accounts (sync_payee_account account_type) ;;;
  _update_cache.

End SyncPayees.

(** The categories a run creates: those of the desired list that are not
    known, each once, in the order of their first appearance. *)
Fixpoint to_create (known : list string) (categories : list string) : list string :=
  match categories with
  | [] => []
  | c :: rest =>
      if str_in c known then to_create known rest else c :: to_create (c :: known) rest
  end.

(** The identifiers the server gives to what it creates are JSON strings. *)
Definition ids_are_strings (remote : Remote) : Prop :=
  forall sent_before request created id,
    PyJson.item (content (remote sent_before request)) "data" = Ok created ->
    PyJson.item created "id" = Ok id ->
    exists s, id = JStr s.


(** ** Further sample data *)

Module Fixture.

(** A server that lists one entity named Food with identifier 3 and answers
    every other request with a created entity of identifier 77. *)
Definition creating_server : Remote :=
  fun _ r =>
    match method r with
    | GET => mkResponse 200 (JObj [("data", JArr [Sample.budget_json "3" "Food" true])])
    | _ => mkResponse 200 (JObj [("data", JObj [("id", JStr "77")])])
    end.

Definition known_categories : FireflyData :=
  mkFireflyData [] [("Food", 3); ("Rent", 77)] [] [] [] [].

Definition known_payees : FireflyData :=
  mkFireflyData [] [] [] []
                [("Food", Sample.budget_json "3" "Food" true); ("Employer", JStr "77")] [].

End Fixture.


(** ** Rows of the budget export and what is derived from them *)

Module YNABBudget.

Record t : Type := mk {
  month : Arrow;
  category : string;
  master_category : string;
  sub_category : string;
  budgeted : Decimal;
  outflows : Decimal;
  category_balance : Decimal
}.

Definition is_hidden (bg : t) : bool :=
  String.eqb (master_category bg) "Hidden Categories".

Definition is_pre_ynab (bg : t) : bool :=
  PyStr.startswith (category bg) "Pre-YNAB Debt".

End YNABBudget.

Module BudgetHistory.

Record t : Type := mk {
  name : string;
  amount : Decimal;
  start : Arrow;
  end_ : Arrow
}.

End BudgetHistory.

(** [getattr(bg, _ynab_field_name(field))] for a row of the budget export. *)
Definition budget_field_of (f : Config.Field) (bg : YNABBudget.t) : string :=
  match f with
  | Config.Category => YNABBudget.category bg
  | Config.MasterCategory => YNABBudget.master_category bg
  | Config.SubCategory => YNABBudget.sub_category bg
  end.

(** [calendar.isleap] *)
Definition isleap (y : Z) : bool :=
  (y mod 4 =? 0) && (negb (y mod 100 =? 0) || (y mod 400 =? 0)).

(** [calendar.monthrange(year, month)[1]]: the number of days of the month;
    a month outside 1 to 12 is an error that is a ValueError. *)
Definition monthrange_days (y m : Z) : result Z :=
  if (1 <=? m) && (m <=? 12) then
    Ok (if m =? 2 then (if isleap y then 29 else 28)
        else if (m =? 4) || (m =? 6) || (m =? 9) || (m =? 11) then 30
        else 31)
  else Raise ValueError.

Definition this_month : string := "Available this month".
Definition next_month : string := "Available next month".

Section ProcessBudgets.

Variable self : Importer.

(** The order in which a set of names, and a set of pairs of a name and a
    mark, is iterated: not fixed by the language. *)
Variable iter_names : list string -> list string.
Variable iter_pairs : list (string * bool) -> list (string * bool).

(** [self._category(bg)] *)
Definition _category_of_budget (bg : YNABBudget.t) : string :=
  budget_field_of (Config.category_field (config self)) bg.

(** [self._budget(bg)] *)
Definition _budget_of_budget (bg : YNABBudget.t) : result string :=
  let budget := budget_field_of (Config.budget_field (config self)) bg in
  budget <-
    (if String.eqb (YNABBudget.master_category bg) "Hidden Categories"
     then
       inner <- index (PyStr.split budget "`") 1 ;;
       Ok (PyStr.strip inner ++ " (hidden)")
     else Ok budget) ;;
  let budget := PyStr.strip budget in
  Ok (PyDict.get_default String.eqb (Config.budget_mapping (config self))
                         (YNABBudget.category bg) budget).

(** The elements of the set of (budget, hidden) pairs, in the order of the
    rows. *)
Fixpoint budget_pairs (all_budgets : list YNABBudget.t) : result (list (string * bool)) :=
  match all_budgets with
  | [] => Ok []
  | bg :: rest =>
      if YNABBudget.is_pre_ynab bg then budget_pairs rest else
      budget <- _budget_of_budget bg ;;
      if PyStr.is_empty budget then budget_pairs rest else
      budget <- _budget_of_budget bg ;;
      pairs <- budget_pairs rest ;;
      Ok ((budget, YNABBudget.is_hidden bg) :: pairs)
  end.

(** [bg.month.replace(day=calendar.monthrange(bg.month.year, bg.month.month)[1])] *)
Definition end_of_month (d : Arrow) : result Arrow :=
  last <- monthrange_days (year d) (month d) ;;
  Ok {| year := year d; month := month d; day := last |}.

Fixpoint budget_history_of (all_budgets : list YNABBudget.t)
  : result (list BudgetHistory.t) :=
  match all_budgets with
  | [] => Ok []
  | bg :: rest =>
      if YNABBudget.is_pre_ynab bg then budget_history_of rest else
      budget <- _budget_of_budget bg ;;
      if PyStr.is_empty budget then budget_history_of rest else
      if negb (Dec.truthy (YNABBudget.budgeted bg)) then budget_history_of rest else
      name <- _budget_of_budget bg ;;
      last <- end_of_month (YNABBudget.month bg) ;;
      history <- budget_history_of rest ;;
      Ok (BudgetHistory.mk name (YNABBudget.budgeted bg) (YNABBudget.month bg) last
          :: history)
  end.

(** [_process_budgets]: the categories, the budgets and the budget history
    it leaves in [self.data]. *)
Definition _process_budgets (all_budgets : list YNABBudget.t)
  : result (list string * StrDict ImportData.Budget * list BudgetHistory.t) :=
  let categories :=
    (iter_names
       (map _category_of_budget
            (filter (fun bg => negb (PyStr.is_empty (_category_of_budget bg))
                               && negb (YNABBudget.is_hidden bg))
                    all_budgets))
     ++ [this_month; next_month])%list in
  pairs <- budget_pairs all_budgets ;;
  let budgets :=
    fold_left (fun d '(budget, hidden) =>
                 sset d budget (ImportData.mkBudget budget (negb hidden)))
              (iter_pairs pairs) [] in
  let budgets := sset budgets next_month (ImportData.mkBudget next_month true) in
  let budgets := sset budgets this_month (ImportData.mkBudget this_month true) in
  history <- budget_history_of all_budgets ;;
  Ok (categories, budgets, history).

End ProcessBudgets.

(** An iteration order of sets: each element once, in some order. *)
Definition is_set_order {A} (iter : list A -> list A) : Prop :=
  forall l, NoDup (iter l) /\ forall x, In x (iter l) <-> In x l.

(** One iteration order: by first appearance. *)
Fixpoint first_appearances {A} (eqb : A -> A -> bool) (l : list A) : list A :=
  match l with
  | [] => []
  | x :: rest => x :: filter (fun y => negb (eqb x y)) (first_appearances eqb rest)
  end.

Definition pair_eqb (a b : string * bool) : bool :=
  String.eqb (fst a) (fst b) && Bool.eqb (snd a) (snd b).


Module FixtureBudgets.

(** Two rows of a budget export for February 2020: Food with 200 budgeted,
    and the hidden category Gym. *)
Definition food_row : YNABBudget.t :=
  YNABBudget.mk (mkArrow 2020 2 1) "Everyday Expenses:Food" "Everyday Expenses" "Food"
                200 0 0.

Definition hidden_row : YNABBudget.t :=
  YNABBudget.mk (mkArrow 2020 2 1) "Hidden Categories:Everyday Expenses ` Gym ` "
                "Hidden Categories" "Everyday Expenses ` Gym ` " 0 0 0.

Definition rows : list YNABBudget.t := [food_row; hidden_row].

Definition names_order : list string -> list string := first_appearances String.eqb.
Definition pairs_order : list (string * bool) -> list (string * bool) :=
  first_appearances pair_eqb.

(** A purchase of food in the register. *)
Definition food_purchase : YNABTransaction :=
  mkYNABTransaction "A" "" (mkArrow 2020 2 3) "Market" "Everyday Expenses:Food"
                    "Everyday Expenses" "Food" "" 20 0 "" 80.

(** What [_process_budgets] derives from the two rows. *)
Definition categories : list string := ["Food"; this_month; next_month].

Definition budgets : StrDict ImportData.Budget :=
  [("Food", ImportData.mkBudget "Food" true);
   ("Gym (hidden)", ImportData.mkBudget "Gym (hidden)" false);
   (next_month, ImportData.mkBudget next_month true);
   (this_month, ImportData.mkBudget this_month true)].

Definition history : list BudgetHistory.t :=
  [BudgetHistory.mk "Food" 200 (mkArrow 2020 2 1) (mkArrow 2020 2 29)].

End FixtureBudgets.


(** ** Accounts derived from the register *)

(** What a call of the date parser of [arrow] comes to: a date, the error
    of a text that does not parse, or another exception. *)
Inductive Parse : Type :=
| Parsed (d : Arrow)
| ParserError
| ParseRaise (e : exn).

(** [ImportData.Account.Role[role.name]] *)
Definition import_role (r : Config.Role) : ImportData.Role :=
  match r with
  | Config.credit_card => ImportData.credit_card
  | Config.default => ImportData.default
  | Config.savings => ImportData.savings
  | Config.cash => ImportData.cash
  end.

(** [arrow.get("2020-01-01")] *)
Definition default_payment_date : Arrow := mkArrow 2020 1 1.

(** [next(tx.date for tx in txs if _is_transfer(tx) and _transfer_account(tx) == acc)];
    [None] stands for the end of the iteration. *)
Fixpoint first_transfer_to (acc : string) (txs : list YNABTransaction)
  : result (option Arrow) :=
  match txs with
  | [] => Ok None
  | tx :: rest =>
      if _is_transfer tx then
        name <- _transfer_account tx ;;
        if String.eqb name acc then Ok (Some (date tx)) else first_transfer_to acc rest
      else first_transfer_to acc rest
  end.

(** [{tx.account: (tx.date, tx.inflow - tx.outflow) for tx in txs if tx.payee == "Starting Balance"}] *)
Definition starting_balances_of (txs : list YNABTransaction) : StrDict (Arrow * Decimal) :=
  fold_left (fun d tx =>
               if String.eqb (payee tx) "Starting Balance"
               then sset d (account tx) (date tx, (inflow tx - outflow tx)%Q)
               else d)
            txs [].

Section ProcessAccounts.

Variable self : Importer.

(** The order in which a set of names is iterated. *)
Variable iter_names : list string -> list string.

(** [arrow.get(text)] and [arrow.get(text, self.config.date_format)] *)
Variable parse_date_iso : string -> Parse.
Variable parse_date_configured : string -> Parse.

Variable all_transactions : list YNABTransaction.

Definition monthly_payment_date_of (acc : string) (account_config : Config.Account.t)
  : result Arrow :=
  if negb (PyStr.is_empty (Config.Account.monthly_payment_date account_config)) then
    match parse_date_iso (Config.Account.monthly_payment_date account_config) with
    | Parsed d => Ok d
    | ParseRaise e => Raise e
    | ParserError =>
        match parse_date_configured (Config.Account.monthly_payment_date account_config) with
        | Parsed d => Ok d
        | ParseRaise e => Raise e
        | ParserError => Raise ValueError
        end
    end
  else
    found <- first_transfer_to acc all_transactions ;;
    match found with
    | Some d => Ok d
    | None => Ok default_payment_date
    end.

(** The body of the loop over the account names. *)
Definition asset_account_of (starting_balances : StrDict (Arrow * Decimal)) (acc : string)
  : result ImportData.Account :=
  '(start_date, balance) <- sitem starting_balances acc ;;
  let account_config := _acc_config self acc in
  let role := import_role (Config.Account.role account_config) in
  monthly_payment_date <-
    match role with
    | ImportData.credit_card =>
        d <- monthly_payment_date_of acc account_config ;; Ok (Some d)
    | _ => Ok None
    end ;;
  Ok (ImportData.mkAccount acc start_date monthly_payment_date role balance).

Fixpoint asset_accounts_of (starting_balances : StrDict (Arrow * Decimal))
         (account_names : list string) : result (list ImportData.Account) :=
  match account_names with
  | [] => Ok []
  | acc :: rest =>
      account <- asset_account_of starting_balances acc ;;
      accounts <- asset_accounts_of starting_balances rest ;;
      Ok (account :: accounts)
  end.

(** [_process_accounts]: the asset, revenue and expense accounts it leaves in
    [self.data]. *)
Definition _process_accounts
  : result (list ImportData.Account * list string * list string) :=
  let account_names := map account all_transactions in
  assert (forallb (fun acc => str_in acc account_names)
                  (map fst (Config.accounts (config self)))) ;;
  let starting_balances := starting_balances_of all_transactions in
  asset_accounts <- asset_accounts_of starting_balances (iter_names account_names) ;;
  let revenue_accounts :=
    iter_names (map (_payee self)
                    (filter (fun tx => Dec.ltb 0 (inflow tx) && negb (_is_transfer tx))
                            all_transactions)) in
  let expense_accounts :=
    iter_names (map (_payee self)
                    (filter (fun tx => Dec.ltb 0 (outflow tx) && negb (_is_transfer tx))
                            all_transactions)) in
  Ok (asset_accounts, revenue_accounts, expense_accounts).

End ProcessAccounts.

(** The last row of a list that is the starting balance of an account. *)
Definition starting_row_of (acc : string) (txs : list YNABTransaction)
  : option YNABTransaction :=
  find (fun tx => String.eqb (payee tx) "Starting Balance" && String.eqb (account tx) acc)
       (rev txs).


Module FixtureAccounts.

(** A register of two rows of account A: its starting balance of 1000 and a
    purchase. *)
Definition start_A : YNABTransaction :=
  mkYNABTransaction "A" "" (mkArrow 2020 1 1) "Starting Balance" "" "" "" "" 0 1000 "" 1000.

Definition register : list YNABTransaction := [start_A; Sample.early_row].

(** A parser that accepts no text. *)
Definition no_parse : string -> Parse := fun _ => ParserError.

Definition assets : list ImportData.Account :=
  [ImportData.mkAccount "A" (mkArrow 2020 1 1) None ImportData.default 1000].

End FixtureAccounts.


(** ** The pages of a listing

    [FireflySession.get_all_pages] with its loop over the pages.  The loop
    runs for as long as the server reports a current page that differs from
    the total, so the model takes a bound on the number of turns and says so
    when the bound is reached. *)

Module Pages.

(** A GET with its query parameters. *)
Record PageRequest : Type := mkPageRequest {
  page_url : string;
  page_params : option (StrDict Json)
}.

Definition PageServer : Type := list PageRequest -> PageRequest -> Response.

(** How a call ends: with a value, with an exception, or not within the
    bound. *)
Inductive Run (A : Type) : Type :=
| Returned (a : A)
| Raised (e : exn)
| Unfinished.

Arguments Returned {A} a.
Arguments Raised {A} e.
Arguments Unfinished {A}.

(** [a == b] between two JSON values: numbers by value, a boolean as 0 or 1,
    lists element by element, objects key by key. *)
Fixpoint json_eqb (a b : Json) {struct a} : bool :=
  match a, b with
  | JNull, JNull => true
  | JBool x, JBool y => Bool.eqb x y
  | JBool x, JNum q => Qeq_bool (bool_num x) q
  | JNum q, JBool y => Qeq_bool q (bool_num y)
  | JNum p, JNum q => Qeq_bool p q
  | JStr s, JStr t => String.eqb s t
  | JArr xs, JArr ys =>
      (fix all2 (xs ys : list Json) {struct xs} : bool :=
         match xs, ys with
         | [], [] => true
         | x :: xs', y :: ys' => json_eqb x y && all2 xs' ys'
         | _, _ => false
         end) xs ys
  | JObj fs, JObj gs =>
      (List.length fs =? List.length gs)%nat
      && (fix all (fs : list (string * Json)) {struct fs} : bool :=
            match fs with
            | [] => true
            | (k, v) :: fs' =>
                match sget gs k with
                | Some w => json_eqb v w
                | None => false
                end && all fs'
            end) fs
  | _, _ => false
  end.

(** [response.json()["meta"]["pagination"][key]] *)
Definition pagination (response : Json) (key : string) : result Json :=
  meta <- PyJson.item response "meta" ;;
  pagination <- PyJson.item meta "pagination" ;;
  PyJson.item pagination key.

(** [j + 1] *)
Definition plus_one (j : Json) : result Json :=
  match j with
  | JNum q => Ok (JNum (q + 1)%Q)
  | JBool b => Ok (JNum (bool_num b + 1)%Q)
  | _ => Raise TypeError
  end.

(** [l.extend(more)] for a list [l]: the elements of a list, the keys of an
    object, the characters of a string. *)
Definition extended (l : list Json) (more : Json) : result (list Json) :=
  match more with
  | JArr m => Ok (l ++ m)%list
  | JObj fs => Ok (l ++ map (fun kv => JStr (fst kv)) fs)%list
  | JStr s => Ok (l ++ map (fun c => JStr (String c EmptyString)) (chars s))%list
  | _ => Raise TypeError
  end.

Section Session.

Variable server : PageServer.
Variable url : string.

(** [self.get(url, params=params)] and [response.json()] *)
Definition get (params : option (StrDict Json)) (sent : list PageRequest)
  : result Json * list PageRequest :=
  let r := mkPageRequest url params in
  let response := server sent r in
  if (400 <=? status_code response) && (status_code response <? 600)
  then (Raise (HTTPError (status_code response) (content response)), r :: sent)
  else (Ok (content response), r :: sent).

(** The [while] loop, for at most [fuel] turns: [data] is
    [all_response["data"]]. *)
Fixpoint pages_loop (fuel : nat) (params : option (StrDict Json)) (response data : Json)
         (sent : list PageRequest) : Run Json * list PageRequest :=
  match (current_page <- pagination response "current_page" ;;
         total_pages <- pagination response "total_pages" ;;
         Ok (negb (json_eqb current_page total_pages))) with
  | Raise e => (Raised e, sent)
  | Ok false => (Returned data, sent)
  | Ok true =>
      match fuel with
      | O => (Unfinished, sent)
      | S fuel' =>
          let params :=
            match params with
            | Some (p :: ps) => p :: ps
            | _ => []
            end in
          match (current_page <- pagination response "current_page" ;;
                 plus_one current_page) with
          | Raise e => (Raised e, sent)
          | Ok next =>
              let params := sset params "page" next in
              match get (Some params) sent with
              | (Raise e, sent') => (Raised e, sent')
              | (Ok response', sent') =>
                  match data with
                  | JArr l =>
                      match (more <- PyJson.item response' "data" ;; extended l more) with
                      | Raise e => (Raised e, sent')
                      | Ok l' => pages_loop fuel' (Some params) response' (JArr l') sent'
                      end
                  | _ => (Raised AttributeError, sent')
                  end
              end
          end
      end
  end.

(** [get_all_pages(url, params)["data"]] *)
Definition get_all_pages (fuel : nat) (params : option (StrDict Json))
           (sent : list PageRequest) : Run Json * list PageRequest :=
  match get params sent with
  | (Raise e, sent') => (Raised e, sent')
  | (Ok response, sent') =>
      match PyJson.item response "data" with
      | Raise e => (Raised e, sent')
      | Ok data => pages_loop fuel params response data sent'
      end
  end.

End Session.

(** The page a request asks for: the first when it names none. *)
Definition page_of (r : PageRequest) : Q :=
  match page_params r with
  | Some p =>
      match sget p "page" with
      | Some (JNum q) => q
      | _ => 1%Q
      end
  | None => 1%Q
  end.

(** The response of a server that holds [pages] for the page [k], counted
    from 1. *)
Definition page_json (pages : list (list Json)) (k : nat) : Json :=
  JObj [("data", JArr (nth (k - 1) pages []));
        ("meta", JObj [("pagination",
                        JObj [("current_page", JNum (inject_Z (Z.of_nat k)));
                              ("total_pages",
                               JNum (inject_Z (Z.of_nat (List.length pages))))])])].

(** A server that serves the pages of a listing under [url]. *)
Definition serves (server : PageServer) (url : string) (pages : list (list Json)) : Prop :=
  forall sent r k,
    page_url r = url -> (1 <= k <= List.length pages)%nat ->
    (page_of r == inject_Z (Z.of_nat k))%Q ->
    server sent r = mkResponse 200 (page_json pages k).

End Pages.


Module FixturePages.

(** A listing of three items on two pages. *)
Definition pages : list (list Json) := [[JStr "a"]; [JStr "b"; JStr "c"]].

(** A server that answers with the page asked for. *)
Definition server : Pages.PageServer :=
  fun _ r =>
    mkResponse 200
      (Pages.page_json pages
         (Z.to_nat (Qnum (Pages.page_of r) / Zpos (Qden (Pages.page_of r))))).

End FixturePages.


(** ** Notions for the requests a synchronisation sends *)

(** Computations all of whose requests, whatever the server answers, satisfy
    [P]. *)
Definition sends_only (P : Request -> Prop) {A} (m : IO A) : Prop :=
  forall w, exists new, sent (snd (m w)) = (new ++ sent w)%list /\ Forall P new.

(** The requests the synchronisation of currencies may send: the listing,
    and for a currency code the calls that make it the default (for the
    configured currency alone), enable it (for the configured currency, INR
    and EUR alone) or disable it (for any other code alone). *)
Definition currency_request (self : Importer) (r : Request) : Prop :=
  r = mkRequest GET "/api/v1/currencies" None "" JNull
  \/ exists code,
       r = mkRequest POST "/api/v1/currencies/" (Some (JStr code)) (action r) JNull
       /\ ((action r = "/default" /\ code = Config.currency (config self))
           \/ (action r = "/enable"
               /\ str_in code [Config.currency (config self); "INR"; "EUR"] = true)
           \/ (action r = "/disable"
               /\ str_in code [Config.currency (config self); "INR"; "EUR"] = false)).


(** * Properties *)

(** ** Decimal comparisons *)

Lemma ltb_lt (x y : Decimal) : Dec.ltb x y = true <-> (x < y)%Q.
Proof.
  unfold Dec.ltb. rewrite negb_true_iff. split; intro H.
  - apply Qnot_le_lt. intro L. apply Qle_bool_iff in L. congruence.
  - destruct (Qle_bool y x) eqn:E; [|reflexivity].
    apply Qle_bool_iff in E. exfalso. exact (Qlt_not_le _ _ H E).
Qed.

Lemma ltb_nlt (x y : Decimal) : Dec.ltb x y = false <-> ~ (x < y)%Q.
Proof.
  rewrite <- ltb_lt. destruct (Dec.ltb x y); split; congruence.
Qed.

(** ** Correcting the direction of a transfer row *)

(** C2.  For a transfer row whose payee text yields the counter-account [name]:
    with a positive outflow the row comes back with its payee replaced by
    [name] and nothing else changed; otherwise (the inflow is the positive
    side) the account becomes [name], the payee the row's own account, outflow
    and inflow change places and the running balance is the sentinel. *)
Theorem correct_transfer_to_from_cases (tx : YNABTransaction) (name : string) :
  _is_transfer tx = true ->
  _transfer_account tx = Ok name ->
  ((0 < outflow tx)%Q ->
   _correct_transfer_to_from tx =
   Ok {| account := account tx; flag := flag tx; date := date tx; payee := name;
         category := category tx; master_category := master_category tx;
         sub_category := sub_category tx; memo := memo tx;
         outflow := outflow tx; inflow := inflow tx; cleared := cleared tx;
         running_balance := running_balance tx |})
  /\
  (~ (0 < outflow tx)%Q -> (0 < inflow tx)%Q ->
   _correct_transfer_to_from tx =
   Ok {| account := name; flag := flag tx; date := date tx; payee := account tx;
         category := category tx; master_category := master_category tx;
         sub_category := sub_category tx; memo := memo tx;
         outflow := inflow tx; inflow := outflow tx; cleared := cleared tx;
         running_balance := balance_sentinel |}).
Proof.
  intros Ht Hn. unfold _correct_transfer_to_from. rewrite Ht, Hn. cbn [bind].
  split.
  - intro Hpos. apply ltb_lt in Hpos. rewrite Hpos. reflexivity.
  - intros Hneg _. apply ltb_nlt in Hneg. rewrite Hneg. reflexivity.
Qed.

Lemma correct_transfer_to_from_cases_witness :
  _correct_transfer_to_from Sample.row_B =
  Ok (mkYNABTransaction "A" "" Sample.jan15 "B" "" "" "" "" 50 0 "" balance_sentinel).
Proof.
  refine (proj2 (correct_transfer_to_from_cases Sample.row_B (name := "A")
                   eq_refl eq_refl) _ _).
  - intro H. vm_compute in H. discriminate H.
  - reflexivity.
Defined.

(** For a payee of the plain shape the counter-account is always found: the
    marker of a transfer contains the separator the payee is split at. *)
Lemma prefix_app (p s : string) :
  String.prefix p s = true -> exists t, s = p ++ t.
Proof.
  revert s. induction p as [|a p IH]; intros s H.
  - exists s. reflexivity.
  - destruct s as [|b s]; [discriminate|]. cbn in H.
    destruct (Ascii.ascii_dec a b) as [->|]; [|discriminate].
    destruct (IH _ H) as [t ->]. exists t. reflexivity.
Qed.

Lemma contains_tail (sub : string) (c : ascii) (s : string) :
  PyStr.contains sub s = true -> PyStr.contains sub (String c s) = true.
Proof. intro H. cbn [PyStr.contains]. rewrite H. apply orb_true_r. Qed.

Lemma prefix_of_app (p t : string) : String.prefix p (p ++ t) = true.
Proof.
  induction p as [|a p IH]; cbn.
  - destruct t; reflexivity.
  - destruct (Ascii.ascii_dec a a) as [_|N]; [exact IH|contradiction].
Qed.

Lemma contains_prefix (sub s : string) :
  String.prefix sub s = true -> PyStr.contains sub s = true.
Proof. intro H. destruct s; cbn [PyStr.contains]; rewrite H; reflexivity. Qed.

Lemma contains_marker_separator (s : string) :
  PyStr.contains "Transfer : " s = true -> PyStr.contains " : " s = true.
Proof.
  induction s as [|c s IH]; intro H.
  - discriminate H.
  - cbn [PyStr.contains] in H. apply orb_true_iff in H. destruct H as [H|H].
    + apply prefix_app in H. destruct H as [t Ht]. rewrite Ht.
      change ("Transfer : " ++ t)
        with (String "T" (String "r" (String "a" (String "n" (String "s"
               (String "f" (String "e" (String "r" (" : " ++ t))))))))).
      do 8 apply contains_tail. apply contains_prefix, prefix_of_app.
    + apply contains_tail. exact (IH H).
Qed.

Lemma split_from_nonempty (sep : string) (s : string) :
  forall skip, PyStr.split_from sep skip s <> [].
Proof.
  induction s as [|c s IH]; intro skip; cbn [PyStr.split_from].
  - discriminate.
  - destruct skip; [|apply IH].
    destruct (String.prefix sep (String c s)); [discriminate|].
    specialize (IH 0%nat). destruct (PyStr.split_from sep 0 s); [contradiction|discriminate].
Qed.

Lemma split_has_second (s : string) :
  PyStr.contains " : " s = true -> exists x, index (PyStr.split s " : ") 1 = Ok x.
Proof.
  unfold PyStr.split. induction s as [|c s IH]; intro H.
  - discriminate H.
  - cbn [PyStr.split_from]. cbn [PyStr.contains] in H.
    destruct (String.prefix " : " (String c s)) eqn:Hp.
    + pose proof (split_from_nonempty " : " s (String.length " : " - 1)) as Hne.
      destruct (PyStr.split_from " : " (String.length " : " - 1) s) as [|x l];
        [contradiction|]. exists x. reflexivity.
    + cbn [orb] in H. destruct (IH H) as [x Hx].
      destruct (PyStr.split_from " : " 0 s) as [|h [|h2 l]]; try discriminate Hx.
      exists h2. reflexivity.
Qed.

Lemma transfer_account_plain (tx : YNABTransaction) :
  _is_transfer tx = true ->
  PyStr.contains " / Transfer : " (payee tx) = false ->
  exists name, _transfer_account tx = Ok name.
Proof.
  unfold _is_transfer, _transfer_account. intros Ht Hc. rewrite Hc.
  apply split_has_second, contains_marker_separator. exact Ht.
Qed.

(** The composite shape yields the name after the marker; a payee with a
    further separator before the marker yields none. *)
Example transfer_account_composite :
  _transfer_account (replace_payee Sample.row_A "Rent / Transfer : Savings") = Ok "Savings"
  /\ _transfer_account (replace_payee Sample.row_A "A / B / Transfer : C") = Raise IndexError.
Proof. split; vm_compute; reflexivity. Qed.

(** ** Dictionaries keyed up to an equivalence *)

Section DictFacts.

Variables K V : Type.
Variable eqb : K -> K -> bool.
Hypothesis eqb_sym : forall a b, eqb a b = eqb b a.
Hypothesis eqb_trans : forall a b c, eqb a b = true -> eqb b c = true -> eqb a c = true.

Lemma get_set (d : PyDict.t K V) (k k2 : K) (v : V) :
  PyDict.get eqb (PyDict.set eqb d k v) k2 =
  if eqb k k2 then Some v else PyDict.get eqb d k2.
Proof.
  induction d as [|[k0 v0] d IH]; cbn.
  - reflexivity.
  - destruct (eqb k0 k) eqn:E0; cbn.
    + destruct (eqb k k2) eqn:E.
      * rewrite (eqb_trans E0 E). reflexivity.
      * destruct (eqb k0 k2) eqn:E2; [|reflexivity].
        rewrite eqb_sym in E0. rewrite (eqb_trans E0 E2) in E. discriminate.
    + rewrite IH. destruct (eqb k0 k2) eqn:E2; [|reflexivity].
      destruct (eqb k k2) eqn:E; [|reflexivity].
      rewrite (eqb_sym k k2) in E. rewrite (eqb_trans E2 E) in E0. discriminate.
Qed.

Lemma get_compat (d : PyDict.t K V) (k k2 : K) :
  eqb k k2 = true -> PyDict.get eqb d k = PyDict.get eqb d k2.
Proof.
  intro E. induction d as [|[k0 v0] d IH]; cbn; [reflexivity|].
  rewrite IH. destruct (eqb k0 k) eqn:E0.
  - rewrite (eqb_trans E0 E). reflexivity.
  - destruct (eqb k0 k2) eqn:E2; [|reflexivity].
    rewrite eqb_sym in E. rewrite (eqb_trans E2 E) in E0. discriminate.
Qed.

Lemma get_default_set (d : PyDict.t K V) (k k2 : K) (v dflt : V) :
  PyDict.get_default eqb (PyDict.set eqb d k v) k2 dflt =
  if eqb k k2 then v else PyDict.get_default eqb d k2 dflt.
Proof.
  unfold PyDict.get_default. rewrite get_set. destruct (eqb k k2); reflexivity.
Qed.

End DictFacts.

Lemma date_eqb_refl (a : Arrow) : Date.eqb a a = true.
Proof. unfold Date.eqb. rewrite !Z.eqb_refl. reflexivity. Qed.

Lemma date_eqb_eq (a b : Arrow) : Date.eqb a b = true <-> a = b.
Proof.
  unfold Date.eqb. split.
  - intro H. apply andb_prop in H as [H Hd]. apply andb_prop in H as [Hy Hm].
    apply Z.eqb_eq in Hy, Hm, Hd. destruct a, b; cbn in *; congruence.
  - intros ->. apply date_eqb_refl.
Qed.

Lemma key_eqb_refl (k : TransferKey) : key_eqb k k = true.
Proof.
  destruct k as [[[a b] d] q]. cbn.
  rewrite !String.eqb_refl, date_eqb_refl. apply Qeq_bool_refl.
Qed.

Lemma key_eqb_sym (a b : TransferKey) : key_eqb a b = key_eqb b a.
Proof.
  destruct a as [[[a1 a2] ad] aq], b as [[[b1 b2] bd] bq]. cbn.
  rewrite (String.eqb_sym a1), (String.eqb_sym a2). unfold Dec.eqb.
  rewrite (Qeq_bool_comm aq). f_equal. f_equal.
  unfold Date.eqb. rewrite (Z.eqb_sym (year ad)), (Z.eqb_sym (month ad)), (Z.eqb_sym (day ad)).
  reflexivity.
Qed.

Lemma key_eqb_trans (a b c : TransferKey) :
  key_eqb a b = true -> key_eqb b c = true -> key_eqb a c = true.
Proof.
  destruct a as [[[a1 a2] ad] aq], b as [[[b1 b2] bd] bq], c as [[[c1 c2] cd] cq]. cbn.
  rewrite !andb_true_iff, !String.eqb_eq, !date_eqb_eq.
  intros [[[-> ->] ->] Q1] [[[-> ->] ->] Q2].
  repeat split; try reflexivity. exact (Qeq_bool_trans _ _ _ Q1 Q2).
Qed.

Lemma key_eqb_compat (a b k : TransferKey) :
  key_eqb a b = true -> key_eqb a k = key_eqb b k.
Proof.
  intro H. destruct (key_eqb b k) eqn:E.
  - exact (key_eqb_trans _ _ _ H E).
  - destruct (key_eqb a k) eqn:E'; [|reflexivity].
    rewrite key_eqb_sym in H. rewrite (key_eqb_trans _ _ _ H E') in E. discriminate.
Qed.

(** ** Pairing the two rows of a transfer *)

Section Pairing.

Variable self : Importer.
Variable budgets : StrDict ImportData.Budget.
Variable categories : list string.

Let row := process_row self budgets categories.
Let rows := process_rows self budgets categories.

Lemma pending_compat m k k2 : key_eqb k k2 = true -> pending m k = pending m k2.
Proof.
  intro E. unfold pending, PyDict.get_default.
  rewrite (get_compat key_eqb key_eqb_sym key_eqb_trans m _ _ E). reflexivity.
Qed.

(** A row that is a sighting of [k]: it is kept exactly when no earlier
    sighting is pending, and it flips the parity of [k] and of no other key. *)
Lemma process_row_sighting st tx k st1 out :
  pairing_key tx = Some k ->
  row st tx = Ok (st1, out) ->
  (forall k2, pending (transfers_seen_map st1) k2 =
              xorb (pending (transfers_seen_map st) k2) (key_eqb k k2))
  /\ (if pending (transfers_seen_map st) k
      then out = None
      else exists tx', _correct_transfer_to_from tx = Ok tx' /\ is_transfer_leg tx' out).
Proof.
  unfold pairing_key, row, process_row. intros Hk H.
  destruct (_is_transfer tx) eqn:Ht; [|discriminate].
  destruct (_correct_transfer_to_from tx) as [tx'|] eqn:Hc; [|discriminate].
  injection Hk as <-.
  destruct (_budget self tx) as [budget|]; [|discriminate]. cbn [bind] in H.
  match type of H with bind ?c _ = _ => destruct c as [cat|]; [|discriminate] end.
  cbn [bind transfers_seen_map category_var] in H.
  set (m := transfers_seen_map st) in *.
  set (k := transfer_key tx') in *.
  fold (pending m k) in H.
  assert (Hflip : forall v k2, (v mod 2 =? 1) = negb (pending m k) ->
            pending (PyDict.set key_eqb m k v) k2 = xorb (pending m k2) (key_eqb k k2)).
  { intros v k2 Hv. unfold pending at 1.
    rewrite (get_default_set key_eqb key_eqb_sym key_eqb_trans).
    destruct (key_eqb k k2) eqn:E.
    - rewrite Hv, (pending_compat m _ _ E). destruct (pending m k2); reflexivity.
    - fold (pending m k2). destruct (pending m k2); reflexivity. }
  destruct (pending m k) eqn:Hp.
  - injection H as <- <-. cbn [transfers_seen_map]. split; [|reflexivity].
    intro k2. apply Hflip. cbn [negb]. unfold pending in Hp.
    apply Z.eqb_eq in Hp. apply Z.eqb_neq.
    set (s := PyDict.get_default key_eqb m k 0) in *. clearbody s.
    intro Hs. pose proof (Z.mod_pos_bound s 2 eq_refl).
    pose proof (Z.div_mod s 2 ltac:(discriminate)).
    pose proof (Z.div_mod (s + 1) 2 ltac:(discriminate)). lia.
  - destruct (_amount self tx') as [amount|]; [|discriminate]. cbn [bind] in H.
    destruct (_description self tx') as [description|]; [|discriminate]. cbn [bind] in H.
    destruct (_transfer_foreign_amount self tx') as [fa|]; [|discriminate]. cbn [bind] in H.
    injection H as <- <-. cbn [transfers_seen_map]. split.
    + intro k2. apply Hflip. reflexivity.
    + exists tx'. split; [reflexivity|]. eexists _, _. reflexivity.
Qed.

(** A row that is no transfer leaves every counter alone. *)
Lemma process_row_other st tx st1 out :
  _is_transfer tx = false ->
  row st tx = Ok (st1, out) ->
  transfers_seen_map st1 = transfers_seen_map st.
Proof.
  unfold row, process_row. intros Ht H. rewrite Ht in H.
  destruct (_budget self tx) as [budget|]; [|discriminate]. cbn [bind] in H.
  match type of H with bind ?c _ = _ => destruct c as [cat|]; [|discriminate] end.
  cbn [bind transfers_seen_map category_var] in H.
  destruct (Dec.ltb 0 (outflow tx)); [|destruct (Dec.ltb 0 (inflow tx))];
    try discriminate;
    (destruct (_amount self tx); [|discriminate]); cbn [bind] in H;
    (destruct (_description self tx); [|discriminate]); cbn [bind] in H;
    (match type of H with bind ?c _ = _ => destruct c; [|discriminate] end);
    cbn [bind] in H; injection H as <- _; reflexivity.
Qed.

(** A row that is a transfer and is processed has a pairing key. *)
Lemma processed_transfer_has_key st tx st1 out :
  _is_transfer tx = true ->
  row st tx = Ok (st1, out) ->
  exists k, pairing_key tx = Some k.
Proof.
  unfold row, process_row, pairing_key. intros Ht H. rewrite Ht in *.
  destruct (_budget self tx) as [budget|]; [|discriminate]. cbn [bind] in H.
  match type of H with bind ?c _ = _ => destruct c as [cat|]; [|discriminate] end.
  cbn [bind] in H.
  destruct (_correct_transfer_to_from tx) as [tx'|]; [|discriminate].
  eexists. reflexivity.
Qed.

Lemma is_transfer_of_key tx k : pairing_key tx = Some k -> _is_transfer tx = true.
Proof.
  unfold pairing_key. destruct (_is_transfer tx); [reflexivity|discriminate].
Qed.

(** Every processed row flips the parity of the keys it is a sighting of. *)
Lemma process_row_parity st tx st1 out k :
  row st tx = Ok (st1, out) ->
  pending (transfers_seen_map st1) k =
  xorb (pending (transfers_seen_map st) k) (sighting k tx).
Proof.
  intro H. destruct (_is_transfer tx) eqn:Ht.
  - destruct (processed_transfer_has_key _ _ Ht H) as [k0 Hk0].
    destruct (process_row_sighting _ _ Hk0 H) as [Hflip _].
    unfold sighting. rewrite Hk0. apply Hflip.
  - rewrite (process_row_other _ _ Ht H).
    unfold sighting, pairing_key. rewrite Ht. symmetry. apply xorb_false_r.
Qed.

Lemma sightings_cons k tx txs :
  Nat.odd (sightings k (tx :: txs)) = xorb (sighting k tx) (Nat.odd (sightings k txs)).
Proof.
  unfold sightings. cbn [filter]. destruct (sighting k tx); cbn [List.length].
  - rewrite Nat.odd_succ, <- Nat.negb_odd. reflexivity.
  - reflexivity.
Qed.

(** The outcomes of a run of rows: one per row; a sighting is kept exactly
    when the sightings of its key so far, with the one pending at the start,
    are even in number. *)
Lemma process_rows_alternate txs :
  forall st st' outs,
    rows st txs = Ok (st', outs) ->
    List.length outs = List.length txs
    /\ (forall k, pending (transfers_seen_map st') k =
                  xorb (pending (transfers_seen_map st) k) (Nat.odd (sightings k txs)))
    /\ (forall i tx k,
           nth_error txs i = Some tx -> pairing_key tx = Some k ->
           exists out, nth_error outs i = Some out /\
             if xorb (pending (transfers_seen_map st) k)
                     (Nat.odd (sightings k (firstn i txs)))
             then out = None
             else exists tx', _correct_transfer_to_from tx = Ok tx'
                              /\ is_transfer_leg tx' out).
Proof.
  induction txs as [|tx0 rest IH]; intros st st' outs H.
  - cbn in H. injection H as <- <-. split; [reflexivity|]. split.
    + intro k. cbn. symmetry. apply xorb_false_r.
    + intros [|i] tx k Hn; discriminate Hn.
  - unfold rows in H. cbn [process_rows] in H.
    destruct (process_row self budgets categories st tx0) as [[st1 out0]|] eqn:H0;
      [|discriminate]. cbn [bind] in H.
    destruct (process_rows self budgets categories st1 rest) as [[st2 outs']|] eqn:Hr;
      [|discriminate]. cbn [bind] in H. injection H as <- <-.
    destruct (IH _ _ _ Hr) as (Hlen & Hpar & Hout).
    split; [cbn; congruence|]. split.
    + intro k. rewrite Hpar, (process_row_parity _ _ k H0), sightings_cons.
      apply xorb_assoc.
    + intros [|i] tx k Hn Hk.
      * injection Hn as ->. exists out0. split; [reflexivity|].
        cbn [firstn]. unfold sightings at 1. cbn [filter List.length Nat.odd Nat.even].
        rewrite xorb_false_r.
        exact (proj2 (process_row_sighting _ _ Hk H0)).
      * cbn [nth_error] in Hn |- *.
        destruct (Hout i tx k Hn Hk) as (out & Ho & Hcase).
        exists out. split; [exact Ho|].
        cbn [firstn]. rewrite sightings_cons, <- xorb_assoc.
        rewrite <- (process_row_parity _ _ k H0). exact Hcase.
Qed.

(** Of the sightings of a key, every second one is kept, starting with the
    first unless one is pending. *)
Lemma process_rows_kept k txs :
  forall st st' outs,
    rows st txs = Ok (st', outs) ->
    kept_sightings k txs outs =
    Nat.div2 (sightings k txs + (if pending (transfers_seen_map st) k then 0 else 1)).
Proof.
  induction txs as [|tx0 rest IH]; intros st st' outs H.
  - cbn in H. injection H as <- <-. cbn. destruct (pending _ k); reflexivity.
  - unfold rows in H. cbn [process_rows] in H.
    destruct (process_row self budgets categories st tx0) as [[st1 out0]|] eqn:H0;
      [|discriminate]. cbn [bind] in H.
    destruct (process_rows self budgets categories st1 rest) as [[st2 outs']|] eqn:Hr;
      [|discriminate]. cbn [bind] in H. injection H as <- <-.
    specialize (IH _ _ _ Hr). pose proof (process_row_parity _ _ k H0) as Hpar.
    rewrite Hpar in IH.
    unfold kept_sightings, sightings in *. cbn [combine filter fst snd].
    destruct (sighting k tx0) eqn:Hs; cbn [andb].
    + unfold sighting in Hs. destruct (pairing_key tx0) as [k0|] eqn:Hk0; [|discriminate].
      destruct (process_row_sighting _ _ Hk0 H0) as [_ Hout].
      rewrite (pending_compat _ _ _ Hs) in Hout.
      destruct (pending (transfers_seen_map st) k); cbn [xorb negb] in *.
      * subst out0. rewrite IH. cbn [List.length]. f_equal. lia.
      * destruct Hout as (tx' & _ & meta & fa & ->). cbn [List.length]. rewrite IH.
        rewrite Nat.add_0_r, Nat.add_1_r. reflexivity.
    + rewrite xorb_false_r in IH. exact IH.
Qed.

Lemma process_rows_app a : forall b st,
  rows st (a ++ b) =
  ('(st1, o1) <- rows st a ;;
   '(st2, o2) <- rows st1 b ;;
   Ok (st2, (o1 ++ o2)%list)).
Proof.
  induction a as [|x a IH]; intros b st; unfold rows in *.
  - cbn. destruct (process_rows self budgets categories st b) as [[? ?]|]; reflexivity.
  - cbn [app process_rows].
    destruct (process_row self budgets categories st x) as [[st1 o]|]; [|reflexivity].
    cbn [bind]. rewrite IH.
    destruct (process_rows self budgets categories st1 a) as [[st2 o1]|]; [|reflexivity].
    cbn [bind].
    destruct (process_rows self budgets categories st2 b) as [[st3 o2]|]; reflexivity.
Qed.

Lemma somes_app {A} (a b : list (option A)) : somes (a ++ b) = (somes a ++ somes b)%list.
Proof. unfold somes. apply flat_map_app. Qed.

(** The loop over the groups produces the legs the loop over all their rows
    keeps, in the same order. *)
Lemma process_groups_rows groups :
  forall st st' out,
    process_groups self budgets categories st groups = Ok (st', out) ->
    exists outs,
      rows st (List.concat groups) = Ok (st', outs)
      /\ List.concat (map ImportData.transactions out) = somes outs.
Proof.
  induction groups as [|g groups IH]; intros st st' out H.
  - cbn in H. injection H as <- <-. exists []. split; reflexivity.
  - cbn [process_groups] in H.
    destruct (process_rows self budgets categories st g) as [[st1 o1]|] eqn:Hg;
      [|discriminate]. cbn [bind] in H.
    destruct (process_groups self budgets categories st1 groups) as [[st2 gs]|] eqn:Hgs;
      [|discriminate]. cbn [bind] in H.
    destruct (IH _ _ _ Hgs) as (o2 & Hrows & Hlegs).
    exists (o1 ++ o2)%list. split.
    + cbn [List.concat]. rewrite process_rows_app. unfold rows in *. rewrite Hg. cbn [bind].
      rewrite Hrows. cbn [bind]. injection H as <- _. reflexivity.
    + rewrite somes_app, <- Hlegs. injection H as _ <-.
      cbn [ImportData.transactions].
      destruct (somes o1) eqn:Es; cbn [map List.concat ImportData.transactions app];
        reflexivity.
Qed.

(** The two rows the register holds for one transfer have the same key: the
    row with the outflow names the account of the other row as its
    counter-account and conversely, and the amounts mirror each other. *)
Lemma mirror_rows_share_key (r1 r2 : YNABTransaction) :
  _is_transfer r1 = true -> _is_transfer r2 = true ->
  _transfer_account r1 = Ok (account r2) ->
  _transfer_account r2 = Ok (account r1) ->
  date r1 = date r2 ->
  (0 < outflow r1)%Q -> ~ (0 < outflow r2)%Q ->
  (outflow r1 - inflow r1 == inflow r2 - outflow r2)%Q ->
  exists k1 k2,
    pairing_key r1 = Some k1 /\ pairing_key r2 = Some k2 /\ key_eqb k1 k2 = true.
Proof.
  intros T1 T2 A1 A2 Hd P1 P2 Hq.
  apply ltb_lt in P1. apply ltb_nlt in P2.
  unfold pairing_key, _correct_transfer_to_from. rewrite T1, T2, A1, A2, P1, P2.
  cbn [bind]. eexists _, _. split; [reflexivity|]. split; [reflexivity|].
  unfold transfer_key, replace_payee, replace_transfer, key_eqb.
  cbn [account payee date outflow inflow].
  destruct (PyStr.sorted2 (account r1) (account r2)) as [a b].
  rewrite !String.eqb_refl, Hd, date_eqb_refl. cbn [andb].
  apply Qeq_bool_iff. rewrite Hq. reflexivity.
Qed.

(** C1.  In a run of the loop over the grouped rows that completes, each row
    has an outcome and the legs of the groups produced are the outcomes kept,
    in order.  A transfer row is kept, as a Transfer leg from the account of
    its corrected form to its payee, exactly when the number of earlier rows
    with its pairing key is even: the first sighting of a key is kept, the
    second is passed over, the third is kept again.  So of the sightings of a
    key every second one gives a leg: one leg for the two rows of a pair.  The
    key is that of the corrected row, so it does not depend on which of the two
    rows carried the inflow. *)
Theorem transfer_sightings_alternate groups st' out :
  process_groups self budgets categories initial_row_state groups = Ok (st', out) ->
  exists outs,
    List.length outs = List.length (List.concat groups)
    /\ List.concat (map ImportData.transactions out) = somes outs
    /\ (forall i tx k,
           nth_error (List.concat groups) i = Some tx -> pairing_key tx = Some k ->
           exists o, nth_error outs i = Some o /\
             if Nat.even (sightings k (firstn i (List.concat groups)))
             then exists tx', _correct_transfer_to_from tx = Ok tx' /\ is_transfer_leg tx' o
             else o = None)
    /\ (forall k,
           kept_sightings k (List.concat groups) outs
           = Nat.div2 (S (sightings k (List.concat groups)))).
Proof.
  intro H. destruct (process_groups_rows _ _ H) as (outs & Hrows & Hlegs).
  destruct (process_rows_alternate _ _ Hrows) as (Hlen & _ & Hout).
  exists outs. split; [exact Hlen|]. split; [exact Hlegs|]. split.
  - intros i tx k Hn Hk. destruct (Hout i tx k Hn Hk) as (o & Ho & Hcase).
    exists o. split; [exact Ho|].
    change (pending (transfers_seen_map initial_row_state) k) with false in Hcase.
    rewrite xorb_false_l, <- Nat.negb_even in Hcase.
    destruct (Nat.even (sightings k (firstn i (List.concat groups)))); exact Hcase.
  - intro k. rewrite (process_rows_kept k _ _ Hrows).
    change (pending (transfers_seen_map initial_row_state) k) with false.
    cbv iota. rewrite Nat.add_1_r. reflexivity.
Qed.

End Pairing.

Lemma transfer_sightings_alternate_witness :
  exists outs,
    List.length outs = List.length (List.concat [[Sample.row_A]; [Sample.row_B]])
    /\ List.concat (map ImportData.transactions Sample.paired_groups) = somes outs
    /\ (forall i tx k,
           nth_error (List.concat [[Sample.row_A]; [Sample.row_B]]) i = Some tx ->
           pairing_key tx = Some k ->
           exists o, nth_error outs i = Some o /\
             if Nat.even (sightings k (firstn i (List.concat [[Sample.row_A]; [Sample.row_B]])))
             then exists tx', _correct_transfer_to_from tx = Ok tx' /\ is_transfer_leg tx' o
             else o = None)
    /\ (forall k,
           kept_sightings k (List.concat [[Sample.row_A]; [Sample.row_B]]) outs
           = Nat.div2 (S (sightings k (List.concat [[Sample.row_A]; [Sample.row_B]])))).
Proof.
  apply (transfer_sightings_alternate Sample.plain [] []
           [[Sample.row_A]; [Sample.row_B]] (st' := Sample.paired_state)).
  vm_compute. reflexivity.
Defined.

(** The two rows of one transfer, in either order, give one group with one
    Transfer leg from A to B of amount 50. *)
Example one_leg_per_pair :
  forall rows, rows = [Sample.row_A; Sample.row_B] \/ rows = [Sample.row_B; Sample.row_A] ->
  exists rb title meta,
    _process_transactions Sample.plain [] [] rows
    = Ok (rb, [ImportData.mkGroup title [ImportData.Transfer meta "A" "B" None]])
    /\ (ImportData.amount meta == 50)%Q.
Proof.
  intros rows [-> | ->]; eexists _, _, _; (split; [vm_compute; reflexivity|]); reflexivity.
Qed.

(** ** Amounts on a foreign-currency account *)

Lemma truthy_nonzero (x : Decimal) : Dec.truthy x = true <-> ~ (x == 0)%Q.
Proof.
  unfold Dec.truthy. rewrite negb_true_iff. split.
  - intros H E. apply Qeq_bool_iff in E. congruence.
  - intro H. destruct (Qeq_bool x 0) eqn:E; [|reflexivity].
    apply Qeq_bool_iff in E. contradiction.
Qed.


Section Amounts.

Variable self : Importer.

(** On an account in the default currency the amount is the outflow, or the
    inflow when there is no outflow. *)
Lemma amount_default_currency tx :
  _is_foreign self (account tx) = false ->
  _amount self tx = Ok (Dec.or_else (outflow tx) (inflow tx)).
Proof. intro H. unfold _amount. rewrite H. reflexivity. Qed.

(** So the amount of a row on an account in the default currency is strictly
    positive as soon as one of outflow and inflow is (the register has no
    negative outflow). *)
Lemma amount_positive_default_currency tx :
  _is_foreign self (account tx) = false ->
  (0 <= outflow tx)%Q ->
  (0 < outflow tx)%Q \/ (0 < inflow tx)%Q ->
  exists a, _amount self tx = Ok a /\ (0 < a)%Q.
Proof.
  intros Hf Hnn Hpos. rewrite (amount_default_currency tx Hf).
  eexists. split; [reflexivity|]. unfold Dec.or_else.
  destruct (Dec.truthy (outflow tx)) eqn:Ht.
  - apply truthy_nonzero in Ht. apply Qle_lteq in Hnn. destruct Hnn as [Hlt|Heq].
    + exact Hlt.
    + exfalso. apply Ht. symmetry. exact Heq.
  - assert (Hz : (outflow tx == 0)%Q).
    { unfold Dec.truthy in Ht. apply negb_false_iff in Ht. apply Qeq_bool_iff. exact Ht. }
    destruct Hpos as [Hp|Hp]; [|exact Hp]. rewrite Hz in Hp. inversion Hp.
Qed.

(** On a foreign-currency account a memo that carries the account's currency
    code decides the amount: it is the number of the memo, negated when the
    row has a positive inflow, and the fallback rate is not consulted. *)
Lemma amount_from_memo tx g d :
  _is_foreign self (account tx) = true ->
  MEMO_RE_match (memo tx) = Some g ->
  group1 g = Config.Account.currency (_acc_config self (account tx)) ->
  Dec.of_string (PyStr.remove_commas (group2 g)) = Ok d ->
  _amount self tx = Ok (d * (if Dec.ltb 0 (inflow tx) then -1 else 1))%Q.
Proof.
  intros Hf Hm Hc Hd. unfold _amount, memo_for. rewrite Hf, Hm, Hc, String.eqb_refl.
  cbn [negb]. rewrite Hd. reflexivity.
Qed.

(** The fallback rate is used only when the memo does not carry the
    account's currency code. *)
Lemma amount_from_fallback_only_without_memo tx :
  _is_foreign self (account tx) = true ->
  memo_for (Config.Account.currency (_acc_config self (account tx)))
           (MEMO_RE_match (memo tx)) = None ->
  _amount self tx =
  match conv_fallback_for self (Config.Account.currency (_acc_config self (account tx))) with
  | Some rate => Ok (Dec.or_else (outflow tx) (inflow tx) * rate)%Q
  | None => Raise ValueError
  end.
Proof.
  intros Hf Hm. unfold _amount. rewrite Hf, Hm. cbn [negb].
  destruct (conv_fallback_for self _); reflexivity.
Qed.

(** Which leg a row that is no transfer becomes depends on its outflow and
    inflow alone: a Withdrawal with a positive outflow, else a Deposit with
    a positive inflow, else nothing. *)
Lemma leg_direction budgets categories st tx st1 leg :
  _is_transfer tx = false ->
  process_row self budgets categories st tx = Ok (st1, leg) ->
  if Dec.ltb 0 (outflow tx)
  then exists m a p b c, leg = Some (ImportData.Withdrawal m a p b c)
  else Dec.ltb 0 (inflow tx) = true
       /\ exists m a p b c, leg = Some (ImportData.Deposit m a p b c).
Proof.
  unfold process_row. intros Ht H. rewrite Ht in H.
  destruct (_budget self tx) as [budget|]; [|discriminate]. cbn [bind] in H.
  match type of H with bind ?c _ = _ => destruct c as [cat|]; [|discriminate] end.
  cbn [bind] in H.
  destruct (Dec.ltb 0 (outflow tx)); [|destruct (Dec.ltb 0 (inflow tx))];
    try discriminate; [|split; [reflexivity|]];
    (destruct (_amount self tx); [|discriminate]); cbn [bind] in H;
    (destruct (_description self tx); [|discriminate]); cbn [bind] in H;
    (match type of H with bind ?c _ = _ => destruct c; [|discriminate] end);
    cbn [bind] in H; injection H as _ <-; eexists _, _, _, _, _; reflexivity.
Qed.

End Amounts.

(** C3.  A row that receives money on a foreign-currency account and states the
    foreign value in its memo becomes a Deposit leg whose amount is negative:
    here minus 120.50. *)
Theorem deposit_with_memo_has_negative_amount :
  exists st meta account payee budget category,
    process_row Sample.foreign [] [] initial_row_state Sample.deposit_row
    = Ok (st, Some (ImportData.Deposit meta account payee budget category))
    /\ (ImportData.amount meta == - 120.5)%Q
    /\ (ImportData.amount meta < 0)%Q.
Proof.
  eexists _, _, _, _, _, _. split; [vm_compute; reflexivity|].
  split; reflexivity.
Qed.

(** C4.  For the memo USD 120.50 on the USD account with the fallback rate 1.1,
    the amount of a row with a positive inflow is minus 120.50: neither the
    number of the memo nor a value derived from the fallback rate.  For the
    same memo on a row with an outflow the amount is 120.50. *)
Theorem amount_of_deposit_with_memo :
  (exists a, _amount Sample.foreign Sample.deposit_row = Ok a /\ (a == - 120.5)%Q)
  /\ (exists a, _amount Sample.foreign Sample.withdrawal_row = Ok a /\ (a == 120.5)%Q).
Proof.
  split; eexists; (split; [vm_compute; reflexivity|]); reflexivity.
Qed.

(** ** The foreign amount of a transfer *)

Lemma float_0_20_above_fifth : (1 # 5 <= float_0_20)%Q.
Proof. unfold float_0_20, Qle. cbn. lia. Qed.

(** C5, as the code has it.  For a corrected transfer row:
    - from a foreign-currency account to a default-currency account, the
      foreign amount is the row's outflow (or inflow), whatever the memo and the
      fallback rate say;
    - from a default-currency account to a foreign-currency account, when the
      memo carries the foreign account's currency code (no K suffix) and the
      fallback-derived amount [f] is not zero, the result is the number of the
      memo if it is within 20% of [f], relative to [f], and a failed assertion
      if the relative difference exceeds the float 0.20; with no such memo and
      no fallback rate the result is a ValueError. *)
Theorem transfer_foreign_amount_cases (self : Importer) (tx : YNABTransaction) :
  PyStr.contains "Transfer : " (payee tx) = false ->
  (_is_foreign self (account tx) = true /\ _is_foreign self (payee tx) = false ->
   _transfer_foreign_amount self tx = Ok (Some (Dec.or_else (outflow tx) (inflow tx))))
  /\
  (_is_foreign self (account tx) = false /\ _is_foreign self (payee tx) = true ->
   let code := Config.Account.currency (_acc_config self (payee tx)) in
   (forall g a rate,
       MEMO_RE_match (memo tx) = Some g ->
       group1 g = code ->
       group3 g = None ->
       Dec.of_string (PyStr.remove_commas (group2 g)) = Ok a ->
       sget (Config.currency_conv_fallback (config self)) code = Some rate ->
       let f := (Dec.or_else (outflow tx) (inflow tx) * rate)%Q in
       ~ (f == 0)%Q ->
       ((Qabs (a - f) / f <= 1 # 5)%Q ->
        _transfer_foreign_amount self tx = Ok (Some a))
       /\ ((float_0_20 < Qabs (a - f) / f)%Q ->
           _transfer_foreign_amount self tx = Raise AssertionError))
   /\ (memo_for code (MEMO_RE_match (memo tx)) = None ->
       conv_fallback_for self code = None ->
       _transfer_foreign_amount self tx = Raise ValueError)).
Proof.
  intro Hp. unfold _transfer_foreign_amount. rewrite Hp. cbn [negb]. split.
  - intros [Ha Hb]. rewrite Ha, Hb. reflexivity.
  - intros [Ha Hb]. rewrite Ha, Hb. cbn [negb andb]. cbv zeta. split.
    + intros g a rate Hm Hc H3 Hd Hr Hf.
      set (f := (Dec.or_else (outflow tx) (inflow tx) * rate)%Q) in *.
      assert (Hrate : Dec.truthy rate = true).
      { apply truthy_nonzero. intro E. apply Hf. unfold f. rewrite E. ring. }
      unfold conv_fallback_for. rewrite Hr, Hrate. fold f.
      apply truthy_nonzero in Hf. rewrite Hf.
      unfold memo_for. rewrite Hm, Hc, String.eqb_refl, Hd. cbn [bind].
      assert (HK : String.eqb (group2 g) "K" = false).
      { destruct (String.eqb (group2 g) "K") eqn:E; [|reflexivity].
        apply String.eqb_eq in E. rewrite E in Hd. discriminate Hd. }
      rewrite HK. unfold within_tolerance, Dec.leb. split; intro Hq.
      * assert (Hle : (Qabs (a - f) / f <= float_0_20)%Q)
          by (eapply Qle_trans; [exact Hq|exact float_0_20_above_fifth]).
        apply Qle_bool_iff in Hle. rewrite Hle. reflexivity.
      * destruct (Qle_bool (Qabs (a - f) / f) float_0_20) eqn:E; [|reflexivity].
        apply Qle_bool_iff in E. exfalso. exact (Qlt_not_le _ _ Hq E).
    + intros Hm Hf. rewrite Hm, Hf. reflexivity.
Qed.

Lemma transfer_foreign_amount_cases_witness :
  _transfer_foreign_amount Sample.foreign Sample.transfer_into_foreign = Ok (Some 108%Q).
Proof.
  pose proof (transfer_foreign_amount_cases Sample.foreign Sample.transfer_into_foreign
                eq_refl) as [_ H].
  destruct (H (conj eq_refl eq_refl)) as [HA _].
  refine (proj1 (HA (mkMemoMatch "USD" "108" None None) 108%Q 1.1%Q
                    eq_refl eq_refl eq_refl eq_refl eq_refl _) _).
  - intro E. vm_compute in E. discriminate E.
  - vm_compute. discriminate.
Defined.

(** C5 as stated fails: the row below is a transfer between a foreign-currency
    and a default-currency account, its memo gives 10 USD, the fallback rate
    gives 9900, they differ by more than 20% of the latter, and neither the
    foreign amount nor the leg fails. *)
Lemma transfer_out_of_foreign_is_not_checked :
  let tx := Sample.transfer_out_of_foreign in
  _is_foreign Sample.foreign (account tx) = true
  /\ _is_foreign Sample.foreign (payee tx) = false
  /\ (exists g, memo_for "USD" (MEMO_RE_match (memo tx)) = Some g
                /\ Dec.of_string (PyStr.remove_commas (group2 g)) = Ok 10%Q)
  /\ (exists rate, conv_fallback_for Sample.foreign "USD" = Some rate
                   /\ (Dec.or_else (outflow tx) (inflow tx) * rate == 9900)%Q)
  /\ (1 # 5 < Qabs (10 - 9900) / 9900)%Q
  /\ _transfer_foreign_amount Sample.foreign tx = Ok (Some 9000%Q)
  /\ _correct_transfer_to_from Sample.raw_transfer_out_of_foreign = Ok tx
  /\ exists st meta,
      process_row Sample.foreign [] [] initial_row_state Sample.raw_transfer_out_of_foreign
      = Ok (st, Some (ImportData.Transfer meta "Chase" "Savings" (Some 9000%Q))).
Proof.
  cbv zeta. repeat split.
  - eexists. split; vm_compute; reflexivity.
  - eexists. split; [vm_compute; reflexivity|]. reflexivity.
  - eexists _, _. vm_compute. reflexivity.
Qed.

(** The suffix K of a memo amount is matched and then ignored: the test for it
    reads the group of the digits.  A memo of 0.1K USD against a fallback-derived
    110 is taken as 0.1 and fails the tolerance. *)
Example thousand_suffix_is_ignored :
  let tx := mkYNABTransaction "Savings" "" Sample.jan15 "Chase" "" "" "" "USD 0.1K"
                              100 0 "" 0 in
  (exists g, MEMO_RE_match (memo tx) = Some g /\ group2 g = "0.1" /\ group3 g = Some "K")
  /\ _transfer_foreign_amount Sample.foreign tx = Raise AssertionError.
Proof.
  cbv zeta. split; [eexists; split; [vm_compute; reflexivity|split; reflexivity]|].
  vm_compute. reflexivity.
Qed.

(** ** Currencies *)

(** C6.  With INR as default currency and an account held in USD, a server
    that lists USD as enabled is asked to disable it, although the list of
    currencies to keep that the function builds contains USD. *)
Theorem account_currency_is_disabled :
  let run := _create_currencies Sample.foreign Sample.currency_server Sample.fresh_world in
  fst run = Ok tt
  /\ rev (sent (snd run)) =
     [mkRequest GET "/api/v1/currencies" None "" JNull;
      mkRequest POST "/api/v1/currencies/" (Some (JStr "USD")) "/disable" JNull;
      mkRequest POST "/api/v1/currencies/" (Some (JStr "EUR")) "/enable" JNull]
  /\ In "USD" (currencies_to_keep (config Sample.foreign)).
Proof.
  cbv zeta. split; [vm_compute; reflexivity|]. split; [vm_compute; reflexivity|].
  cbn. auto.
Qed.

(** ** Submitting the groups: one request each, no checkpoint, at most 201 *)

Lemma silent_ret {A} (a : A) : silent (ret a).
Proof. intro w. reflexivity. Qed.

Lemma silent_raise {A} (e : exn) : silent (raise (A := A) e).
Proof. intro w. reflexivity. Qed.

Lemma silent_lift {A} (r : result A) : silent (lift r).
Proof. intro w. reflexivity. Qed.

Lemma silent_print (l : Line) : silent (print_line l).
Proof. intro w. reflexivity. Qed.

Lemma silent_bind {A B} (m : IO A) (k : A -> IO B) :
  silent m -> (forall a, silent (k a)) -> silent (iobind m k).
Proof.
  intros Hm Hk w. unfold iobind. specialize (Hm w).
  destruct (m w) as [[a|e] w']; cbn in *.
  - rewrite Hk. exact Hm.
  - exact Hm.
Qed.

Lemma silent_for_each {A} (l : list A) (body : A -> IO unit) :
  (forall a, silent (body a)) -> silent (for_each l body).
Proof.
  intro Hb. induction l as [|a l IH]; cbn [for_each].
  - apply silent_ret.
  - apply silent_bind; [apply Hb|intros _; exact IH].
Qed.

Section Submission.

Variable self : Importer.
Variable remote : Remote.
Variable asset_accounts : list ImportData.Account.
Variable running_balances : PyDict.t Arrow (StrDict Decimal).
Variable transaction_groups : list ImportData.TransactionGroup.

Let submit_one := submit_group self remote asset_accounts running_balances
                               transaction_groups.

(** Submitting a payload sends exactly the request that carries it. *)
Lemma submit_sent data w :
  sent (snd (submit remote data w)) = post_transactions data :: sent w.
Proof.
  unfold submit, request. cbv zeta.
  set (response := remote (sent w) (post_transactions data)).
  set (w' := {| sent := post_transactions data :: sent w;
                firefly_data := firefly_data w; cache_file := cache_file w;
                output := output w |}).
  change (post_transactions data :: sent w) with (sent w').
  destruct ((400 <=? status_code response) && (status_code response <? 600)).
  - destruct (status_code response =? 422).
    + apply silent_bind; [apply silent_lift|].
      intros [[dup_errors other_tx_errors] other_errors].
      destruct (PyDict.truthy other_tx_errors || PyDict.truthy other_errors).
      * apply silent_bind; [apply silent_print|intros _; apply silent_raise].
      * apply silent_for_each. intros [tx_idx dup_id]. apply silent_print.
    + apply silent_bind; [apply silent_print|intros _; apply silent_raise].
  - apply silent_bind; [apply silent_lift|]. intro created.
    apply silent_bind; [apply silent_lift|]. intro id. apply silent_print.
Qed.

(** One turn of the loop once [current_month] holds the month of the first
    group: the month read at each turn is that of the first group again, so
    the comparison never differs and the balances are never verified. *)
Lemma submit_group_cases m0 tx_group s :
  first_group_month transaction_groups = Ok m0 ->
  current_month s = Some m0 ->
  submit_one tx_group s =
  match filtered_out self tx_group with
  | Raise e => (Raise e, s)
  | Ok true =>
      (Ok tt, {| world := world s; imported := imported s; ignored := ignored s + 1;
                 current_month := current_month s |})
  | Ok false =>
      match group_data (firefly_data (world s)) tx_group with
      | Raise e => (Raise e, s)
      | Ok data =>
          match submit remote data (world s) with
          | (Raise e, w') =>
              (Raise e, {| world := w'; imported := imported s; ignored := ignored s;
                           current_month := current_month s |})
          | (Ok _, w') =>
              (if 200 <? imported s + 1 then Raise ValueError else Ok tt,
               {| world := w'; imported := imported s + 1; ignored := ignored s;
                  current_month := current_month s |})
          end
      end
  end.
Proof.
  intros Hm Hc. destruct s as [w n i cm]. cbn in Hc. subst cm.
  unfold submit_one, submit_group, iobind, lift, get_locals, incr_ignored, incr_imported,
    in_world, raise, ret.
  rewrite Hm. cbn [month_differs current_month world imported ignored].
  rewrite date_eqb_refl. cbn [negb].
  destruct (filtered_out self tx_group) as [[|]|e];
    cbn [world imported ignored current_month]; try reflexivity.
  destruct (group_data (firefly_data w) tx_group) as [data|e];
    cbn [world imported ignored current_month]; [|reflexivity].
  destruct (submit remote data w) as [[[]|e] w'];
    cbn [world imported ignored current_month].
  - destruct (200 <? n + 1); reflexivity.
  - reflexivity.
Qed.

(** The loop from a state whose counter is at most 200. *)
Local Ltac finish_loop :=
  repeat split; try lia; try (intro; discriminate); try (intro; reflexivity).

Lemma submission_loop m0 groups :
  first_group_month transaction_groups = Ok m0 ->
  forall s r s',
    current_month s = Some m0 ->
    imported s <= 200 ->
    for_each groups submit_one s = (r, s') ->
    exists datas,
      sent (world s') = (map post_transactions datas ++ sent (world s))%list
      /\ imported s <= imported s'
      /\ imported s' <= imported s + Z.of_nat (List.length datas)
      /\ Z.of_nat (List.length datas) + imported s <= 201
      /\ (r = Ok tt -> imported s' <= 200)
      /\ (200 < imported s' -> r = Raise ValueError).
Proof.
  intro Hm. induction groups as [|g groups IH]; intros s r s' Hc Hi H.
  - cbn in H. injection H as <- <-. exists []. cbn [map app List.length world imported]. finish_loop.
  - cbn [for_each] in H. unfold iobind in H.
    rewrite (submit_group_cases g s Hm Hc) in H.
    destruct (filtered_out self g) as [[|]|e].
    + apply IH in H; [|exact Hc|exact Hi].
      destruct H as (datas & Hs & H1 & H2 & H3 & H4 & H5).
      cbn [imported world] in *. exists datas. repeat split; assumption.
    + destruct (group_data (firefly_data (world s)) g) as [data|e].
      * pose proof (submit_sent data (world s)) as Hsent.
        destruct (submit remote data (world s)) as [[[]|e] w']; cbn [snd] in Hsent.
        -- destruct (200 <? imported s + 1) eqn:Hlim.
           ++ apply Z.ltb_lt in Hlim. injection H as <- <-. exists [data].
              cbn [map app List.length world imported]. rewrite Hsent. finish_loop.
           ++ apply Z.ltb_ge in Hlim.
              apply IH in H; [|exact Hc|exact Hlim].
              destruct H as (datas & Hs & H1 & H2 & H3 & H4 & H5).
              cbn [imported world] in *. exists (datas ++ [data])%list.
              rewrite Hs, Hsent, map_app, <- app_assoc, length_app.
              cbn [map app List.length].
              repeat split; try assumption; lia.
        -- injection H as <- <-. exists [data]. cbn [map app List.length world imported]. rewrite Hsent. finish_loop.
      * injection H as <- <-. exists []. cbn [map app List.length world imported]. finish_loop.
    + injection H as <- <-. exists []. cbn [map app List.length world imported]. finish_loop.
Qed.

End Submission.

(** C10.  Whatever the groups, the filters and the answers of the server, a run
    of [_create_transactions] sends nothing but submissions of transaction
    groups, at most 201 of them, its counter of imported groups never exceeds
    201, and a counter above 200 means that the run ended with the ValueError
    of the limit. *)
Theorem at_most_201_groups_imported
        (self : Importer) (remote : Remote) (asset_accounts : list ImportData.Account)
        (running_balances : PyDict.t Arrow (StrDict Decimal))
        (transaction_groups : list ImportData.TransactionGroup) (w : World) :
  let run := _create_transactions self remote asset_accounts running_balances
                                  transaction_groups (initial_tx_state w) in
  imported (snd run) <= 201
  /\ (exists datas,
         sent (world (snd run)) = (map post_transactions datas ++ sent w)%list
         /\ (List.length datas <= 201)%nat)
  /\ (200 < imported (snd run) -> fst run = Raise ValueError).
Proof.
  cbv zeta. unfold _create_transactions, iobind, lift.
  destruct (first_group_month transaction_groups) as [m0|e] eqn:Hm.
  - cbn [set_current_month initial_tx_state world imported ignored].
    match goal with |- context [for_each _ _ ?s0] => set (s := s0) end.
    destruct (for_each transaction_groups
                (submit_group self remote asset_accounts running_balances
                              transaction_groups) s) as [r s'] eqn:Hrun.
    apply submission_loop with (m0 := m0) in Hrun;
      [|exact Hm|reflexivity|cbn; lia].
    destruct Hrun as (datas & Hs & H1 & H2 & H3 & H4 & H5).
    cbn [fst snd]. subst s. cbn [imported world] in *.
    split; [lia|]. split; [|exact H5].
    exists datas. split; [exact Hs|lia].
  - cbn. split; [lia|]. split; [|lia]. exists []. split; [reflexivity|cbn; lia].
Qed.

(** The limit is reached although the server accepts every submission: of 250
    groups, 201 are submitted and the run ends with a ValueError. *)
Example limit_reached_on_success :
  let run := _create_transactions Sample.plain Sample.accepting_server [] []
                                  (repeat (Sample.transfer_on Sample.jan15) 250)
                                  (initial_tx_state Sample.synced_world) in
  fst run = Raise ValueError
  /\ imported (snd run) = 201
  /\ List.length (sent (world (snd run))) = 201%nat
  /\ List.length (output (world (snd run))) = 201%nat.
Proof. vm_compute. repeat split. Qed.

(** C9.  Two groups, one in January and one in February, and a server whose
    balance for A is not the one of the export: both groups are submitted, in
    the order of the list, and the asset accounts are never fetched; the
    verification of January, had it run, would have raised. *)
Theorem checkpoint_is_skipped :
  let run := _create_transactions Sample.plain Sample.accepting_server []
                                  Sample.january_balances Sample.two_months
                                  (initial_tx_state Sample.synced_world) in
  fst run = Ok tt
  /\ imported (snd run) = 2
  /\ map method (sent (world (snd run))) = [POST; POST]
  /\ map path (sent (world (snd run))) = ["/api/v1/transactions"; "/api/v1/transactions"]
  /\ fst (_verify_running_balance Sample.plain Sample.accepting_server []
                                  Sample.january_balances (mkArrow 2020 1 1)
                                  Sample.synced_world) = Raise ValueError.
Proof. vm_compute. repeat split. Qed.

(** ** Validation failures of a submission *)

Lemma truthy_set {K V} (eqb : K -> K -> bool) (d : PyDict.t K V) k v :
  PyDict.truthy (PyDict.set eqb d k v) = true.
Proof.
  destruct d as [|[k0 v0] d]; cbn; [reflexivity|]. destruct (eqb k0 k); reflexivity.
Qed.

(** When the classifier completes, nothing but duplicates is found exactly
    when every item reports a duplicate. *)
Lemma classify_errors_only_duplicates items :
  forall dup ot o dup' ot' o',
    classify_errors items dup ot o = Ok (dup', ot', o') ->
    (PyDict.truthy ot' || PyDict.truthy o' = false
     <-> PyDict.truthy ot || PyDict.truthy o = false
         /\ forallb is_duplicate_item items = true).
Proof.
  induction items as [|[field errs] items IH]; intros dup ot o dup' ot' o' H.
  - cbn in H. injection H as _ <- <-. cbn. tauto.
  - cbn [classify_errors] in H. cbn [forallb]. unfold is_duplicate_item at 1.
    cbn [fst snd].
    destruct (index (PyStr.split field ".") 0) as [f|]; [|discriminate].
    cbn [bind] in H. destruct (String.eqb f "transactions"); cbn [negb andb] in *.
    + destruct (index (PyStr.split field ".") 1) as [idx|]; [|discriminate].
      cbn [bind] in H.
      destruct (PyJson.int_of_string idx) as [tx_idx|]; [|discriminate]. cbn [bind] in H.
      destruct (index (PyStr.split field ".") 2) as [child|]; [|discriminate].
      cbn [bind] in H.
      destruct (duplicate_of errs) as [[dup_id|]|]; [| |discriminate]; cbn [bind] in H.
      * destruct (negb (PyDict.mem Z.eqb ot tx_idx)); [|discriminate].
        apply IH in H. exact H.
      * destruct (negb (PyDict.mem Z.eqb dup tx_idx)); [|discriminate].
        apply IH in H. rewrite truthy_set in H. cbn [orb andb] in *.
        rewrite H. split; [intros [F _]; discriminate F|intros [_ F]; discriminate F].
    + apply IH in H. unfold sset in H. rewrite truthy_set, orb_true_r in H.
      rewrite H. split; [intros [F _]; discriminate F|intros [_ F]; discriminate F].
Qed.

Lemma print_duplicates (dup_errors : DupErrors) :
  forall w,
    for_each dup_errors (fun '(tx_idx, dup_id) => print_line (Ignoring dup_id)) w
    = (Ok tt, after_lines w (map (fun p => Ignoring (snd p)) dup_errors)).
Proof.
  induction dup_errors as [|[i d] l IH]; intro w.
  - destruct w. reflexivity.
  - cbn [for_each]. unfold iobind. cbn [print_line]. rewrite IH.
    unfold after_lines. cbn [sent firefly_data cache_file output map rev snd].
    rewrite <- app_assoc. reflexivity.
Qed.

Section ValidationFailure.

Variable self : Importer.
Variable remote : Remote.
Variable asset_accounts : list ImportData.Account.
Variable running_balances : PyDict.t Arrow (StrDict Decimal).
Variable transaction_groups : list ImportData.TransactionGroup.

(** C8, as the code has it.  The server answers a submission with status 422
    and an object of errors.
    - If the classifier completes and every item reports a duplicate, the
      submission succeeds: one line per duplicate is written, nothing is
      raised, no further request is sent, and the turn of the loop counts the
      group as imported.
    - If the classifier completes and some item is a top-level error or a
      per-leg error that is no duplicate, the payload is written to the
      buffer and the HTTP error is raised again.
    - If the classifier raises (an item that breaks one of its assertions, a
      key without index or field), that exception ends the run and the
      payload is not written. *)
Theorem validation_failure_handling data w payload items :
  remote (sent w) (post_transactions data) = mkResponse 422 payload ->
  PyJson.item payload "errors" = Ok (JObj items) ->
  let w1 := after_request w (post_transactions data) in
  (forall dup ot o,
      classify_errors items [] [] [] = Ok (dup, ot, o) ->
      (forallb is_duplicate_item items = true ->
       let w2 := after_lines w1 (map (fun p => Ignoring (snd p)) dup) in
       submit remote data w = (Ok tt, w2)
       /\ forall tx_group s m0,
           world s = w ->
           first_group_month transaction_groups = Ok m0 ->
           current_month s = Some m0 ->
           filtered_out self tx_group = Ok false ->
           group_data (firefly_data w) tx_group = Ok data ->
           imported s < 200 ->
           submit_group self remote asset_accounts running_balances transaction_groups
                        tx_group s
           = (Ok tt, {| world := w2; imported := imported s + 1; ignored := ignored s;
                        current_month := current_month s |}))
      /\ (forallb is_duplicate_item items = false ->
          submit remote data w
          = (Raise (HTTPError 422 payload), after_lines w1 [Payload payload])))
  /\ (forall e,
         classify_errors items [] [] [] = Raise e ->
         submit remote data w = (Raise e, w1)).
Proof.
  intros Hresp Herrors w1.
  assert (Hsubmit : submit remote data w =
                    ('(dup_errors, other_tx_errors, other_errors) <~
                       lift (classify_errors items [] [] []) ;;
                     if PyDict.truthy other_tx_errors || PyDict.truthy other_errors
                     then print_line (Payload payload) ;;; raise (HTTPError 422 payload)
                     else for_each dup_errors
                                   (fun '(tx_idx, dup_id) => print_line (Ignoring dup_id)))
                      w1).
  { unfold submit, request. rewrite Hresp. cbn [status_code content].
    change ((400 <=? 422) && (422 <? 600)) with true. cbv iota.
    change (422 =? 422) with true. cbv iota.
    unfold _firefly_create_transaction_errors. rewrite Herrors. reflexivity. }
  split.
  - intros dup ot o Hc.
    pose proof (classify_errors_only_duplicates _ _ _ _ Hc) as Hiff. cbn in Hiff.
    rewrite Hsubmit. unfold iobind, lift. rewrite Hc. split.
    + intros Hall. cbv zeta.
      assert (Hnone : PyDict.truthy ot || PyDict.truthy o = false)
        by (apply Hiff; auto).
      rewrite Hnone, print_duplicates. split; [reflexivity|].
      intros tx_group s m0 Hw Hm Hcur Hf Hd Hlt.
      rewrite (submit_group_cases self remote asset_accounts running_balances
                                  transaction_groups tx_group s Hm Hcur).
      rewrite Hf, Hw, Hd, Hsubmit. unfold iobind, lift. rewrite Hc, Hnone, print_duplicates.
      assert (Hlim : (200 <? imported s + 1) = false) by (apply Z.ltb_ge; lia).
      rewrite Hlim. reflexivity.
    + intro Hsome.
      assert (E : PyDict.truthy ot || PyDict.truthy o = true).
      { apply not_false_is_true. intro E. apply Hiff in E. destruct E as [_ E].
        congruence. }
      rewrite E. reflexivity.
  - intros e Hc. rewrite Hsubmit. unfold iobind, lift. rewrite Hc. reflexivity.
Qed.

End ValidationFailure.

Lemma validation_failure_handling_witness :
  submit Sample.duplicate_server JNull Sample.synced_world
  = (Ok tt, after_lines (after_request Sample.synced_world (post_transactions JNull))
                        [Ignoring 7995]).
Proof.
  refine (proj1 (proj1 (proj1 (validation_failure_handling
                                 Sample.plain Sample.duplicate_server [] [] []
                                 JNull Sample.synced_world
                                 (payload := Sample.duplicate_payload) eq_refl eq_refl)
                              [(0, 7995)] [] [] _) _)).
  - vm_compute. reflexivity.
  - vm_compute. reflexivity.
Defined.

(** C8 as stated fails: the server reports for the first leg a duplicate and an
    invalid amount.  The invalid amount is a per-leg error that is no
    duplicate, the run ends with the failed assertion of the classifier, and
    the buffer holds no line: the payload is not shown. *)
Lemma mixed_leg_aborts_without_payload :
  let run := submit Sample.mixed_server JNull Sample.synced_world in
  Sample.mixed_server (sent Sample.synced_world) (post_transactions JNull)
  = mkResponse 422 Sample.mixed_payload
  /\ (exists items,
         PyJson.item Sample.mixed_payload "errors" = Ok (JObj items)
         /\ existsb (fun item => negb (is_duplicate_item item)) items = true)
  /\ fst run = Raise AssertionError
  /\ output (snd run) = [].
Proof.
  cbv zeta. split; [reflexivity|]. split.
  - eexists. split; [vm_compute; reflexivity|]. vm_compute. reflexivity.
  - vm_compute. split; reflexivity.
Qed.

(** ** Updating what the server already holds *)

Lemma Ok_inj {A} (a b : A) : Ok a = Ok b -> a = b.
Proof. intro H. injection H as ->. reflexivity. Qed.

Lemma compare_type_aware (v : PyVal) (j : Json) (b : bool) :
  _firefly_compare v j = Ok b -> b = type_aware_equal v j.
Proof.
  destruct v, j;
    cbv beta iota delta [_firefly_compare is_null eq_zero py_eq decimal_of_json
                         type_aware_equal bind];
    intro H;
    try (apply Ok_inj in H; symmetry; exact H); try discriminate H.
  destruct (Dec.of_string s); [apply Ok_inj in H; symmetry; exact H|discriminate H].
Qed.

(** The loop of [_firefly_needs_update] answers whether a field differs. *)
Lemma needs_update_loop_differs attributes items :
  forall b,
    needs_update_loop items (JObj attributes) = Ok b ->
    (b = true <-> fields_differ items attributes).
Proof.
  induction items as [|[k v] items IH]; intros b H.
  - cbn in H. injection H as <-. split; [discriminate|].
    intros (k & v & [] & _).
  - cbn [needs_update_loop PyJson.get bind] in H.
    destruct (_firefly_compare v _) as [same|] eqn:Hc; [|discriminate].
    apply compare_type_aware in Hc. cbn [bind] in H. destruct same; cbn [negb] in H.
    + apply IH in H. rewrite H. split.
      * intros (k' & v' & Hin & Hd). exists k', v'. split; [right; exact Hin|exact Hd].
      * intros (k' & v' & [Heq|Hin] & Hd).
        -- injection Heq as <- <-. congruence.
        -- exists k', v'. split; assumption.
    + injection H as <-. split; [|reflexivity]. intros _.
      exists k, v. split; [left; reflexivity|symmetry; exact Hc].
Qed.

(** For the two fields of a budget the comparison cannot raise. *)
Lemma compare_str_total (s : string) (j : Json) :
  exists b, _firefly_compare (PStr s) j = Ok b.
Proof. destruct j; eexists; reflexivity. Qed.

Lemma compare_bool_total (a : bool) (j : Json) :
  exists b, _firefly_compare (PBool a) j = Ok b.
Proof. destruct j; eexists; reflexivity. Qed.

Lemma budget_needs_update budget known attributes :
  PyJson.item known "attributes" = Ok (JObj attributes) ->
  exists b,
    _firefly_needs_update (budget_data budget) known = Ok b
    /\ (b = true <-> fields_differ (budget_data budget) attributes).
Proof.
  intro Ha.
  assert (H : exists b, needs_update_loop (budget_data budget) (JObj attributes) = Ok b).
  { unfold budget_data. cbn [needs_update_loop PyJson.get bind].
    destruct (compare_str_total (ImportData.name budget)
                (PyDict.get_default String.eqb attributes "name" JNull)) as [b1 ->].
    cbn [bind]. destruct b1; cbn [negb]; [|eexists; reflexivity].
    destruct (compare_bool_total (ImportData.active budget)
                (PyDict.get_default String.eqb attributes "active" JNull)) as [b2 ->].
    cbn [bind]. destruct b2; eexists; reflexivity. }
  destruct H as [b Hb]. exists b. split.
  - unfold _firefly_needs_update, budget_data in *. rewrite Ha. exact Hb.
  - apply needs_update_loop_differs. exact Hb.
Qed.

Section Budgets.

Variable self : Importer.
Variable remote : Remote.

(** A budget the cache holds with agreeing attributes: no call. *)
Lemma sync_budget_in_sync budget w :
  in_sync (fd_budgets (firefly_data w)) budget ->
  sync_budget remote budget w = (Ok tt, w).
Proof.
  intros (known & attributes & Hk & Ha & Hsame).
  pose proof (budget_needs_update budget) as Hn. specialize (Hn _ _ Ha).
  destruct Hn as (b & Hb & Hiff).
  assert (b = false) as ->.
  { destruct b; [|reflexivity]. exfalso. apply Hsame. apply Hiff. reflexivity. }
  unfold sync_budget, ignoring_500, iobind, get_data, lift. cbv zeta.
  rewrite Hk, Hb. reflexivity.
Qed.

(** A budget the cache holds with a differing attribute: exactly the update
    call, whatever the server answers; the cache is left as it is. *)
Lemma sync_budget_out_of_sync budget id w :
  out_of_sync (fd_budgets (firefly_data w)) budget id ->
  exists r, sync_budget remote budget w = (r, after_request w (budget_update id budget)).
Proof.
  intros (known & attributes & Hk & Ha & Hid & Hdiff).
  pose proof (budget_needs_update budget) as Hn. specialize (Hn _ _ Ha).
  destruct Hn as (b & Hb & Hiff).
  assert (b = true) as -> by (apply Hiff; exact Hdiff).
  unfold sync_budget, ignoring_500, iobind, get_data, lift, when, request. cbv zeta.
  rewrite Hk, Hb, Hid. fold (budget_update id budget).
  fold (after_request w (budget_update id budget)).
  destruct ((400 <=? status_code (remote (sent w) (budget_update id budget)))
            && (status_code (remote (sent w) (budget_update id budget)) <? 600)).
  - destruct (status_code (remote (sent w) (budget_update id budget)) =? 500);
      eexists; reflexivity.
  - eexists. reflexivity.
Qed.

Lemma for_each_app {S A} (a b : list A) (body : A -> ST S unit) (s : S) :
  for_each (a ++ b) body s =
  match for_each a body s with
  | (Ok _, s') => for_each b body s'
  | (Raise e, s') => (Raise e, s')
  end.
Proof.
  revert s. induction a as [|x a IH]; intro s; cbn [app for_each].
  - reflexivity.
  - unfold iobind. destruct (body x s) as [[[]|e] s']; [apply IH|reflexivity].
Qed.

Lemma for_each_in_sync l w :
  Forall (in_sync (fd_budgets (firefly_data w))) l ->
  for_each l (sync_budget remote) w = (Ok tt, w).
Proof.
  induction 1 as [|b l Hb _ IH]; cbn [for_each]; [reflexivity|].
  unfold iobind. rewrite sync_budget_in_sync by exact Hb. exact IH.
Qed.

(** C7, as the code has it.
    - When the cache of budgets is populated on entry, [_create_budgets]
      returns at once: no listing, no update, whatever differs.
    - When it is empty on entry, it is filled from the listing and then, for
      a budget it holds: the update call is issued if a desired field differs
      from the remote attributes under type-aware equality, and no call is
      issued if none differs.  In particular, when every desired budget is
      listed with agreeing attributes the listing is the only request, and
      when exactly one of them has a differing field the only other request
      is the update call of that one. *)
Theorem budget_update_iff_differs (budgets : StrDict ImportData.Budget) (w : World) :
  (PyDict.truthy (fd_budgets (firefly_data w)) = true ->
   _create_budgets remote budgets w = (Ok tt, w))
  /\
  (forall w' budget id,
      (out_of_sync (fd_budgets (firefly_data w')) budget id ->
       exists r, sync_budget remote budget w'
                 = (r, after_request w' (budget_update id budget)))
      /\ (in_sync (fd_budgets (firefly_data w')) budget ->
          sync_budget remote budget w' = (Ok tt, w')))
  /\
  (forall data listed,
      fd_budgets (firefly_data w) = [] ->
      (400 <=? status_code (remote (sent w) budget_listing))
      && (status_code (remote (sent w) budget_listing) <? 600) = false ->
      PyJson.item (content (remote (sent w) budget_listing)) "data" = Ok (JArr data) ->
      index_by "name" (fun d => Ok d) data [] = Ok listed ->
      (Forall (in_sync listed) (PyDict.values budgets) ->
       fst (_create_budgets remote budgets w) = Ok tt
       /\ sent (snd (_create_budgets remote budgets w)) = budget_listing :: sent w)
      /\ (forall before budget after id,
             PyDict.values budgets = (before ++ budget :: after)%list ->
             Forall (in_sync listed) before ->
             Forall (in_sync listed) after ->
             out_of_sync listed budget id ->
             sent (snd (_create_budgets remote budgets w))
             = budget_update id budget :: budget_listing :: sent w)).
Proof.
  split; [|split].
  - intro H. unfold _create_budgets, iobind, get_data. rewrite H. reflexivity.
  - intros w' budget id. split.
    + apply sync_budget_out_of_sync.
    + apply sync_budget_in_sync.
  - intros data listed Hempty Hstatus Hdata Hlisted.
    set (w1 := {| sent := budget_listing :: sent w;
                  firefly_data := set_budgets (firefly_data w) listed;
                  cache_file := cache_file w; output := output w |}).
    assert (Hrun : _create_budgets remote budgets w =
                   (for_each (PyDict.values budgets) (sync_budget remote) ;;;
                    _update_cache) w1).
    { set (rest := for_each (PyDict.values budgets) (sync_budget remote) ;;; _update_cache).
      unfold _create_budgets. fold rest.
      unfold get_all_pages, get_data, request, lift, put_data. unfold iobind.
      cbv zeta. rewrite Hempty. cbn [PyDict.truthy]. fold budget_listing.
      rewrite Hstatus, Hdata. cbn [PyJson.list_of].
      rewrite Hlisted. cbn [sent firefly_data cache_file output]. reflexivity. }
    rewrite Hrun. unfold iobind. split.
    + intro Hall. rewrite for_each_in_sync by exact Hall. split; reflexivity.
    + intros before budget after id Hsplit Hb Ha Hout.
      rewrite Hsplit, for_each_app. rewrite for_each_in_sync by exact Hb.
      cbn [for_each]. unfold iobind.
      assert (Hput : out_of_sync (fd_budgets (firefly_data w1)) budget id) by exact Hout.
      apply sync_budget_out_of_sync in Hput. destruct Hput as [r ->].
      destruct r as [[]|e]; [|reflexivity].
      rewrite for_each_in_sync by exact Ha. reflexivity.
Qed.

End Budgets.

Lemma budget_update_iff_differs_witness :
  sent (snd (_create_budgets Sample.budget_server Sample.food_inactive Sample.fresh_world))
  = [budget_update (JStr "3") (ImportData.mkBudget "Food" false); budget_listing].
Proof.
  refine (proj2 (proj2 (proj2 (budget_update_iff_differs
                                 Sample.budget_server Sample.food_inactive Sample.fresh_world))
                       [Sample.budget_json "3" "Food" true]
                       [("Food", Sample.budget_json "3" "Food" true)]
                       eq_refl eq_refl eq_refl eq_refl)
                [] (ImportData.mkBudget "Food" false) [] (JStr "3") eq_refl
                (Forall_nil _) (Forall_nil _) _).
  eexists _, _. repeat split.
  exists "active", (PBool false). split; [cbn; auto|reflexivity].
Defined.

(** C7 as stated fails: the cache holds the budget Food as active, the desired
    budget is inactive, and no update call is issued. *)
Lemma populated_cache_issues_no_update :
  sget (fd_budgets (firefly_data Sample.cached_world)) "Food"
  = Some (Sample.budget_json "3" "Food" true)
  /\ out_of_sync (fd_budgets (firefly_data Sample.cached_world))
                 (ImportData.mkBudget "Food" false) (JStr "3")
  /\ _create_budgets Sample.budget_server Sample.food_inactive Sample.cached_world
     = (Ok tt, Sample.cached_world).
Proof.
  split; [reflexivity|]. split; [|reflexivity].
  eexists _, _. repeat split.
  exists "active", (PBool false). split; [cbn; auto|reflexivity].
Qed.

(** A second run over an empty cache against the budget as desired sends the
    listing alone. *)
Example rerun_sends_listing_only :
  sent (snd (_create_budgets Sample.budget_server Sample.food_active Sample.fresh_world))
  = [budget_listing].
Proof. vm_compute. reflexivity. Qed.

(** The balance recorded for a month and an account is the one of the first row
    of the month, not of the last. *)
Example recorded_balance_is_of_first_row :
  running_balances_of [Sample.early_row; Sample.split_row_1; Sample.split_row_2]
  = [(mkArrow 2020 1 1, [("A", 100%Q)])].
Proof. vm_compute. reflexivity. Qed.

(** The groups of split rows come before the groups of the other rows, whatever
    their dates. *)
Example split_groups_come_first :
  all_tx_grouped [Sample.early_row; Sample.split_row_1; Sample.split_row_2]
  = [[Sample.split_row_1; Sample.split_row_2]; [Sample.early_row]].
Proof. vm_compute. reflexivity. Qed.

(** ** Amounts read from the cells of the register *)

Lemma span_spec (p : ascii -> bool) (s : string) :
  forall a b, PyStr.span p s = (a, b) ->
    s = a ++ b /\ (forall c, In c (chars a) -> p c = true).
Proof.
  induction s as [|c s IH]; intros a b H; cbn in H.
  - injection H as <- <-. split; [reflexivity|]. intros c [].
  - destruct (p c) eqn:Hp.
    + destruct (PyStr.span p s) as [a' b']. injection H as <- <-.
      destruct (IH _ _ eq_refl) as [-> Hall]. split; [reflexivity|].
      intros x [<-|Hx]; [exact Hp|exact (Hall x Hx)].
    + injection H as <- <-. split; [reflexivity|]. intros x [].
Qed.

Lemma chars_app (a b : string) : chars (a ++ b) = (chars a ++ chars b)%list.
Proof. induction a as [|c a IH]; cbn; [reflexivity|]. f_equal. exact IH. Qed.

Lemma amount_tail_group (s g : string) :
  amount_tail s = Some g ->
  forall c, In c (chars g) -> amount_cell_char c = true /\ In c (chars s).
Proof.
  unfold amount_tail. destruct (PyStr.span amount_cell_char s) as [num r] eqn:Hs.
  destruct (PyStr.is_empty num); [discriminate|].
  destruct (PyStr.at_end r); [|discriminate]. intro H. injection H as <-.
  destruct (span_spec _ _ Hs) as [-> Hall]. intros c Hc. split; [exact (Hall c Hc)|].
  rewrite chars_app. apply in_or_app. left. exact Hc.
Qed.

Lemma amount_match_group (s g : string) :
  AMOUNT_RE_match s = Some g ->
  forall c, In c (chars g) -> amount_cell_char c = true /\ In c (chars s).
Proof.
  induction s as [|a s IH]; cbn [AMOUNT_RE_match].
  - apply amount_tail_group.
  - destruct (PyStr.isdigit a).
    + apply amount_tail_group.
    + destruct (AMOUNT_RE_match s) as [m|].
      * intro H. injection H as ->. intros c Hc. destruct (IH eq_refl c Hc) as [H1 H2].
        split; [exact H1|right; exact H2].
      * apply amount_tail_group.
Qed.

Lemma chars_remove_commas (s : string) (c : ascii) :
  In c (chars (PyStr.remove_commas s)) -> In c (chars s) /\ c <> ","%char.
Proof.
  induction s as [|a s IH]; cbn; [intros []|].
  destruct (Ascii.eqb_spec a ","%char) as [->|Hne].
  - intro H. destruct (IH H) as [H1 H2]. split; [right; exact H1|exact H2].
  - cbn. intros [<-|H]; [split; [left; reflexivity|exact Hne]|].
    destruct (IH H) as [H1 H2]. split; [right; exact H1|exact H2].
Qed.

Lemma of_string_unsigned (c : ascii) (r : string) :
  c <> "-"%char -> c <> "+"%char ->
  Dec.of_string (String c r) =
  match Dec.scan (String c r) 0 1%positive false false with
  | Some d => Ok d
  | None => Raise InvalidOperation
  end.
Proof.
  intros Hm Hp. unfold Dec.of_string.
  destruct c as [[] [] [] [] [] [] [] []]; try reflexivity; exfalso; auto.
Qed.

Lemma digit_of_nonneg (c : ascii) (d : Z) : Dec.digit_of c = Some d -> 0 <= d.
Proof.
  unfold Dec.digit_of, PyStr.isdigit. destruct (_ && _)%nat eqn:E; [|discriminate].
  intro H. injection H as <-. apply andb_prop in E as [E _].
  apply Nat.leb_le in E. lia.
Qed.

Lemma scan_nonneg (s : string) :
  forall num scale dot digit d,
    0 <= num -> Dec.scan s num scale dot digit = Some d -> (0 <= d)%Q.
Proof.
  induction s as [|c s IH]; intros num scale dot digit d Hn H; cbn [Dec.scan] in H.
  - destruct digit; [|discriminate]. injection H as <-. unfold Qle. cbn. lia.
  - destruct (Ascii.eqb c "."%char).
    + destruct dot; [discriminate|]. eapply IH; [exact Hn|exact H].
    + destruct (Dec.digit_of c) as [d0|] eqn:Hd; [|discriminate].
      apply digit_of_nonneg in Hd. eapply IH; [|exact H]. lia.
Qed.

Lemma scan_needs_digit (s : string) :
  (forall c, In c (chars s) -> PyStr.isdigit c = false) ->
  forall num scale dot, Dec.scan s num scale dot false = None.
Proof.
  induction s as [|c s IH]; intros Hs num scale dot; cbn [Dec.scan]; [reflexivity|].
  assert (Hc : PyStr.isdigit c = false) by (apply Hs; left; reflexivity).
  assert (Hr : forall x, In x (chars s) -> PyStr.isdigit x = false)
    by (intros x Hx; apply Hs; right; exact Hx).
  destruct (Ascii.eqb c "."%char).
  - destruct dot; [reflexivity|apply IH; exact Hr].
  - unfold Dec.digit_of. rewrite Hc. reflexivity.
Qed.

Lemma amount_cell_char_unsigned (c : ascii) :
  amount_cell_char c = true -> c <> "-"%char /\ c <> "+"%char.
Proof. intro H. split; intros ->; discriminate H. Qed.

(** What [Decimal] makes of the group of a match, its commas removed. *)
Lemma group_to_decimal (g : string) :
  (forall c, In c (chars g) -> amount_cell_char c = true) ->
  Dec.of_string (PyStr.remove_commas g) =
  match Dec.scan (PyStr.remove_commas g) 0 1%positive false false with
  | Some d => Ok d
  | None => Raise InvalidOperation
  end.
Proof.
  intro Hg. destruct (PyStr.remove_commas g) as [|c r] eqn:E; [reflexivity|].
  assert (Hc : In c (chars (PyStr.remove_commas g))) by (rewrite E; left; reflexivity).
  apply chars_remove_commas in Hc. destruct Hc as [Hc _].
  destruct (amount_cell_char_unsigned c (Hg c Hc)) as [H1 H2].
  apply of_string_unsigned; assumption.
Qed.

(** X1.  An amount read from a cell is never negative: the sign of the text, like
    any currency symbol before the first digit, is not part of the number. *)
Theorem to_amount_is_unsigned (s : string) (d : Decimal) :
  _to_amount s = Ok d -> (0 <= d)%Q.
Proof.
  unfold _to_amount. destruct (AMOUNT_RE_match s) as [g|] eqn:Hm; [|discriminate].
  rewrite group_to_decimal by (intros c Hc; exact (proj1 (amount_match_group _ Hm c Hc))).
  destruct (Dec.scan _ _ _ _ _) as [d'|] eqn:Hs; [|discriminate].
  intro H. injection H as <-. eapply scan_nonneg; [|exact Hs]. lia.
Qed.

Lemma to_amount_is_unsigned_witness :
  _to_amount "-$1,234.56" = Ok (123456 # 100) /\ (0 <= 123456 # 100)%Q.
Proof.
  split; [reflexivity|].
  exact (to_amount_is_unsigned "-$1,234.56" (d := 123456 # 100) eq_refl).
Defined.

(** X2.  A cell without a digit has no amount: the conversion raises, with a
    failed assertion when the pattern does not match and with the error of the
    decimal module when it matched commas and points alone. *)
Theorem to_amount_needs_digit (s : string) :
  (forall c, In c (chars s) -> PyStr.isdigit c = false) ->
  _to_amount s = Raise AssertionError \/ _to_amount s = Raise InvalidOperation.
Proof.
  intro Hs. unfold _to_amount.
  destruct (AMOUNT_RE_match s) as [g|] eqn:Hm; [right|left; reflexivity].
  rewrite group_to_decimal by (intros c Hc; exact (proj1 (amount_match_group _ Hm c Hc))).
  rewrite scan_needs_digit; [reflexivity|].
  intros c Hc. apply chars_remove_commas in Hc. destruct Hc as [Hc _].
  apply Hs. exact (proj2 (amount_match_group _ Hm c Hc)).
Qed.

Lemma to_amount_needs_digit_witness :
  _to_amount "n/a" = Raise AssertionError \/ _to_amount "n/a" = Raise InvalidOperation.
Proof.
  apply (to_amount_needs_digit "n/a"). intros c [<-|[<-|[<-|[]]]]; reflexivity.
Defined.

Lemma span_rest_after_prefix (p : string) (c : ascii) (s : string) :
  PyStr.at_end (snd (PyStr.span amount_cell_char (String c s))) = false ->
  PyStr.at_end (snd (PyStr.span amount_cell_char (p ++ String c s))) = false.
Proof.
  intro H. induction p as [|a p IH]; [exact H|].
  cbn [append PyStr.span]. destruct (amount_cell_char a).
  - destruct (PyStr.span amount_cell_char (p ++ String c s)) as [n r]. exact IH.
  - cbn [snd PyStr.at_end]. destruct p; reflexivity.
Qed.

Lemma amount_tail_none_after_prefix (p : string) (c : ascii) (s : string) :
  PyStr.isdigit c = true ->
  amount_tail (String c s) = None -> amount_tail (p ++ String c s) = None.
Proof.
  intros Hc H.
  assert (Hend : PyStr.at_end (snd (PyStr.span amount_cell_char (String c s))) = false).
  { unfold amount_tail in H. cbn [PyStr.span] in *.
    unfold amount_cell_char at 1 in H. unfold amount_cell_char at 1.
    rewrite Hc in *. cbn [orb] in *.
    destruct (PyStr.span amount_cell_char s) as [n r]. cbn [PyStr.is_empty snd] in *.
    destruct (PyStr.at_end r); [discriminate|reflexivity]. }
  apply (span_rest_after_prefix p) in Hend. unfold amount_tail.
  destruct (PyStr.span amount_cell_char (p ++ String c s)) as [n r]. cbn [snd] in Hend.
  rewrite Hend. destruct (PyStr.is_empty n); reflexivity.
Qed.

Lemma AMOUNT_RE_match_cons (a : ascii) (s : string) :
  AMOUNT_RE_match (String a s) =
  match (if PyStr.isdigit a then None else AMOUNT_RE_match s) with
  | Some m => Some m
  | None => amount_tail (String a s)
  end.
Proof. reflexivity. Qed.

(** X3.  What stands before the first digit of a cell does not count: a text
    without digits put in front of a cell that starts with a digit (a currency
    symbol, a minus sign, a thousands comma) leaves the amount what it was. *)
Theorem to_amount_ignores_prefix (p : string) (c : ascii) (s : string) :
  (forall x, In x (chars p) -> PyStr.isdigit x = false) ->
  PyStr.isdigit c = true ->
  _to_amount (p ++ String c s) = _to_amount (String c s).
Proof.
  intros Hp Hc. unfold _to_amount.
  assert (H : AMOUNT_RE_match (p ++ String c s) = AMOUNT_RE_match (String c s)).
  { induction p as [|a p IH]; [reflexivity|].
    cbn [append]. rewrite AMOUNT_RE_match_cons.
    rewrite (Hp a (or_introl eq_refl)).
    rewrite IH by (intros x Hx; apply Hp; right; exact Hx).
    rewrite AMOUNT_RE_match_cons, Hc.
    destruct (amount_tail (String c s)) eqn:Ht; [reflexivity|].
    exact (amount_tail_none_after_prefix (String a p) c s Hc Ht). }
  rewrite H. reflexivity.
Qed.

Lemma to_amount_ignores_prefix_witness :
  _to_amount ("-$" ++ "12.30") = _to_amount "12.30".
Proof.
  apply (to_amount_ignores_prefix "-$" "1" "2.30").
  - intros x [<-|[<-|[]]]; reflexivity.
  - reflexivity.
Defined.

(** ** Splitting texts at a separator *)

Lemma prefix_empty (s : string) : String.prefix "" s = true.
Proof. destruct s; reflexivity. Qed.

(** A text that does not contain the separator is not split. *)
Lemma split_without_separator (sep s : string) :
  PyStr.contains sep s = false -> PyStr.split s sep = [s].
Proof.
  unfold PyStr.split. induction s as [|c s IH]; intro H; [reflexivity|].
  cbn [PyStr.contains] in H. apply orb_false_iff in H. destruct H as [Hp Hc].
  cbn [PyStr.split_from]. rewrite Hp, (IH Hc). reflexivity.
Qed.

Lemma contains_app_r (sub p s : string) :
  PyStr.contains sub s = true -> PyStr.contains sub (p ++ s) = true.
Proof.
  intro H. induction p as [|c p IH]; [exact H|]. cbn [append].
  apply contains_tail. exact IH.
Qed.

Lemma string_app_assoc (a b c : string) : (a ++ b) ++ c = a ++ (b ++ c).
Proof. induction a as [|x a IH]; cbn; [reflexivity|]. rewrite IH. reflexivity. Qed.

Lemma contains_suffix_of_pattern (pre sub s : string) :
  PyStr.contains (pre ++ sub) s = true -> PyStr.contains sub s = true.
Proof.
  induction s as [|c s IH]; intro H.
  - cbn [PyStr.contains] in H. rewrite orb_false_r in H.
    apply prefix_app in H. destruct H as [t Ht].
    destruct pre; [|discriminate Ht]. destruct sub; [reflexivity|discriminate Ht].
  - cbn [PyStr.contains] in H. apply orb_true_iff in H. destruct H as [H|H].
    + apply prefix_app in H. destruct H as [t ->]. rewrite string_app_assoc.
      apply contains_app_r, contains_prefix, prefix_of_app.
    + apply contains_tail. exact (IH H).
Qed.

(** X4.  The name of the counter-account is read back from the payee text of a
    transfer: for the payee made of the marker and a name that does not
    contain the separator, the row is a transfer and its counter-account is
    that name. *)
Theorem transfer_account_round_trip (tx : YNABTransaction) (name : string) :
  payee tx = "Transfer : " ++ name ->
  PyStr.contains " : " name = false ->
  _is_transfer tx = true /\ _transfer_account tx = Ok name.
Proof.
  intros Hp Hn. unfold _is_transfer, _transfer_account. rewrite Hp. split.
  - apply contains_prefix, prefix_of_app.
  - assert (Hc : PyStr.contains " / Transfer : " ("Transfer : " ++ name) = false).
    { destruct (PyStr.contains " / Transfer : " ("Transfer : " ++ name)) eqn:E;
        [|reflexivity].
      assert (E' : PyStr.contains " / Transfer : " name = true).
      { cbn in E.
        destruct (String.prefix "/ Transfer : " name) eqn:E1; [|exact E].
        apply contains_prefix in E1.
        apply (contains_suffix_of_pattern "/ Transfer" " : ") in E1. congruence. }
      apply (contains_suffix_of_pattern " / Transfer" " : ") in E'. congruence. }
    rewrite Hc. unfold PyStr.split. cbn. rewrite prefix_empty.
    fold (PyStr.split name " : "). rewrite (split_without_separator _ _ Hn).
    reflexivity.
Qed.

Lemma transfer_account_round_trip_witness :
  _is_transfer Sample.row_A = true /\ _transfer_account Sample.row_A = Ok "B".
Proof.
  apply (@transfer_account_round_trip Sample.row_A "B"); reflexivity.
Defined.

(** ** Descriptions and budget names *)

(** X5.  A memo that carries the marker of a split line and no closing bracket
    has no description: taking the part after the bracket raises an
    IndexError. *)
Theorem description_of_split_needs_bracket (self : Importer) (tx : YNABTransaction) :
  Config.memo_to_description (config self) = true ->
  PyStr.contains "(Split" (PyStr.strip (memo tx)) = true ->
  PyStr.contains ")" (PyStr.strip (memo tx)) = false ->
  _description self tx = Raise IndexError.
Proof.
  intros Hm Hs Hb. unfold _description. rewrite Hm, Hs. cbn [negb].
  rewrite (split_without_separator _ _ Hb). reflexivity.
Qed.

Lemma description_of_split_needs_bracket_witness :
  _description Sample.plain
    (mkYNABTransaction "A" "" Sample.jan15 "Market" "" "" "" "(Split 1/2 food" 20 0 "" 300)
  = Raise IndexError.
Proof.
  apply (@description_of_split_needs_bracket Sample.plain
           (mkYNABTransaction "A" "" Sample.jan15 "Market" "" "" "" "(Split 1/2 food"
                              20 0 "" 300)); reflexivity.
Defined.

(** X6.  The budget name of a row of the hidden categories is the part of the
    configured column between its first two backticks: when that column has
    no backtick the budget cannot be read and an IndexError is raised, whatever
    the budget mapping holds for the row's category. *)
Theorem hidden_budget_needs_backtick (self : Importer) (tx : YNABTransaction) :
  master_category tx = "Hidden Categories" ->
  PyStr.contains "`" (field_of (Config.budget_field (config self)) tx) = false ->
  _budget self tx = Raise IndexError.
Proof.
  intros Hm Hb. unfold _budget. rewrite Hm, String.eqb_refl.
  rewrite (split_without_separator _ _ Hb). reflexivity.
Qed.

Lemma hidden_budget_needs_backtick_witness :
  _budget Sample.plain
    (mkYNABTransaction "A" "" Sample.jan15 "Shop" "Hidden Categories:Old"
                       "Hidden Categories" "Old" "" 10 0 "" 100)
  = Raise IndexError.
Proof.
  apply (@hidden_budget_needs_backtick Sample.plain
           (mkYNABTransaction "A" "" Sample.jan15 "Shop" "Hidden Categories:Old"
                              "Hidden Categories" "Old" "" 10 0 "" 100)); reflexivity.
Defined.

Lemma memo_tail_note (s : string) (g : MemoMatch) (note : string) :
  memo_tail s = Some g -> group4 g = Some note -> exists n, note = String ";" n.
Proof.
  unfold memo_tail. destruct s as [|a [|b [|c r]]]; try discriminate.
  destruct (PyStr.isupper_AZ a && PyStr.isupper_AZ b && PyStr.isupper_AZ c);
    [|discriminate].
  destruct (PyStr.span PyStr.isspace r) as [ws r1].
  destruct (PyStr.is_empty ws); [discriminate|].
  destruct (PyStr.span amount_char r1) as [num r2].
  destruct (PyStr.is_empty num); [discriminate|].
  match goal with |- (let (_, _) := ?e in _) = _ -> _ => destruct e as [k r3] end.
  match goal with |- (let (_, _) := ?e in _) = _ -> _ =>
    assert (Hn : forall x, fst e = Some x -> exists n, x = String ";" n);
    [|destruct e as [nt r4]] end.
  { destruct r3 as [|x r']; [discriminate|].
    destruct (Ascii.eqb_spec x ";"%char) as [->|Hne].
    - destruct (PyStr.span _ r') as [n r'']. cbn [fst]. intros y Hy.
      injection Hy as <-. eexists. reflexivity.
    - destruct x as [[] [] [] [] [] [] [] []]; try discriminate; contradiction. }
  destruct (PyStr.at_end r4); [|discriminate].
  intro H. injection H as <-. cbn [group4 fst] in *. exact (Hn note).
Qed.

Lemma MEMO_RE_match_tail (s : string) (g : MemoMatch) :
  MEMO_RE_match s = Some g -> exists t, memo_tail t = Some g.
Proof.
  induction s as [|c s IH]; cbn [MEMO_RE_match].
  - intro H. eexists. exact H.
  - destruct (PyStr.is_newline c).
    + intro H. eexists. exact H.
    + destruct (MEMO_RE_match s) as [m|].
      * intro H. injection H as ->. apply IH. reflexivity.
      * intro H. eexists. exact H.
Qed.

Lemma strip_keeps_semicolon (n : string) : exists r, PyStr.strip (String ";" n) = String ";" r.
Proof.
  unfold PyStr.strip. cbn [PyStr.lstrip].
  change (PyStr.isspace ";") with false. cbv iota. cbn [PyStr.rstrip].
  destruct (PyStr.rstrip n); eexists; reflexivity.
Qed.

(** X7.  On a foreign-currency account, when the memo matches the currency
    pattern with a note after a semicolon, the description is that note with
    its semicolon: the text of the memo before it is not part of the
    description. *)
Theorem description_of_foreign_note (self : Importer) (tx : YNABTransaction)
        (g : MemoMatch) (note d : string) :
  Config.memo_to_description (config self) = true ->
  _is_foreign self (account tx) = true ->
  MEMO_RE_match (memo tx) = Some g ->
  group4 g = Some note ->
  _description self tx = Ok d ->
  d = PyStr.strip note /\ exists r, d = String ";" r.
Proof.
  intros Hm Hf Hg Hn. unfold _description. rewrite Hm, Hf, Hg. cbn [negb].
  match goal with |- bind ?m _ = _ -> _ => destruct m as [memo1|]; [|discriminate] end.
  cbn [bind]. destruct g as [g1 g2 g3 g4]. cbn [group4] in Hn. subst g4.
  destruct (MEMO_RE_match_tail _ Hg) as [t Ht].
  destruct (memo_tail_note _ Ht eq_refl) as [n ->].
  destruct (strip_keeps_semicolon n) as [r Hr]. rewrite Hr. cbn [PyStr.is_empty].
  intro H. injection H as <-. split; [reflexivity|]. exists r. reflexivity.
Qed.

Lemma description_of_foreign_note_witness :
  ";lunch" = PyStr.strip ";lunch" /\ exists r, ";lunch" = String ";" r.
Proof.
  apply (@description_of_foreign_note Sample.foreign Sample.deposit_row
           (mkMemoMatch "USD" "120.50" None (Some ";lunch")) ";lunch" ";lunch");
    reflexivity.
Defined.

(** ** Balances recorded for the verification *)

Lemma string_eqb_trans (a b c : string) :
  String.eqb a b = true -> String.eqb b c = true -> String.eqb a c = true.
Proof. rewrite !String.eqb_eq. congruence. Qed.

Lemma date_eqb_sym (a b : Arrow) : Date.eqb a b = Date.eqb b a.
Proof.
  unfold Date.eqb.
  rewrite (Z.eqb_sym (year a)), (Z.eqb_sym (month a)), (Z.eqb_sym (day a)). reflexivity.
Qed.

Lemma date_eqb_trans (a b c : Arrow) :
  Date.eqb a b = true -> Date.eqb b c = true -> Date.eqb a c = true.
Proof. rewrite !date_eqb_eq. congruence. Qed.

Lemma recorded_balance_record rb tx m a :
  recorded_balance (record_balance rb tx) m a =
  if Date.eqb (Date.first_of_month (date tx)) m && String.eqb (account tx) a
  then Some (running_balance tx)
  else recorded_balance rb m a.
Proof.
  unfold recorded_balance, record_balance. cbv zeta.
  rewrite (get_set Date.eqb date_eqb_sym date_eqb_trans).
  destruct (Date.eqb (Date.first_of_month (date tx)) m) eqn:E; [|reflexivity].
  apply date_eqb_eq in E. subst m. unfold sget, sset.
  rewrite (get_set String.eqb String.eqb_sym string_eqb_trans). cbn [andb].
  destruct (String.eqb (account tx) a); [reflexivity|].
  unfold PyDict.get_default.
  destruct (PyDict.get Date.eqb rb (Date.first_of_month (date tx))); reflexivity.
Qed.

(** X8.  The balance recorded for a month and an account is the running balance
    of the first row of the register, in its order, that belongs to that month
    and account; nothing is recorded for a month and account without rows. *)
Theorem recorded_balance_is_of_first_matching_row
        (txs : list YNABTransaction) (m : Arrow) (a : string) :
  recorded_balance (running_balances_of txs) m a
  = option_map running_balance (first_row_of m a txs).
Proof.
  unfold running_balances_of.
  induction txs as [|tx txs IH]; [reflexivity|].
  cbn [rev]. rewrite fold_left_app. cbn [fold_left].
  rewrite recorded_balance_record. unfold first_row_of. cbn [find].
  destruct (Date.eqb (Date.first_of_month (date tx)) m && String.eqb (account tx) a);
    [reflexivity|exact IH].
Qed.

(** ** Grouping the rows *)

Lemma split_key_eqb_refl (k : SplitKey) : split_key_eqb k k = true.
Proof.
  destruct k as [[a d] q]. cbn. rewrite String.eqb_refl, date_eqb_refl. apply Qeq_bool_refl.
Qed.

Lemma split_key_eqb_sym (a b : SplitKey) : split_key_eqb a b = split_key_eqb b a.
Proof.
  destruct a as [[a1 ad] aq], b as [[b1 bd] bq]. cbn.
  rewrite (String.eqb_sym a1), (date_eqb_sym ad). unfold Dec.eqb.
  rewrite (Qeq_bool_comm aq). reflexivity.
Qed.

Lemma split_key_eqb_trans (a b c : SplitKey) :
  split_key_eqb a b = true -> split_key_eqb b c = true -> split_key_eqb a c = true.
Proof.
  destruct a as [[a1 ad] aq], b as [[b1 bd] bq], c as [[c1 cd] cq]. cbn.
  rewrite !andb_true_iff, !String.eqb_eq, !date_eqb_eq.
  intros [[-> ->] Q1] [[-> ->] Q2].
  repeat split; try reflexivity. exact (Qeq_bool_trans _ _ _ Q1 Q2).
Qed.

(** One step of the grouping of the split rows. *)
Lemma group_splits_step (d : PyDict.t SplitKey (list YNABTransaction)) (k : SplitKey)
      (tx : YNABTransaction) :
  PyDict.set split_key_eqb d k (PyDict.get_default split_key_eqb d k [] ++ [tx])%list =
  match d with
  | [] => [(k, [tx])]
  | (k', v') :: d' =>
      if split_key_eqb k' k then (k', (v' ++ [tx])%list) :: d'
      else (k', v') ::
           PyDict.set split_key_eqb d' k (PyDict.get_default split_key_eqb d' k [] ++ [tx])%list
  end.
Proof.
  destruct d as [|[k' v'] d']; [reflexivity|].
  unfold PyDict.get_default. cbn [PyDict.get PyDict.set].
  destruct (split_key_eqb k' k); reflexivity.
Qed.

Lemma group_splits_step_invariant (Q : SplitKey * list YNABTransaction -> Prop)
      (k : SplitKey) (tx : YNABTransaction) :
  Q (k, [tx]) ->
  (forall k' v', split_key_eqb k' k = true -> Q (k', v') -> Q (k', (v' ++ [tx])%list)) ->
  forall d, Forall Q d ->
    Forall Q (PyDict.set split_key_eqb d k
                (PyDict.get_default split_key_eqb d k [] ++ [tx])%list).
Proof.
  intros Hnew Hadd. induction d as [|[k' v'] d IH]; intro H; rewrite group_splits_step.
  - constructor; [exact Hnew|constructor].
  - inversion H as [|x l Hx Hl]; subst. destruct (split_key_eqb k' k) eqn:E.
    + constructor; [exact (Hadd _ _ E Hx)|exact Hl].
    + constructor; [exact Hx|exact (IH Hl)].
Qed.

Lemma group_splits_invariant (Q : SplitKey * list YNABTransaction -> Prop)
      (P : YNABTransaction -> Prop) :
  (forall tx, P tx -> Q (split_key tx, [tx])) ->
  (forall tx k' v', P tx -> split_key_eqb k' (split_key tx) = true ->
                    Q (k', v') -> Q (k', (v' ++ [tx])%list)) ->
  forall splits d, Forall P splits -> Forall Q d -> Forall Q (group_splits splits d).
Proof.
  intros Hnew Hadd. induction splits as [|tx splits IH]; intros d Hs Hd; [exact Hd|].
  inversion Hs as [|x l Hx Hl]; subst. cbn [group_splits]. apply IH; [exact Hl|].
  apply (@group_splits_step_invariant Q (split_key tx) tx); [exact (Hnew tx Hx)| |exact Hd].
  intros k' v' E. exact (Hadd tx k' v' Hx E).
Qed.

Lemma group_splits_step_concat (k : SplitKey) (tx : YNABTransaction) :
  forall d,
    Permutation
      (List.concat (PyDict.values
         (PyDict.set split_key_eqb d k
            (PyDict.get_default split_key_eqb d k [] ++ [tx])%list)))
      (List.concat (PyDict.values d) ++ [tx])%list.
Proof.
  induction d as [|[k' v'] d IH]; rewrite group_splits_step.
  - reflexivity.
  - destruct (split_key_eqb k' k); unfold PyDict.values in *;
      cbn [map snd List.concat].
    + rewrite <- !app_assoc. apply Permutation_app_head. apply Permutation_app_comm.
    + rewrite <- app_assoc. apply Permutation_app_head. exact IH.
Qed.

Lemma group_splits_concat :
  forall splits d,
    Permutation (List.concat (PyDict.values (group_splits splits d)))
                (List.concat (PyDict.values d) ++ splits)%list.
Proof.
  induction splits as [|tx splits IH]; intro d; cbn [group_splits].
  - rewrite app_nil_r. reflexivity.
  - rewrite IH, group_splits_step_concat, <- app_assoc. reflexivity.
Qed.

Lemma filter_partition {A} (p : A -> bool) (l : list A) :
  Permutation (filter p l ++ filter (fun x => negb (p x)) l)%list l.
Proof.
  induction l as [|x l IH]; [reflexivity|]. cbn [filter].
  destruct (p x); cbn [negb app].
  - constructor. exact IH.
  - symmetry. apply Permutation_cons_app. symmetry. exact IH.
Qed.

Lemma concat_singletons {A} (l : list A) : List.concat (map (fun x => [x]) l) = l.
Proof. induction l as [|x l IH]; cbn; [reflexivity|]. rewrite IH. reflexivity. Qed.

Lemma all_tx_grouped_eq (txs : list YNABTransaction) :
  all_tx_grouped txs =
  (PyDict.values (group_splits (filter is_split_row (filter moves_money txs)) [])
   ++ map (fun tx => [tx])
          (filter (fun tx => negb (is_split_row tx)) (filter moves_money txs)))%list.
Proof. reflexivity. Qed.

(** X9.  Grouping loses and repeats nothing: the rows of the groups, taken
    together, are the rows of the register that have an inflow or an outflow
    and are no starting balance, each as often as the register holds it; and
    no group is empty. *)
Theorem grouping_partitions_rows (txs : list YNABTransaction) :
  Permutation (List.concat (all_tx_grouped txs)) (filter moves_money txs)
  /\ Forall (fun g => g <> []) (all_tx_grouped txs).
Proof.
  rewrite all_tx_grouped_eq. split.
  - rewrite concat_app, concat_singletons, group_splits_concat. cbn [PyDict.values map List.concat app].
    apply filter_partition.
  - apply Forall_app. split.
    + unfold PyDict.values. apply Forall_map.
      apply (@group_splits_invariant (fun kv => snd kv <> []) (fun _ => True)).
      * intros tx _. discriminate.
      * intros tx k' v' _ _ _. cbn [snd]. destruct v'; discriminate.
      * apply Forall_forall. intros; exact I.
      * constructor.
    + apply Forall_map. apply Forall_forall. intros tx _. discriminate.
Qed.

(** X10.  A group is either one row that is no split line, or lines of a split
    that share account, date and running balance. *)
Theorem groups_are_single_or_split (txs : list YNABTransaction) :
  Forall (fun g =>
            (exists tx, g = [tx] /\ is_split_row tx = false)
            \/ ((forall tx, In tx g -> is_split_row tx = true)
                /\ forall a b, In a g -> In b g ->
                     split_key_eqb (split_key a) (split_key b) = true))
         (all_tx_grouped txs).
Proof.
  rewrite all_tx_grouped_eq. apply Forall_app. split.
  - unfold PyDict.values. apply Forall_map.
    assert (H : Forall (fun kv : SplitKey * list YNABTransaction =>
                          forall tx, In tx (snd kv) ->
                            is_split_row tx = true
                            /\ split_key_eqb (fst kv) (split_key tx) = true)
                       (group_splits (filter is_split_row (filter moves_money txs)) [])).
    { apply (@group_splits_invariant _ (fun tx => is_split_row tx = true)).
      - intros tx Ht x [<-|[]]. split; [exact Ht|apply split_key_eqb_refl].
      - intros tx k' v' Ht E Hv x Hx. cbn [fst snd] in *.
        apply in_app_or in Hx. destruct Hx as [Hx|[<-|[]]]; [exact (Hv x Hx)|].
        split; [exact Ht|exact E].
      - apply Forall_forall. intros x Hx. apply filter_In in Hx. exact (proj2 Hx).
      - constructor. }
    eapply Forall_impl; [|exact H]. intros [k v] Hv. cbn [fst snd] in *. right. split.
    + intros tx Ht. exact (proj1 (Hv tx Ht)).
    + intros a b Ha Hb. apply (split_key_eqb_trans (split_key a) k (split_key b)).
      * rewrite split_key_eqb_sym. exact (proj2 (Hv a Ha)).
      * exact (proj2 (Hv b Hb)).
  - apply Forall_map. apply Forall_forall. intros tx Ht. left. exists tx.
    split; [reflexivity|]. apply filter_In in Ht. destruct Ht as [_ Ht].
    apply negb_true_iff in Ht. exact Ht.
Qed.

(** ** What a row becomes *)

Section Rows.

Variable self : Importer.
Variable budgets : StrDict ImportData.Budget.
Variable categories : list string.

Lemma is_empty_eq (s : string) : PyStr.is_empty s = true <-> s = "".
Proof. destruct s; cbn; split; intro H; try reflexivity; discriminate H. Qed.

(** The paths of the body of the loop over the rows that end without an
    exception. *)
Lemma process_row_cases st tx st1 out :
  process_row self budgets categories st tx = Ok (st1, out) ->
  exists budget,
    _budget self tx = Ok budget
    /\ category_source self budgets categories st tx budget (category_var st1)
    /\ ((_is_transfer tx = true
         /\ exists tx', _correct_transfer_to_from tx = Ok tx'
            /\ (out = None
                \/ exists amount description foreign_amount,
                     _amount self tx' = Ok amount
                     /\ out = Some (ImportData.Transfer
                                      (make_meta self tx' amount description
                                                 (running_balance tx))
                                      (account tx') (payee tx') foreign_amount)))
        \/ (_is_transfer tx = false
            /\ transfers_seen_map st1 = transfers_seen_map st
            /\ exists amount description c,
                 _amount self tx = Ok amount
                 /\ category_var st1 = Some c
                 /\ let meta := make_meta self tx amount description (running_balance tx) in
                    (Dec.ltb 0 (outflow tx) = true
                     /\ out = Some (ImportData.Withdrawal meta (account tx) (_payee self tx)
                                                          budget c))
                    \/ (Dec.ltb 0 (outflow tx) = false /\ Dec.ltb 0 (inflow tx) = true
                        /\ out = Some (ImportData.Deposit meta (account tx) (_payee self tx)
                                                          budget c)))).
Proof.
  unfold process_row. intro H.
  destruct (_budget self tx) as [budget|]; [|discriminate]. cbn [bind] in H.
  exists budget. split; [reflexivity|].
  match type of H with bind ?c _ = _ => destruct c as [cat|] eqn:Hcat; [|discriminate] end.
  cbn [bind transfers_seen_map category_var] in H.
  assert (Hsrc : category_source self budgets categories st tx budget cat).
  { unfold category_source. destruct (PyStr.is_empty budget) eqn:Hb; cbn [negb] in Hcat.
    - left. apply is_empty_eq in Hb. injection Hcat as <-. split; [exact Hb|reflexivity].
    - right. unfold smem, sitem, PyDict.mem, PyDict.item in Hcat. fold (sget budgets budget) in Hcat.
      destruct (sget budgets budget) as [b|]; [|discriminate]. cbn [bind] in Hcat.
      destruct (ImportData.active b) eqn:Ha.
      + left. exists b.
        destruct (PyStr.is_empty (_category self tx) || str_in (_category self tx) categories)
                 eqn:Hc; [|discriminate].
        injection Hcat as <-. split; [reflexivity|]. split; [exact Ha|].
        split; [reflexivity|]. apply orb_true_iff in Hc.
        destruct Hc as [Hc|Hc]; [left; apply is_empty_eq; exact Hc|right; exact Hc].
      + right. exists b. injection Hcat as <-.
        split; [reflexivity|split; [exact Ha|reflexivity]]. }
  clear Hcat. destruct (_is_transfer tx).
  - destruct (_correct_transfer_to_from tx) as [tx'|]; [|discriminate]. cbn [bind] in H.
    match type of H with (if ?c then _ else _) = _ => destruct c end.
    + injection H as <- <-. split; [exact Hsrc|]. left. split; [reflexivity|].
      exists tx'. split; [reflexivity|]. left. reflexivity.
    + destruct (_amount self tx') as [amount|] eqn:Ha; [|discriminate]. cbn [bind] in H.
      destruct (_description self tx') as [description|]; [|discriminate]. cbn [bind] in H.
      destruct (_transfer_foreign_amount self tx') as [fa|]; [|discriminate].
      cbn [bind] in H. injection H as <- <-. split; [exact Hsrc|]. left.
      split; [reflexivity|]. exists tx'. split; [reflexivity|]. right.
      exists amount, description, fa. split; [exact Ha|reflexivity].
  - destruct (Dec.ltb 0 (outflow tx)) eqn:Ho; [|destruct (Dec.ltb 0 (inflow tx)) eqn:Hi];
      try discriminate;
      (destruct (_amount self tx) as [amount|]; [|discriminate]); cbn [bind] in H;
      (destruct (_description self tx) as [description|]; [|discriminate]); cbn [bind] in H;
      unfold read_category in H; cbn [category_var] in H;
      (destruct cat as [c|]; [|discriminate]); cbn [bind] in H;
      injection H as <- <-; (split; [exact Hsrc|]); right; (split; [reflexivity|]);
      (split; [reflexivity|]); exists amount, description, c; (split; [reflexivity|]);
      (split; [reflexivity|]); cbv zeta.
    + left. split; reflexivity.
    + right. repeat split; reflexivity.
Qed.

Lemma corrected_row_keeps (tx tx' : YNABTransaction) :
  _correct_transfer_to_from tx = Ok tx' ->
  date tx' = date tx /\ flag tx' = flag tx /\ memo tx' = memo tx /\ cleared tx' = cleared tx
  /\ (Dec.ltb 0 (outflow tx) = true /\ account tx' = account tx
      /\ outflow tx' = outflow tx /\ inflow tx' = inflow tx
      \/ Dec.ltb 0 (outflow tx) = false /\ payee tx' = account tx
         /\ outflow tx' = inflow tx /\ inflow tx' = outflow tx).
Proof.
  unfold _correct_transfer_to_from. destruct (_is_transfer tx); [|discriminate].
  destruct (_transfer_account tx) as [name|]; [|discriminate]. cbn [bind].
  destruct (Dec.ltb 0 (outflow tx)); intro H; injection H as <-; cbn;
    repeat split; auto.
Qed.

(** X11.  The category of a leg that is no transfer is the one in force after
    its row: empty when the row has no budget; the configured column of the
    row, which is then empty or a known category, when its budget is active;
    and the category in force before the row, that of an earlier row, when its
    budget is known and not active.  The budget of the leg is the one resolved
    for the row. *)
Theorem leg_category_source (st : RowState) (tx : YNABTransaction) (st1 : RowState)
        (leg : ImportData.Leg) (budget c : string) :
  process_row self budgets categories st tx = Ok (st1, Some leg) ->
  budget_and_category_of leg = Some (budget, c) ->
  _budget self tx = Ok budget
  /\ category_var st1 = Some c
  /\ category_source self budgets categories st tx budget (Some c).
Proof.
  intros H Hl. apply process_row_cases in H.
  destruct H as (budget' & Hb & Hsrc & [(_ & tx' & _ & [Ho|Ho]) | (_ & _ & Hrest)]).
  - discriminate Ho.
  - destruct Ho as (a & d & fa & _ & Ho). injection Ho as ->. discriminate Hl.
  - destruct Hrest as (a & d & c' & _ & Hc & [(_ & Ho)|(_ & _ & Ho)]);
      injection Ho as ->; cbn in Hl; injection Hl as <- <-;
      rewrite Hc in Hsrc; repeat split; assumption.
Qed.

(** X12.  Date, tags, notes, reconciliation mark and external identifier of a leg
    are those of the row as the register has it: for a transfer they do not
    depend on the correction of its direction, and the external identifier is
    the running balance of the row itself, not the sentinel of a rewritten
    row. *)
Theorem leg_metadata_is_of_raw_row (st : RowState) (tx : YNABTransaction) (st1 : RowState)
        (leg : ImportData.Leg) :
  process_row self budgets categories st tx = Ok (st1, Some leg) ->
  let m := ImportData.meta_of leg in
  ImportData.date m = date tx
  /\ ImportData.external_id m = running_balance tx
  /\ ImportData.reconciled m = String.eqb (cleared tx) "R"
  /\ ImportData.tags m = _tags self tx
  /\ ImportData.notes m = _notes self tx.
Proof.
  intro H. apply process_row_cases in H.
  destruct H as (budget & _ & _ & [(_ & tx' & Hc & [Ho|Ho]) | (_ & _ & Hrest)]).
  - discriminate Ho.
  - destruct Ho as (a & d & fa & _ & Ho). injection Ho as ->.
    destruct (corrected_row_keeps _ Hc) as (Hd & Hf & Hm & Hcl & _).
    cbn. unfold _tags, _notes. rewrite Hd, Hf, Hm, Hcl. repeat split; reflexivity.
  - destruct Hrest as (a & d & c & _ & _ & [(_ & Ho)|(_ & _ & Ho)]);
      injection Ho as ->; cbn; repeat split; reflexivity.
Qed.

Lemma ltb_false_nonneg_zero (x : Decimal) :
  (0 <= x)%Q -> Dec.ltb 0 x = false -> Dec.truthy x = false.
Proof.
  intros Hn Hl. apply ltb_nlt in Hl. unfold Dec.truthy. apply negb_false_iff.
  apply Qeq_bool_iff. apply Qle_antisym; [|exact Hn]. apply Qnot_lt_le. exact Hl.
Qed.

Lemma ltb_true_truthy (x : Decimal) : Dec.ltb 0 x = true -> Dec.truthy x = true.
Proof.
  intro H. apply ltb_lt in H. apply truthy_nonzero. intro E. rewrite E in H.
  exact (Qlt_irrefl _ H).
Qed.

(** X13.  On an account in the default currency the amount of a leg is strictly
    positive: for a row with no negative inflow or outflow and one of them
    positive, the leg of a withdrawal or of a transfer given with its outflow
    carries the outflow, the leg of a deposit or of a transfer given with its
    inflow carries the inflow. *)
Theorem default_currency_amount_is_positive (st : RowState) (tx : YNABTransaction)
        (st1 : RowState) (leg : ImportData.Leg) :
  process_row self budgets categories st tx = Ok (st1, Some leg) ->
  _is_foreign self (booked_on leg) = false ->
  (0 <= outflow tx)%Q -> (0 <= inflow tx)%Q ->
  (0 < outflow tx)%Q \/ (0 < inflow tx)%Q ->
  ImportData.amount (ImportData.meta_of leg)
  = (if Dec.ltb 0 (outflow tx) then outflow tx else inflow tx)
  /\ (0 < ImportData.amount (ImportData.meta_of leg))%Q.
Proof.
  intros H Hf Ho Hi Hpos. apply process_row_cases in H.
  assert (Hval : (0 < (if Dec.ltb 0 (outflow tx) then outflow tx else inflow tx))%Q).
  { destruct (Dec.ltb 0 (outflow tx)) eqn:E; [apply ltb_lt; exact E|].
    apply ltb_nlt in E. destruct Hpos as [Hp|Hp]; [contradiction|exact Hp]. }
  destruct H as (budget & _ & _ & [(_ & tx' & Hc & [Hout|Hout]) | (_ & _ & Hrest)]).
  - discriminate Hout.
  - destruct Hout as (a & d & fa & Ha & Hout). injection Hout as ->.
    cbn [booked_on ImportData.meta_of make_meta ImportData.amount] in *.
    rewrite (amount_default_currency self tx' Hf) in Ha. injection Ha as <-.
    destruct (corrected_row_keeps _ Hc) as (_ & _ & _ & _ & [(E & _ & -> & ->)|(E & _ & -> & ->)]);
      rewrite E in *; unfold Dec.or_else.
    + rewrite (ltb_true_truthy _ E). split; [reflexivity|exact Hval].
    + destruct (Dec.truthy (inflow tx)) eqn:Et; [split; [reflexivity|exact Hval]|].
      exfalso. apply (Qlt_irrefl 0). eapply Qlt_le_trans; [exact Hval|].
      unfold Dec.truthy in Et. apply negb_false_iff, Qeq_bool_iff in Et.
      rewrite Et. apply Qle_refl.
  - destruct Hrest as (a & d & c & Ha & _ & [(E & Hout)|(E & _ & Hout)]);
      injection Hout as ->;
      cbn [booked_on ImportData.meta_of make_meta ImportData.amount] in *;
      rewrite (amount_default_currency self tx Hf) in Ha; injection Ha as <-;
      rewrite E in *; unfold Dec.or_else.
    + rewrite (ltb_true_truthy _ E). split; [reflexivity|exact Hval].
    + rewrite (ltb_false_nonneg_zero Ho E). split; [reflexivity|exact Hval].
Qed.

Lemma process_rows_nonempty st txs st1 outs :
  process_rows self budgets categories st txs = Ok (st1, outs) ->
  somes outs <> [] -> txs <> [].
Proof.
  destruct txs; [|discriminate]. cbn. intro H. injection H as _ <-.
  intro F. exfalso. exact (F eq_refl).
Qed.

(** X14.  Every group that comes out of the loop over the grouped rows has at
    least one leg, and its title is the configured replacement for an empty
    description. *)
Theorem emitted_groups_have_legs_and_title (groups : list (list YNABTransaction)) :
  forall st st' out,
    process_groups self budgets categories st groups = Ok (st', out) ->
    Forall (fun g => ImportData.transactions g <> []
                     /\ ImportData.title g = Config.empty_description (config self)) out.
Proof.
  induction groups as [|g groups IH]; intros st st' out H.
  - cbn in H. injection H as _ <-. constructor.
  - cbn [process_groups] in H.
    destruct (process_rows self budgets categories st g) as [[st1 o1]|] eqn:Hg;
      [|discriminate]. cbn [bind] in H.
    destruct (process_groups self budgets categories st1 groups) as [[st2 gs]|] eqn:Hgs;
      [|discriminate]. cbn [bind] in H. specialize (IH _ _ _ Hgs).
    cbn [ImportData.transactions] in H.
    destruct (somes o1) as [|l ls] eqn:Es; injection H as _ <-; [exact IH|].
    constructor; [|exact IH]. cbn [ImportData.transactions ImportData.title].
    split; [discriminate|].
    assert (Hne : g <> []).
    { eapply process_rows_nonempty; [exact Hg|]. rewrite Es. discriminate. }
    destruct g; [contradiction|reflexivity].
Qed.

End Rows.

Lemma leg_category_source_witness :
  _budget Sample.plain Sample.early_row = Ok ""
  /\ category_var {| transfers_seen_map := []; category_var := Some "" |} = Some ""
  /\ category_source Sample.plain [] [] initial_row_state Sample.early_row "" (Some "").
Proof.
  apply (@leg_category_source Sample.plain [] [] initial_row_state Sample.early_row
           {| transfers_seen_map := []; category_var := Some "" |}
           (ImportData.Withdrawal
              (ImportData.mkMeta (mkArrow 2020 1 5) 10 "(empty description)" ""
                                 ["import-2020"] false 100)
              "A" "Shop" "" "")
           "" ""); reflexivity.
Defined.

Lemma leg_metadata_is_of_raw_row_witness :
  let m := ImportData.mkMeta Sample.jan15 50 "(empty description)" "" ["import-2020"] false 550 in
  ImportData.date m = date Sample.row_B
  /\ ImportData.external_id m = running_balance Sample.row_B
  /\ ImportData.reconciled m = String.eqb (cleared Sample.row_B) "R"
  /\ ImportData.tags m = _tags Sample.plain Sample.row_B
  /\ ImportData.notes m = _notes Sample.plain Sample.row_B.
Proof.
  apply (@leg_metadata_is_of_raw_row Sample.plain [] [] initial_row_state Sample.row_B
           {| transfers_seen_map := [(("A", "B", Sample.jan15, 50%Q), 1)];
              category_var := Some "" |}
           (ImportData.Transfer
              (ImportData.mkMeta Sample.jan15 50 "(empty description)" "" ["import-2020"]
                                 false 550)
              "A" "B" None)).
  vm_compute. reflexivity.
Defined.

Lemma default_currency_amount_is_positive_witness :
  (50 : Q) = (if Dec.ltb 0 (outflow Sample.row_B) then outflow Sample.row_B
              else inflow Sample.row_B)
  /\ (0 < 50)%Q.
Proof.
  apply (@default_currency_amount_is_positive Sample.plain [] [] initial_row_state
           Sample.row_B
           {| transfers_seen_map := [(("A", "B", Sample.jan15, 50%Q), 1)];
              category_var := Some "" |}
           (ImportData.Transfer
              (ImportData.mkMeta Sample.jan15 50 "(empty description)" "" ["import-2020"]
                                 false 550)
              "A" "B" None)).
  - vm_compute. reflexivity.
  - reflexivity.
  - vm_compute. discriminate.
  - vm_compute. discriminate.
  - right. reflexivity.
Defined.

Lemma emitted_groups_have_legs_and_title_witness :
  Forall (fun g => ImportData.transactions g <> []
                   /\ ImportData.title g = Config.empty_description (config Sample.plain))
         Sample.paired_groups.
Proof.
  apply (@emitted_groups_have_legs_and_title Sample.plain [] []
           [[Sample.row_A]; [Sample.row_B]] initial_row_state Sample.paired_state).
  vm_compute. reflexivity.
Defined.

(** ** Rows of transfers *)

(** X15.  The direction of a transfer row of the plain shape can always be
    corrected: when the payee carries the marker of a transfer and not the
    composite form, the counter-account is found and the correction returns a
    row; when one of outflow and inflow of the row is positive, the corrected
    row has a positive outflow. *)
Theorem correction_of_plain_transfer_succeeds (tx : YNABTransaction) :
  _is_transfer tx = true ->
  PyStr.contains " / Transfer : " (payee tx) = false ->
  exists tx' name,
    _transfer_account tx = Ok name
    /\ _correct_transfer_to_from tx = Ok tx'
    /\ ((0 < outflow tx)%Q \/ (0 < inflow tx)%Q -> (0 < outflow tx')%Q).
Proof.
  intros Ht Hc. destruct (transfer_account_plain tx Ht Hc) as [name Hn].
  unfold _correct_transfer_to_from. rewrite Ht, Hn. cbn [bind].
  destruct (Dec.ltb 0 (outflow tx)) eqn:E; eexists _, name;
    (split; [reflexivity|]); (split; [reflexivity|]);
    cbn [outflow replace_payee replace_transfer]; intro Hpos.
  - apply ltb_lt. exact E.
  - apply ltb_nlt in E. destruct Hpos as [H|H]; [contradiction|exact H].
Qed.

Lemma correction_of_plain_transfer_succeeds_witness :
  exists tx' name,
    _transfer_account Sample.row_B = Ok name
    /\ _correct_transfer_to_from Sample.row_B = Ok tx'
    /\ ((0 < outflow Sample.row_B)%Q \/ (0 < inflow Sample.row_B)%Q -> (0 < outflow tx')%Q).
Proof.
  apply (@correction_of_plain_transfer_succeeds Sample.row_B); reflexivity.
Defined.

Section MirrorRows.

Variable self : Importer.
Variable budgets : StrDict ImportData.Budget.
Variable categories : list string.

(** X16.  The two rows the register holds for one transfer, one after the other
    in either order, give one leg: the first is kept, the second is passed
    over, and the leg goes from the account of the row with the outflow to the
    account of the row with the inflow whichever of the two came first. *)
Theorem mirror_rows_give_one_leg (r1 r2 : YNABTransaction) (k1 : TransferKey) :
  _is_transfer r1 = true -> _is_transfer r2 = true ->
  _transfer_account r1 = Ok (account r2) ->
  _transfer_account r2 = Ok (account r1) ->
  date r1 = date r2 ->
  (0 < outflow r1)%Q -> ~ (0 < outflow r2)%Q ->
  (outflow r1 - inflow r1 == inflow r2 - outflow r2)%Q ->
  forall rows st st' outs,
    rows = [r1; r2] \/ rows = [r2; r1] ->
    pairing_key r1 = Some k1 ->
    pending (transfers_seen_map st) k1 = false ->
    process_rows self budgets categories st rows = Ok (st', outs) ->
    exists meta foreign_amount,
      outs = [Some (ImportData.Transfer meta (account r1) (account r2) foreign_amount); None].
Proof.
  intros T1 T2 A1 A2 Hd P1 P2 Hq rows st st' outs Hrows Hk1 Hpend Hrun.
  destruct (mirror_rows_share_key r1 r2 T1 T2 A1 A2 Hd P1 P2 Hq)
    as (k1' & k2 & Hk1' & Hk2 & Heq).
  rewrite Hk1 in Hk1'. injection Hk1' as <-.
  assert (Hpend2 : pending (transfers_seen_map st) k2 = false)
    by (rewrite <- (pending_compat (transfers_seen_map st) _ _ Heq); exact Hpend).
  assert (Hc1 : _correct_transfer_to_from r1 = Ok (replace_payee r1 (account r2))).
  { unfold _correct_transfer_to_from. rewrite T1, A1. cbn [bind].
    apply ltb_lt in P1. rewrite P1. reflexivity. }
  assert (Hc2 : _correct_transfer_to_from r2
                = Ok (replace_transfer r2 (account r1) (account r2) balance_sentinel
                                       (inflow r2) (outflow r2))).
  { unfold _correct_transfer_to_from. rewrite T2, A2. cbn [bind].
    apply ltb_nlt in P2. rewrite P2. reflexivity. }
  destruct (process_rows_alternate self budgets categories rows _ Hrun)
    as (Hlen & _ & Hout).
  assert (S12 : sighting k2 r1 = true) by (unfold sighting; rewrite Hk1; exact Heq).
  assert (S21 : sighting k1 r2 = true)
    by (unfold sighting; rewrite Hk2, key_eqb_sym; exact Heq).
  destruct Hrows as [-> | ->].
  - destruct (Hout 0%nat r1 k1 eq_refl Hk1) as (o1 & Ho1 & Hcase1).
    destruct (Hout 1%nat r2 k2 eq_refl Hk2) as (o2 & Ho2 & Hcase2).
    cbn [firstn] in Hcase1, Hcase2. unfold sightings in Hcase1, Hcase2.
    cbn [filter] in Hcase1, Hcase2. rewrite S12 in Hcase2.
    rewrite Hpend in Hcase1. rewrite Hpend2 in Hcase2. cbn in Hcase1, Hcase2.
    destruct Hcase1 as (tx' & Hc & meta & fa & ->). rewrite Hc1 in Hc. injection Hc as <-.
    subst o2. destruct outs as [|a [|b [|c outs]]]; try discriminate Hlen.
    cbn in Ho1, Ho2. injection Ho1 as ->. injection Ho2 as ->.
    exists meta, fa. reflexivity.
  - destruct (Hout 0%nat r2 k2 eq_refl Hk2) as (o1 & Ho1 & Hcase1).
    destruct (Hout 1%nat r1 k1 eq_refl Hk1) as (o2 & Ho2 & Hcase2).
    cbn [firstn] in Hcase1, Hcase2. unfold sightings in Hcase1, Hcase2.
    cbn [filter] in Hcase1, Hcase2. rewrite S21 in Hcase2.
    rewrite Hpend2 in Hcase1. rewrite Hpend in Hcase2. cbn in Hcase1, Hcase2.
    destruct Hcase1 as (tx' & Hc & meta & fa & ->). rewrite Hc2 in Hc. injection Hc as <-.
    subst o2. destruct outs as [|a [|b [|c outs]]]; try discriminate Hlen.
    cbn in Ho1, Ho2. injection Ho1 as ->. injection Ho2 as ->.
    exists meta, fa. reflexivity.
Qed.

(** X17.  Only a transfer row is ever passed over.  A row that is no transfer
    and is processed gives a leg: a Withdrawal exactly when its outflow is
    positive, a Deposit exactly when its outflow is not positive and its inflow
    is; and a Transfer leg comes from a transfer row alone. *)
Theorem leg_kind_follows_row (st : RowState) (tx : YNABTransaction) (st1 : RowState)
        (out : option ImportData.Leg) :
  process_row self budgets categories st tx = Ok (st1, out) ->
  match out with
  | None => _is_transfer tx = true
  | Some (ImportData.Transfer _ _ _ _) => _is_transfer tx = true
  | Some (ImportData.Withdrawal _ _ _ _ _) =>
      _is_transfer tx = false /\ (0 < outflow tx)%Q
  | Some (ImportData.Deposit _ _ _ _ _) =>
      _is_transfer tx = false /\ ~ (0 < outflow tx)%Q /\ (0 < inflow tx)%Q
  end.
Proof.
  intro H. apply process_row_cases in H.
  destruct H as (budget & _ & _ & [(Ht & tx' & _ & [->|Ho]) | (Ht & _ & Hrest)]).
  - exact Ht.
  - destruct Ho as (a & d & fa & _ & ->). exact Ht.
  - destruct Hrest as (a & d & c & _ & _ & [(E & ->)|(E & E' & ->)]).
    + split; [exact Ht|apply ltb_lt; exact E].
    + split; [exact Ht|]. split; [apply ltb_nlt; exact E|apply ltb_lt; exact E'].
Qed.

End MirrorRows.

Lemma mirror_rows_give_one_leg_witness :
  exists meta foreign_amount,
    [Some (ImportData.Transfer
             (ImportData.mkMeta Sample.jan15 50 "(empty description)" "" ["import-2020"]
                                false 550)
             "A" "B" None); None]
    = [Some (ImportData.Transfer meta (account Sample.row_A) (account Sample.row_B)
                                 foreign_amount); None].
Proof.
  refine (@mirror_rows_give_one_leg Sample.plain [] [] Sample.row_A Sample.row_B
            ("A", "B", Sample.jan15, 50%Q)
            eq_refl eq_refl eq_refl eq_refl eq_refl eq_refl _ _
            [Sample.row_B; Sample.row_A] initial_row_state Sample.paired_state _
            (or_intror eq_refl) _ eq_refl _).
  - intro H. vm_compute in H. discriminate H.
  - vm_compute. reflexivity.
  - vm_compute. reflexivity.
  - vm_compute. reflexivity.
Defined.

Lemma leg_kind_follows_row_witness :
  _is_transfer Sample.early_row = false /\ (0 < outflow Sample.early_row)%Q.
Proof.
  apply (@leg_kind_follows_row Sample.plain [] [] initial_row_state Sample.early_row
           {| transfers_seen_map := []; category_var := Some "" |}
           (Some (ImportData.Withdrawal
                    (ImportData.mkMeta (mkArrow 2020 1 5) 10 "(empty description)" ""
                                       ["import-2020"] false 100)
                    "A" "Shop" "" ""))).
  reflexivity.
Defined.

(** ** Comparing desired values with remote attributes *)

Lemma needs_update_loop_ext (items : list (string * PyVal)) (a1 a2 : StrDict Json) :
  (forall k v, In (k, v) items ->
     PyDict.get_default String.eqb a1 k JNull = PyDict.get_default String.eqb a2 k JNull) ->
  needs_update_loop items (JObj a1) = needs_update_loop items (JObj a2).
Proof.
  induction items as [|[k v] items IH]; intro H; [reflexivity|].
  cbn [needs_update_loop PyJson.get bind].
  rewrite (H k v (or_introl eq_refl)).
  destruct (_firefly_compare v _) as [[|]|]; cbn [bind negb]; try reflexivity.
  apply IH. intros k' v' Hin. apply (H k' v'). right. exact Hin.
Qed.

(** X18.  Whether an entity needs an update depends on the remote attributes the
    desired data names, and on nothing else of the remote object: two remote
    objects that agree on those attributes get the same answer, whatever
    other attributes and fields they carry. *)
Theorem needs_update_reads_desired_fields_only
        (obj : list (string * PyVal)) (firefly_obj1 firefly_obj2 : Json)
        (a1 a2 : StrDict Json) :
  PyJson.item firefly_obj1 "attributes" = Ok (JObj a1) ->
  PyJson.item firefly_obj2 "attributes" = Ok (JObj a2) ->
  (forall k v, In (k, v) obj ->
     PyDict.get_default String.eqb a1 k JNull = PyDict.get_default String.eqb a2 k JNull) ->
  _firefly_needs_update obj firefly_obj1 = _firefly_needs_update obj firefly_obj2.
Proof.
  intros H1 H2 H. unfold _firefly_needs_update. destruct obj as [|kv obj]; [reflexivity|].
  rewrite H1, H2. cbn [bind]. apply needs_update_loop_ext. exact H.
Qed.

Lemma needs_update_reads_desired_fields_only_witness :
  _firefly_needs_update (budget_data (ImportData.mkBudget "Food" true))
                        (Sample.budget_json "3" "Food" true)
  = _firefly_needs_update (budget_data (ImportData.mkBudget "Food" true))
      (JObj [("id", JStr "4"); ("type", JStr "budgets");
             ("attributes", JObj [("order", JNum 7); ("active", JBool true);
                                  ("name", JStr "Food")])]).
Proof.
  apply (@needs_update_reads_desired_fields_only
           (budget_data (ImportData.mkBudget "Food" true)) _ _
           [("name", JStr "Food"); ("active", JBool true)]
           [("order", JNum 7); ("active", JBool true); ("name", JStr "Food")]);
    try reflexivity.
  intros k v [H|[H|[]]]; injection H as <- <-; reflexivity.
Defined.

Lemma compare_with_sent (v : PyVal) :
  v <> PNone -> _firefly_compare v (to_json v) = Ok true.
Proof.
  destruct v; intro H;
    cbv beta iota delta [_firefly_compare to_json is_null py_eq decimal_of_json eq_zero bind].
  - contradiction.
  - rewrite Bool.eqb_reflx. reflexivity.
  - unfold Dec.eqb. rewrite Qeq_bool_refl. reflexivity.
  - unfold Dec.eqb. rewrite Qeq_bool_refl. reflexivity.
  - rewrite String.eqb_refl. reflexivity.
  - rewrite String.eqb_refl. reflexivity.
Qed.

Lemma get_body_of (data : list (string * PyVal)) (k : string) (v : PyVal) :
  NoDup (map fst data) -> In (k, v) data ->
  PyDict.get String.eqb (map (fun kv => (fst kv, to_json (snd kv))) data) k
  = Some (to_json v).
Proof.
  induction data as [|[k0 v0] data IH]; intros Hnd Hin; [destruct Hin|].
  cbn [map fst snd PyDict.get]. inversion Hnd as [|x l Hx Hl]; subst.
  destruct Hin as [Heq|Hin].
  - injection Heq as -> ->. rewrite String.eqb_refl. reflexivity.
  - destruct (String.eqb_spec k0 k) as [->|Hne].
    + exfalso. apply Hx. change k with (fst (k, v)). apply in_map. exact Hin.
    + exact (IH Hl Hin).
Qed.

(** X19.  What was sent needs no update: against a remote object whose
    attributes are the values of the desired data as they are sent (numbers
    read back exactly), with distinct field names and no field that is None,
    no field differs. *)
Theorem sent_values_need_no_update (data : list (string * PyVal)) (firefly_obj : Json) :
  NoDup (map fst data) ->
  (forall k, ~ In (k, PNone) data) ->
  PyJson.item firefly_obj "attributes" = Ok (body_of data) ->
  _firefly_needs_update data firefly_obj = Ok false.
Proof.
  intros Hnd Hnone Ha. unfold _firefly_needs_update.
  destruct data as [|kv0 data0] eqn:Ed; [reflexivity|]. rewrite <- Ed in *. rewrite Ha.
  cbn [bind]. unfold body_of.
  assert (H : forall items,
             (forall k v, In (k, v) items -> In (k, v) data) ->
             needs_update_loop items
               (JObj (map (fun kv => (fst kv, to_json (snd kv))) data)) = Ok false).
  { induction items as [|[k v] items IH]; intro Hsub; [reflexivity|].
    cbn [needs_update_loop PyJson.get bind]. unfold PyDict.get_default.
    rewrite (@get_body_of data k v Hnd (Hsub k v (or_introl eq_refl))).
    rewrite compare_with_sent.
    - cbn [bind negb]. apply IH. intros k' v' Hin. apply Hsub. right. exact Hin.
    - intros ->. exact (Hnone k (Hsub k PNone (or_introl eq_refl))). }
  apply H. intros k v Hin. exact Hin.
Qed.

Lemma sent_values_need_no_update_witness :
  _firefly_needs_update (budget_data (ImportData.mkBudget "Food" false))
                        (Sample.budget_json "3" "Food" false) = Ok false.
Proof.
  apply (@sent_values_need_no_update (budget_data (ImportData.mkBudget "Food" false))
           (Sample.budget_json "3" "Food" false)).
  - repeat constructor; cbn; intuition discriminate.
  - intros k [H|[H|[]]]; discriminate H.
  - reflexivity.
Defined.

(** ** Classifying the errors of a rejected submission *)

Lemma z_eqb_trans (a b c : Z) : (a =? b) = true -> (b =? c) = true -> (a =? c) = true.
Proof. rewrite !Z.eqb_eq. congruence. Qed.

Lemma mem_set {V} (d : PyDict.t Z V) (k k2 : Z) (v : V) :
  PyDict.mem Z.eqb (PyDict.set Z.eqb d k v) k2 = (k =? k2) || PyDict.mem Z.eqb d k2.
Proof.
  unfold PyDict.mem. rewrite (get_set Z.eqb Z.eqb_sym z_eqb_trans).
  destruct (k =? k2); reflexivity.
Qed.

Lemma smem_sset {V} (d : StrDict V) (k k2 : string) (v : V) :
  smem (sset d k v) k2 = String.eqb k k2 || smem d k2.
Proof.
  unfold smem, sset, PyDict.mem. rewrite (get_set String.eqb String.eqb_sym string_eqb_trans).
  destruct (String.eqb k k2); reflexivity.
Qed.

Lemma classify_errors_disjoint (items : list (string * Json)) :
  forall dup ot o dup' ot' o',
    classify_errors items dup ot o = Ok (dup', ot', o') ->
    (forall i, PyDict.mem Z.eqb dup i = true -> PyDict.mem Z.eqb ot i = false) ->
    smem o "transactions" = false ->
    (forall i, PyDict.mem Z.eqb dup' i = true -> PyDict.mem Z.eqb ot' i = false)
    /\ smem o' "transactions" = false.
Proof.
  induction items as [|[field errs] items IH]; intros dup ot o dup' ot' o' H Hd Ho.
  - cbn in H. injection H as <- <- <-. split; assumption.
  - cbn [classify_errors] in H.
    destruct (index (PyStr.split field ".") 0) as [f|]; [|discriminate].
    cbn [bind] in H. destruct (String.eqb f "transactions") eqn:Ef; cbn [negb] in H.
    + destruct (index (PyStr.split field ".") 1) as [idx|]; [|discriminate].
      cbn [bind] in H.
      destruct (PyJson.int_of_string idx) as [tx_idx|]; [|discriminate]. cbn [bind] in H.
      destruct (index (PyStr.split field ".") 2) as [child|]; [|discriminate].
      cbn [bind] in H.
      destruct (duplicate_of errs) as [[dup_id|]|]; [| |discriminate]; cbn [bind] in H.
      * destruct (PyDict.mem Z.eqb ot tx_idx) eqn:Em; [discriminate|]. cbn [negb] in H.
        apply (IH _ _ _ _ _ _ H); [|exact Ho].
        intros i. rewrite mem_set. destruct (Z.eqb_spec tx_idx i) as [<-|Hne].
        -- intros _. exact Em.
        -- cbn [orb]. apply Hd.
      * destruct (PyDict.mem Z.eqb dup tx_idx) eqn:Em; [discriminate|]. cbn [negb] in H.
        apply (IH _ _ _ _ _ _ H); [|exact Ho].
        intros i Hi. rewrite mem_set. destruct (Z.eqb_spec tx_idx i) as [<-|Hne].
        -- congruence.
        -- cbn [orb]. apply Hd. exact Hi.
    + apply (IH _ _ _ _ _ _ H); [exact Hd|].
      rewrite smem_sset, Ef, Ho. reflexivity.
Qed.

(** X20.  When the classification of the errors of a response completes, no leg
    is both a duplicate and in error: an index of the duplicates is not among
    the per-leg errors; and the part [transactions] is never a key of the
    other errors. *)
Theorem classified_errors_are_disjoint (response : Json)
        (dup_errors : DupErrors) (other_tx_errors : TxErrors) (other_errors : StrDict Json) :
  _firefly_create_transaction_errors response
  = Ok (dup_errors, other_tx_errors, other_errors) ->
  (forall tx_idx, PyDict.mem Z.eqb dup_errors tx_idx = true ->
                  PyDict.mem Z.eqb other_tx_errors tx_idx = false)
  /\ smem other_errors "transactions" = false.
Proof.
  unfold _firefly_create_transaction_errors.
  destruct (PyJson.item response "errors") as [[| | | | |items]|]; try discriminate.
  cbn [bind]. intro H. apply (classify_errors_disjoint _ _ _ _ H).
  - intros i Hi. discriminate Hi.
  - reflexivity.
Qed.

Lemma classified_errors_are_disjoint_witness :
  (forall tx_idx, PyDict.mem Z.eqb [(0, 7995)] tx_idx = true ->
                  PyDict.mem Z.eqb ([] : TxErrors) tx_idx = false)
  /\ smem ([] : StrDict Json) "transactions" = false.
Proof.
  apply (@classified_errors_are_disjoint Sample.duplicate_payload). reflexivity.
Defined.

(** ** A run of the submission that completes *)

Lemma keeps_data_ret {A} (a : A) : keeps_data (ret a).
Proof. intro w. reflexivity. Qed.

Lemma keeps_data_raise {A} (e : exn) : keeps_data (raise (A := A) e).
Proof. intro w. reflexivity. Qed.

Lemma keeps_data_lift {A} (r : result A) : keeps_data (lift r).
Proof. intro w. reflexivity. Qed.

Lemma keeps_data_print (l : Line) : keeps_data (print_line l).
Proof. intro w. reflexivity. Qed.

Lemma keeps_data_bind {A B} (m : IO A) (k : A -> IO B) :
  keeps_data m -> (forall a, keeps_data (k a)) -> keeps_data (iobind m k).
Proof.
  intros Hm Hk w. unfold iobind. specialize (Hm w).
  destruct (m w) as [[a|e] w']; cbn in *.
  - rewrite Hk. exact Hm.
  - exact Hm.
Qed.

Lemma keeps_data_for_each {A} (l : list A) (body : A -> IO unit) :
  (forall a, keeps_data (body a)) -> keeps_data (for_each l body).
Proof.
  intro Hb. induction l as [|a l IH]; cbn [for_each].
  - apply keeps_data_ret.
  - apply keeps_data_bind; [apply Hb|intros _; exact IH].
Qed.

Lemma submit_keeps_data (remote : Remote) (data : Json) : keeps_data (submit remote data).
Proof.
  intro w. unfold submit, request. cbv zeta.
  set (response := remote (sent w) (post_transactions data)).
  set (w' := {| sent := post_transactions data :: sent w;
                firefly_data := firefly_data w; cache_file := cache_file w;
                output := output w |}).
  change (firefly_data w) with (firefly_data w').
  destruct ((400 <=? status_code response) && (status_code response <? 600)).
  - destruct (status_code response =? 422).
    + apply keeps_data_bind; [apply keeps_data_lift|].
      intros [[dup_errors other_tx_errors] other_errors].
      destruct (PyDict.truthy other_tx_errors || PyDict.truthy other_errors).
      * apply keeps_data_bind; [apply keeps_data_print|intros _; apply keeps_data_raise].
      * apply keeps_data_for_each. intros [tx_idx dup_id]. apply keeps_data_print.
    + apply keeps_data_bind; [apply keeps_data_print|intros _; apply keeps_data_raise].
  - apply keeps_data_bind; [apply keeps_data_lift|]. intro created.
    apply keeps_data_bind; [apply keeps_data_lift|]. intro id. apply keeps_data_print.
Qed.

Section CompletedRun.

Variable self : Importer.
Variable remote : Remote.
Variable asset_accounts : list ImportData.Account.
Variable running_balances : PyDict.t Arrow (StrDict Decimal).
Variable transaction_groups : list ImportData.TransactionGroup.

Lemma completed_loop m0 groups :
  first_group_month transaction_groups = Ok m0 ->
  forall s s',
    current_month s = Some m0 ->
    for_each groups
             (submit_group self remote asset_accounts running_balances transaction_groups) s
    = (Ok tt, s') ->
    exists datas,
      Forall2 (fun g d => group_data (firefly_data (world s)) g = Ok d)
              (filter (passes_filters self) groups) datas
      /\ sent (world s') = (rev (map post_transactions datas) ++ sent (world s))%list
      /\ imported s' = imported s + Z.of_nat (List.length datas)
      /\ ignored s' = ignored s + Z.of_nat (List.length groups)
                      - Z.of_nat (List.length datas)
      /\ firefly_data (world s') = firefly_data (world s).
Proof.
  intro Hm. induction groups as [|g groups IH]; intros s s' Hc H.
  - cbn in H. injection H as <-. exists []. cbn [filter map rev app List.length].
    repeat split; try constructor; try lia.
  - cbn [for_each] in H. unfold iobind in H.
    rewrite (submit_group_cases self remote asset_accounts running_balances
                                transaction_groups g s Hm Hc) in H.
    cbn [filter]. unfold passes_filters at 1.
    destruct (filtered_out self g) as [[|]|e]; [| |discriminate H].
    + apply IH in H; [|exact Hc]. destruct H as (datas & Hf & Hs & Hi & Hg & Hd).
      cbn [world imported ignored] in *. exists datas.
      split; [exact Hf|]. split; [exact Hs|]. split; [exact Hi|].
      split; [cbn [List.length]; lia|exact Hd].
    + destruct (group_data (firefly_data (world s)) g) as [data|e] eqn:Hgd;
        [|discriminate H].
      pose proof (submit_sent remote data (world s)) as Hsent.
      pose proof (submit_keeps_data remote data (world s)) as Hkeep.
      destruct (submit remote data (world s)) as [[[]|e] w']; [|discriminate H].
      cbn [snd] in Hsent, Hkeep.
      destruct (200 <? imported s + 1) eqn:Hlim; [discriminate H|].
      apply Z.ltb_ge in Hlim.
      apply IH in H; [|exact Hc]. destruct H as (datas & Hf & Hs & Hi & Hg & Hd).
      cbn [world imported ignored] in *. exists (data :: datas).
      split; [constructor; [exact Hgd|rewrite <- Hkeep; exact Hf]|].
      split; [rewrite Hs, Hsent; cbn [map rev]; rewrite <- app_assoc; reflexivity|].
      cbn [List.length]. split; [lia|]. split; [lia|congruence].
Qed.

(** X21.  A run of the submission that ends without an exception has submitted
    every group the date filters let through, once each and in the order of
    the list, with the payload built from what is known of the server at the
    start; it has counted these as imported and the others as ignored, and it
    has left what is known of the server unchanged. *)
Theorem completed_run_submits_each_group_once (w : World) :
  let run := _create_transactions self remote asset_accounts running_balances
                                  transaction_groups (initial_tx_state w) in
  fst run = Ok tt ->
  exists datas,
    Forall2 (fun g d => group_data (firefly_data w) g = Ok d)
            (filter (passes_filters self) transaction_groups) datas
    /\ sent (world (snd run)) = (rev (map post_transactions datas) ++ sent w)%list
    /\ imported (snd run) = Z.of_nat (List.length datas)
    /\ ignored (snd run)
       = Z.of_nat (List.length transaction_groups) - Z.of_nat (List.length datas)
    /\ firefly_data (world (snd run)) = firefly_data w.
Proof.
  cbv zeta. unfold _create_transactions, iobind, lift.
  destruct (first_group_month transaction_groups) as [m0|e] eqn:Hm; [|discriminate].
  cbn [set_current_month initial_tx_state world imported ignored].
  match goal with |- context [for_each _ _ ?s0] => set (s := s0) end.
  destruct (for_each transaction_groups
              (submit_group self remote asset_accounts running_balances
                            transaction_groups) s) as [r s'] eqn:Hrun.
  cbn [fst snd]. intros ->.
  apply completed_loop with (m0 := m0) in Hrun; [|exact Hm|reflexivity].
  destruct Hrun as (datas & Hf & Hs & Hi & Hg & Hd).
  subst s. cbn [world imported ignored] in *.
  exists datas. repeat split; try assumption; lia.
Qed.

End CompletedRun.

Lemma completed_run_submits_each_group_once_witness :
  let run := _create_transactions Sample.plain Sample.accepting_server []
                                  Sample.january_balances Sample.two_months
                                  (initial_tx_state Sample.synced_world) in
  exists datas,
    Forall2 (fun g d => group_data (firefly_data Sample.synced_world) g = Ok d)
            (filter (passes_filters Sample.plain) Sample.two_months) datas
    /\ sent (world (snd run))
       = (rev (map post_transactions datas) ++ sent Sample.synced_world)%list
    /\ imported (snd run) = Z.of_nat (List.length datas)
    /\ ignored (snd run)
       = Z.of_nat (List.length Sample.two_months) - Z.of_nat (List.length datas)
    /\ firefly_data (world (snd run)) = firefly_data Sample.synced_world.
Proof.
  exact (@completed_run_submits_each_group_once
           Sample.plain Sample.accepting_server [] Sample.january_balances
           Sample.two_months Sample.synced_world eq_refl).
Defined.


(** ** Creating the categories *)

Lemma sget_sset {V} (d : StrDict V) (k k2 : string) (v : V) :
  sget (sset d k v) k2 = if String.eqb k k2 then Some v else sget d k2.
Proof. unfold sget, sset. apply (get_set String.eqb String.eqb_sym string_eqb_trans). Qed.

Lemma smem_keys {V} (d : StrDict V) (c : string) : smem d c = str_in c (map fst d).
Proof.
  unfold smem, PyDict.mem, str_in. induction d as [|[k v] d IH]; [reflexivity|].
  cbn [PyDict.get map fst existsb]. rewrite (String.eqb_sym c k).
  destruct (String.eqb k c); [reflexivity|exact IH].
Qed.

Section Categories.

Variable remote : Remote.

(** A turn of the loop over the desired categories that completes. *)
Lemma sync_category_completed (c : string) (w w2 : World) :
  sync_category remote c w = (Ok tt, w2) ->
  (smem (fd_categories (firefly_data w)) c = true /\ w2 = w)
  \/ (smem (fd_categories (firefly_data w)) c = false
      /\ sent w2 = post_category c :: sent w
      /\ cache_file w2 = cache_file w
      /\ exists id, fd_categories (firefly_data w2)
                    = sset (fd_categories (firefly_data w)) c id).
Proof.
  unfold sync_category, iobind, get_data, request, lift, put_data, ret.
  destruct (smem (fd_categories (firefly_data w)) c).
  - intro H. injection H as <-. left. split; reflexivity.
  - destruct ((400 <=? status_code (remote (sent w) (post_category c)))
              && (status_code (remote (sent w) (post_category c)) <? 600));
      [discriminate|].
    destruct (PyJson.item (content (remote (sent w) (post_category c))) "data")
      as [created|]; [|discriminate].
    destruct (PyJson.item created "id") as [id|]; [|discriminate].
    destruct (PyJson.int id) as [z|]; [|discriminate].
    cbn [firefly_data sent cache_file output]. intro H. injection H as <-.
    right. cbn [firefly_data sent cache_file fd_categories set_categories].
    split; [reflexivity|]. split; [reflexivity|]. split; [reflexivity|].
    exists z. reflexivity.
Qed.

Lemma sync_categories_loop (l : list string) :
  forall w w' known,
    (forall c, smem (fd_categories (firefly_data w)) c = str_in c known) ->
    for_each l (sync_category remote) w = (Ok tt, w') ->
    sent w' = (rev (map post_category (to_create known l)) ++ sent w)%list
    /\ cache_file w' = cache_file w
    /\ (forall c, smem (fd_categories (firefly_data w)) c = true ->
                  smem (fd_categories (firefly_data w')) c = true)
    /\ (forall c, In c l -> smem (fd_categories (firefly_data w')) c = true).
Proof.
  induction l as [|c l IH]; intros w w' known HR H.
  - cbn in H. injection H as <-. cbn [to_create map rev app].
    split; [reflexivity|]. split; [reflexivity|]. split; [auto|]. intros c [].
  - cbn [for_each] in H. unfold iobind in H.
    destruct (sync_category remote c w) as [[[]|e] w2] eqn:Hc; [|discriminate].
    apply sync_category_completed in Hc. cbn [to_create].
    destruct Hc as [(Hin & ->)|(Hnot & Hsent & Hcache & id & Hfd)].
    + rewrite <- (HR c), Hin.
      destruct (IH _ _ _ HR H) as (Hs & Hcf & Hmono & Hall).
      split; [exact Hs|]. split; [exact Hcf|]. split; [exact Hmono|].
      intros x [<-|Hx]; [exact (Hmono _ Hin)|exact (Hall x Hx)].
    + rewrite <- (HR c), Hnot.
      assert (HR2 : forall x, smem (fd_categories (firefly_data w2)) x
                              = str_in x (c :: known)).
      { intro x. rewrite Hfd, smem_sset. unfold str_in. cbn [existsb].
        rewrite (String.eqb_sym x c). fold (str_in x known). rewrite HR. reflexivity. }
      destruct (IH _ _ _ HR2 H) as (Hs & Hcf & Hmono & Hall).
      assert (Hstep : forall x, smem (fd_categories (firefly_data w)) x = true ->
                                smem (fd_categories (firefly_data w2)) x = true).
      { intros x Hx. rewrite Hfd, smem_sset, Hx. apply orb_true_r. }
      split; [rewrite Hs, Hsent; cbn [map rev]; rewrite <- app_assoc; reflexivity|].
      split; [congruence|]. split; [intros x Hx; exact (Hmono _ (Hstep _ Hx))|].
      intros x [<-|Hx]; [|exact (Hall x Hx)].
      apply Hmono. rewrite Hfd, smem_sset, String.eqb_refl. reflexivity.
Qed.

(** X22.  A run of the creation of categories that starts with no category known
    and completes has sent the listing and then one creation for each desired
    category that the listing does not hold, once each, in the order of their
    first appearance in the desired list, and nothing else; afterwards every
    desired category is known, and what is known has been written to the
    cache. *)
Theorem categories_are_created_once (categories : list string) (w w' : World) :
  fd_categories (firefly_data w) = [] ->
  _create_categories remote categories w = (Ok tt, w') ->
  exists data listed,
    PyJson.item (content (remote (sent w) category_listing)) "data" = Ok (JArr data)
    /\ index_categories data [] = Ok listed
    /\ sent w' = (rev (map post_category (to_create (map fst listed) categories))
                  ++ category_listing :: sent w)%list
    /\ (forall c, In c categories -> smem (fd_categories (firefly_data w')) c = true)
    /\ cache_file w' = Some (firefly_data w').
Proof.
  intros Hempty. unfold _create_categories, get_all_pages.
  unfold iobind at 1. unfold get_data at 1. rewrite Hempty. cbn [PyDict.truthy].
  unfold iobind at 1. unfold iobind at 1. unfold iobind at 1. unfold request.
  fold category_listing.
  destruct ((400 <=? status_code (remote (sent w) category_listing))
            && (status_code (remote (sent w) category_listing) <? 600)); [discriminate|].
  unfold lift at 1.
  destruct (PyJson.item (content (remote (sent w) category_listing)) "data")
    as [[| | | |data|]|] eqn:Hdata; try discriminate.
  cbn [PyJson.list_of]. unfold lift at 1. unfold iobind at 1. unfold lift at 1.
  destruct (index_categories data []) as [listed|] eqn:Hl; [|discriminate].
  unfold iobind at 1. unfold put_data at 1. cbn [sent firefly_data cache_file output].
  unfold iobind at 1.
  match goal with |- context [for_each _ _ ?w0] => set (w1 := w0) end.
  destruct (for_each categories (sync_category remote) w1) as [[[]|e] w2] eqn:Hloop;
    [|discriminate].
  unfold _update_cache. intro H. injection H as <-.
  apply sync_categories_loop with (known := map fst listed) in Hloop.
  - destruct Hloop as (Hs & _ & _ & Hall).
    exists data, listed. cbn [sent firefly_data cache_file].
    split; [reflexivity|]. split; [exact Hl|]. split; [exact Hs|].
    split; [exact Hall|reflexivity].
  - intro c. subst w1. cbn [firefly_data set_categories fd_categories]. apply smem_keys.
Qed.

End Categories.

Lemma categories_are_created_once_witness :
  exists data listed,
    PyJson.item (content (Fixture.creating_server (sent Sample.fresh_world) category_listing))
                "data" = Ok (JArr data)
    /\ index_categories data [] = Ok listed
    /\ [post_category "Rent"; category_listing]
       = (rev (map post_category (to_create (map fst listed) ["Food"; "Rent"; "Food"; "Rent"]))
          ++ category_listing :: sent Sample.fresh_world)%list
    /\ (forall c, In c ["Food"; "Rent"; "Food"; "Rent"] ->
                  smem (fd_categories Fixture.known_categories) c = true)
    /\ Some Fixture.known_categories = Some Fixture.known_categories.
Proof.
  exact (@categories_are_created_once Fixture.creating_server
           ["Food"; "Rent"; "Food"; "Rent"] Sample.fresh_world
           (mkWorld [post_category "Rent"; category_listing] Fixture.known_categories
                    (Some Fixture.known_categories) [])
           eq_refl eq_refl).
Defined.

(** ** Creating the payee accounts *)

Lemma payee_accounts_set (t : string) (fd : FireflyData) (v : StrDict Json) :
  payee_accounts t (set_payee_accounts t fd v) = v.
Proof. unfold payee_accounts, set_payee_accounts. destruct (String.eqb t "revenue"); reflexivity. Qed.

Section PayeeAccounts.

Variable remote : Remote.
Hypothesis string_ids : ids_are_strings remote.

(** A turn of the loop over the desired accounts that completes: an account
    that is known stays as it is known, an account that is not is recorded by
    the identifier of the response. *)
Lemma sync_payee_account_completed (t a : string) (w w2 : World) :
  sync_payee_account remote t a w = (Ok tt, w2) ->
  (sget (payee_accounts t (firefly_data w)) a <> None
   /\ firefly_data w2 = firefly_data w)
  \/ (sget (payee_accounts t (firefly_data w)) a = None
      /\ exists s, payee_accounts t (firefly_data w2)
                   = sset (payee_accounts t (firefly_data w)) a (JStr s)).
Proof.
  unfold sync_payee_account. cbv zeta. unfold iobind at 1. unfold get_data at 1.
  destruct (sget (payee_accounts t (firefly_data w)) a) as [known|] eqn:Hk.
  - intro H. left. split; [discriminate|].
    unfold iobind, lift, when, request, ret in H.
    destruct (_firefly_needs_update (payee_account_data a t) known) as [[|]|];
      [| |discriminate].
    + destruct (PyJson.item known "id") as [id|]; [|discriminate].
      match type of H with context [if ?c then _ else _] => destruct c end;
        [discriminate|]. injection H as <-. reflexivity.
    + injection H as <-. reflexivity.
  - intro H. right. split; [reflexivity|].
    unfold iobind, lift, request, get_data, put_data in H.
    destruct ((400 <=? status_code (remote (sent w) (post_payee_account a t)))
              && (status_code (remote (sent w) (post_payee_account a t)) <? 600));
      [discriminate|].
    destruct (PyJson.item (content (remote (sent w) (post_payee_account a t))) "data")
      as [created|] eqn:Hc; [|discriminate].
    destruct (PyJson.item created "id") as [id|] eqn:Hid; [|discriminate].
    destruct (string_ids _ _ Hc Hid) as [s ->].
    cbn [firefly_data] in H. injection H as <-. exists s.
    cbn [firefly_data]. apply payee_accounts_set.
Qed.

Lemma sync_payee_accounts_loop (t : string) (listed : StrDict Json) (l : list string) :
  forall w w',
    for_each l (sync_payee_account remote t) w = (Ok tt, w') ->
    (forall x v, sget listed x = None ->
                 sget (payee_accounts t (firefly_data w)) x = Some v -> exists s, v = JStr s) ->
    (forall x v, sget listed x = None ->
                 sget (payee_accounts t (firefly_data w')) x = Some v -> exists s, v = JStr s)
    /\ (forall x, sget (payee_accounts t (firefly_data w)) x <> None ->
                  sget (payee_accounts t (firefly_data w')) x <> None)
    /\ (forall x, In x l -> sget (payee_accounts t (firefly_data w')) x <> None).
Proof.
  induction l as [|a l IH]; intros w w' H HP.
  - cbn in H. injection H as <-. split; [exact HP|]. split; [auto|]. intros x [].
  - cbn [for_each] in H. unfold iobind in H.
    destruct (sync_payee_account remote t a w) as [[[]|e] w2] eqn:Ha; [|discriminate].
    apply sync_payee_account_completed in Ha.
    destruct Ha as [(Hk & Hfd)|(Hk & s & Hfd)].
    + rewrite <- Hfd in HP, Hk. destruct (IH _ _ H HP) as (HP' & Hmono & Hall).
      rewrite Hfd in Hmono. split; [exact HP'|]. split; [exact Hmono|].
      intros x [<-|Hx]; [|exact (Hall x Hx)]. apply Hmono. rewrite <- Hfd. exact Hk.
    + assert (HP2 : forall x v, sget listed x = None ->
                      sget (payee_accounts t (firefly_data w2)) x = Some v ->
                      exists s', v = JStr s').
      { intros x v Hx. rewrite Hfd, sget_sset. destruct (String.eqb a x).
        - intro E. injection E as <-. exists s. reflexivity.
        - apply HP. exact Hx. }
      destruct (IH _ _ H HP2) as (HP' & Hmono & Hall).
      split; [exact HP'|]. split.
      * intros x Hx. apply Hmono. rewrite Hfd, sget_sset.
        destruct (String.eqb a x); [discriminate|exact Hx].
      * intros x [<-|Hx]; [|exact (Hall x Hx)]. apply Hmono.
        rewrite Hfd, sget_sset, String.eqb_refl. discriminate.
Qed.

(** X23.  A payee account that the run creates is recorded by its bare
    identifier, not by an object as the accounts of the listing are.  After a
    run of the creation of payee accounts that starts with none known and
    completes, against a server whose identifiers are strings, a desired
    account that the listing did not hold is known as such a string; reading
    its identifier the way the submission does raises a TypeError, and so
    does building the payload of a deposit from that payee. *)
Theorem created_payee_account_is_a_bare_identifier
        (revenue_accounts expense_accounts : list string) (account_type : string)
        (w w' : World) (a : string) :
  payee_accounts account_type (firefly_data w) = [] ->
  _create_payee_accounts remote revenue_accounts expense_accounts account_type w
  = (Ok tt, w') ->
  In a (if String.eqb account_type "revenue" then revenue_accounts else expense_accounts) ->
  (forall data listed,
      PyJson.item (content (remote (sent w)
                      (mkRequest GET ("/api/v1/accounts?type=" ++ account_type) None "" JNull)))
                  "data" = Ok (JArr data) ->
      index_by "name" (fun d => Ok d) data [] = Ok listed ->
      sget listed a = None) ->
  (exists s, sget (payee_accounts account_type (firefly_data w')) a = Some (JStr s))
  /\ id_in (payee_accounts account_type (firefly_data w')) a = Raise TypeError
  /\ (account_type = "revenue" ->
      forall meta account budget category,
        tx_data (firefly_data w') (ImportData.Deposit meta account a budget category)
        = Raise TypeError).
Proof.
  intros Hempty Hrun Hin Hnew. unfold _create_payee_accounts in Hrun.
  destruct (negb (str_in account_type ["revenue"; "expense"])); [discriminate|].
  cbv zeta in Hrun. unfold get_all_pages in Hrun.
  unfold iobind at 1 in Hrun. unfold get_data at 1 in Hrun. rewrite Hempty in Hrun.
  cbn [PyDict.truthy] in Hrun.
  unfold iobind at 1 in Hrun. unfold iobind at 1 in Hrun. unfold iobind at 1 in Hrun.
  unfold request in Hrun.
  set (listing := mkRequest GET ("/api/v1/accounts?type=" ++ account_type) None "" JNull)
    in *.
  destruct ((400 <=? status_code (remote (sent w) listing))
            && (status_code (remote (sent w) listing) <? 600)); [discriminate|].
  unfold lift at 1 in Hrun.
  destruct (PyJson.item (content (remote (sent w) listing)) "data")
    as [[| | | |data|]|] eqn:Hdata; try discriminate.
  cbn [PyJson.list_of] in Hrun. unfold lift at 1 in Hrun. unfold iobind at 1 in Hrun.
  unfold lift at 1 in Hrun.
  destruct (index_by "name" (fun d => Ok d) data []) as [listed|] eqn:Hl; [|discriminate].
  unfold iobind at 1 in Hrun. unfold put_data at 1 in Hrun.
  cbn [sent firefly_data cache_file output] in Hrun. unfold iobind at 1 in Hrun.
  match type of Hrun with context [for_each _ _ ?w0] => set (w1 := w0) in * end.
  destruct (for_each _ (sync_payee_account remote account_type) w1)
    as [[[]|e] w2] eqn:Hloop; [|discriminate].
  unfold _update_cache in Hrun. injection Hrun as <-. cbn [firefly_data].
  apply (@sync_payee_accounts_loop account_type listed) in Hloop.
  - destruct Hloop as (HP & _ & Hall).
    specialize (Hall a Hin).
    destruct (sget (payee_accounts account_type (firefly_data w2)) a) as [v|] eqn:Hv;
      [|contradiction].
    destruct (HP a v (Hnew data listed eq_refl Hl) Hv) as [s ->].
    assert (Hid : id_in (payee_accounts account_type (firefly_data w2)) a = Raise TypeError).
    { unfold id_in, sitem, PyDict.item. fold (sget (payee_accounts account_type (firefly_data w2)) a).
      rewrite Hv. reflexivity. }
    split; [exists s; reflexivity|]. split; [exact Hid|].
    intros -> meta account budget category. unfold tx_data.
    change (fd_revenue_accounts (firefly_data w2))
      with (payee_accounts "revenue" (firefly_data w2)).
    rewrite Hid. reflexivity.
  - intros x v Hx. subst w1. cbn [firefly_data]. rewrite payee_accounts_set.
    rewrite Hx. discriminate.
Qed.

End PayeeAccounts.

Lemma creating_server_ids_are_strings : ids_are_strings Fixture.creating_server.
Proof.
  intros hist r created id. unfold Fixture.creating_server.
  destruct (method r); cbn; intros H1 H2; injection H1 as <-; try discriminate H2;
    injection H2 as <-; eexists; reflexivity.
Qed.

Lemma created_payee_account_is_a_bare_identifier_witness :
  exists s, sget [("Food", Sample.budget_json "3" "Food" true); ("Employer", JStr "77")]
                 "Employer" = Some (JStr s).
Proof.
  refine (proj1 (@created_payee_account_is_a_bare_identifier
                   Fixture.creating_server creating_server_ids_are_strings
                   ["Employer"] [] "revenue" Sample.fresh_world
                   (mkWorld [post_payee_account "Employer" "revenue";
                             mkRequest GET "/api/v1/accounts?type=revenue" None "" JNull]
                            Fixture.known_payees (Some Fixture.known_payees) [])
                   "Employer" eq_refl eq_refl (or_introl eq_refl) _)).
  intros data listed Hd Hl. vm_compute in Hd. injection Hd as <-.
  vm_compute in Hl. injection Hl as <-. reflexivity.
Defined.

(** ** Budgets and categories of the budget export *)

Lemma first_appearances_order {A} (eqb : A -> A -> bool) :
  (forall a b, eqb a b = true <-> a = b) -> is_set_order (first_appearances eqb).
Proof.
  intros Heq l. induction l as [|x l [Hnd Hin]]; cbn [first_appearances].
  - split; [constructor|]. intro x. reflexivity.
  - split.
    + constructor.
      * intro H. apply filter_In in H. destruct H as [_ H].
        apply negb_true_iff in H. assert (E : eqb x x = true) by (apply Heq; reflexivity).
        congruence.
      * apply NoDup_filter. exact Hnd.
    + intro y. cbn [In]. rewrite filter_In, Hin. split.
      * intros [H|[H _]]; auto.
      * intros [H|H]; [left; exact H|].
        destruct (eqb x y) eqn:E; [left; apply Heq; exact E|right; split; auto].
Qed.

Lemma pair_eqb_eq (a b : string * bool) : pair_eqb a b = true <-> a = b.
Proof.
  destruct a as [a1 a2], b as [b1 b2]. unfold pair_eqb. cbn [fst snd].
  rewrite andb_true_iff, String.eqb_eq, Bool.eqb_true_iff. split.
  - intros [-> ->]. reflexivity.
  - intro H. injection H as -> ->. split; reflexivity.
Qed.

Section Budgets2.

Variable self : Importer.
Variable iter_names : list string -> list string.
Variable iter_pairs : list (string * bool) -> list (string * bool).

Lemma budget_pairs_spec (all_budgets : list YNABBudget.t) :
  forall pairs,
    budget_pairs self all_budgets = Ok pairs ->
    forall b h,
      In (b, h) pairs <->
      exists bg, In bg all_budgets /\ YNABBudget.is_pre_ynab bg = false
                 /\ _budget_of_budget self bg = Ok b /\ b <> ""
                 /\ h = YNABBudget.is_hidden bg.
Proof.
  induction all_budgets as [|bg rest IH]; intros pairs H b h.
  - cbn in H. injection H as <-. split; [intros []|intros (bg & [] & _)].
  - cbn [budget_pairs] in H. destruct (YNABBudget.is_pre_ynab bg) eqn:Hp.
    + rewrite (IH _ H). split; intros (bg' & Hin & Hrest).
      * exists bg'. split; [right; exact Hin|exact Hrest].
      * destruct Hin as [<-|Hin]; [|exists bg'; split; assumption].
        destruct Hrest as (Hp' & _). congruence.
    + destruct (_budget_of_budget self bg) as [b0|] eqn:Hb; [|discriminate].
      cbn [bind] in H. destruct (PyStr.is_empty b0) eqn:He.
      * rewrite (IH _ H). split; intros (bg' & Hin & Hrest).
        -- exists bg'. split; [right; exact Hin|exact Hrest].
        -- destruct Hin as [<-|Hin]; [|exists bg'; split; assumption].
           destruct Hrest as (_ & Hb' & Hne & _). rewrite Hb in Hb'. injection Hb' as ->.
           exfalso. apply Hne. apply is_empty_eq. exact He.
      * destruct (budget_pairs self rest) as [pairs'|]; [|discriminate].
        cbn [bind] in H. injection H as <-. cbn [In]. rewrite (IH _ eq_refl). split.
        -- intros [Heq|(bg' & Hin & Hrest)].
           ++ injection Heq as <- <-. exists bg. split; [left; reflexivity|].
              split; [exact Hp|]. split; [exact Hb|]. split; [|reflexivity].
              intros ->. discriminate He.
           ++ exists bg'. split; [right; exact Hin|exact Hrest].
        -- intros (bg' & [<-|Hin] & Hrest).
           ++ left. destruct Hrest as (_ & Hb' & _ & ->). rewrite Hb in Hb'.
              injection Hb' as ->. reflexivity.
           ++ right. exists bg'. split; assumption.
Qed.

Let fold_budgets (pairs : list (string * bool)) (d : StrDict ImportData.Budget) :=
  fold_left (fun d '(budget, hidden) =>
               sset d budget (ImportData.mkBudget budget (negb hidden))) pairs d.

Lemma fold_budgets_keeps (pairs : list (string * bool)) :
  forall d b, sget d b <> None -> sget (fold_budgets pairs d) b <> None.
Proof.
  induction pairs as [|[b0 h0] pairs IH]; intros d b H; [exact H|].
  cbn [fold_budgets fold_left]. apply IH. rewrite sget_sset.
  destruct (String.eqb b0 b); [discriminate|exact H].
Qed.

Lemma fold_budgets_in (pairs : list (string * bool)) :
  forall d b h, In (b, h) pairs -> sget (fold_budgets pairs d) b <> None.
Proof.
  induction pairs as [|[b0 h0] pairs IH]; intros d b h Hin; [destruct Hin|].
  cbn [fold_budgets fold_left]. destruct Hin as [Heq|Hin].
  - injection Heq as -> ->. apply fold_budgets_keeps.
    rewrite sget_sset, String.eqb_refl. discriminate.
  - exact (IH _ b h Hin).
Qed.

Lemma fold_budgets_origin (pairs : list (string * bool)) :
  forall d b known,
    sget (fold_budgets pairs d) b = Some known ->
    sget d b = Some known
    \/ exists h, In (b, h) pairs /\ known = ImportData.mkBudget b (negb h).
Proof.
  induction pairs as [|[b0 h0] pairs IH]; intros d b known H; [left; exact H|].
  cbn [fold_budgets fold_left] in H. destruct (IH _ _ _ H) as [Hd|(h & Hin & ->)].
  - rewrite sget_sset in Hd. destruct (String.eqb_spec b0 b) as [->|Hne].
    + injection Hd as <-. right. exists h0. split; [left; reflexivity|reflexivity].
    + left. exact Hd.
  - right. exists h. split; [right; exact Hin|reflexivity].
Qed.

Lemma budget_pairs_total (all_budgets : list YNABBudget.t) :
  forall pairs bg,
    budget_pairs self all_budgets = Ok pairs ->
    In bg all_budgets -> YNABBudget.is_pre_ynab bg = false ->
    exists b, _budget_of_budget self bg = Ok b.
Proof.
  induction all_budgets as [|bg0 rest IH]; intros pairs bg H Hin Hpre; [destruct Hin|].
  cbn [budget_pairs] in H. destruct Hin as [->|Hin].
  - rewrite Hpre in H. destruct (_budget_of_budget self bg) as [b|]; [|discriminate].
    exists b. reflexivity.
  - destruct (YNABBudget.is_pre_ynab bg0); [exact (IH _ _ H Hin Hpre)|].
    destruct (_budget_of_budget self bg0) as [b0|]; [|discriminate]. cbn [bind] in H.
    destruct (PyStr.is_empty b0); [exact (IH _ _ H Hin Hpre)|].
    destruct (budget_pairs self rest) as [pairs'|]; [|discriminate].
    exact (IH _ _ eq_refl Hin Hpre).
Qed.

Lemma special_budgets_get (d : StrDict ImportData.Budget) (b : string) :
  sget (sset (sset d next_month (ImportData.mkBudget next_month true))
             this_month (ImportData.mkBudget this_month true)) b
  = if String.eqb this_month b then Some (ImportData.mkBudget this_month true)
    else if String.eqb next_month b then Some (ImportData.mkBudget next_month true)
    else sget d b.
Proof. rewrite !sget_sset. reflexivity. Qed.

(** What a run of [_process_budgets] that completes has computed. *)
Lemma process_budgets_completed (all_budgets : list YNABBudget.t)
      (categories : list string) (budgets : StrDict ImportData.Budget)
      (history : list BudgetHistory.t) :
  _process_budgets self iter_names iter_pairs all_budgets = Ok (categories, budgets, history) ->
  exists pairs,
    budget_pairs self all_budgets = Ok pairs
    /\ budget_history_of self all_budgets = Ok history
    /\ budgets = sset (sset (fold_budgets (iter_pairs pairs) [])
                            next_month (ImportData.mkBudget next_month true))
                      this_month (ImportData.mkBudget this_month true)
    /\ categories
       = (iter_names
            (map (_category_of_budget self)
                 (filter (fun bg => negb (PyStr.is_empty (_category_of_budget self bg))
                                    && negb (YNABBudget.is_hidden bg))
                         all_budgets))
          ++ [this_month; next_month])%list.
Proof.
  intro H. unfold _process_budgets in H. cbv zeta in H.
  destruct (budget_pairs self all_budgets) as [pairs|] eqn:Hp; [|discriminate].
  cbn [bind] in H.
  destruct (budget_history_of self all_budgets) as [hist|]; [|discriminate].
  cbn [bind] in H. injection H as <- <- <-. exists pairs. repeat split; reflexivity.
Qed.

Lemma exported_budget_is_known (all_budgets : list YNABBudget.t)
      (pairs : list (string * bool)) (bg : YNABBudget.t) (b : string) :
  is_set_order iter_pairs ->
  budget_pairs self all_budgets = Ok pairs ->
  In bg all_budgets -> YNABBudget.is_pre_ynab bg = false ->
  _budget_of_budget self bg = Ok b -> b <> "" ->
  sget (fold_budgets (iter_pairs pairs) []) b <> None.
Proof.
  intros Horder Hp Hin Hpre Hb Hne.
  apply fold_budgets_in with (h := YNABBudget.is_hidden bg).
  apply (proj2 (Horder pairs)). apply (budget_pairs_spec _ Hp).
  exists bg. repeat split; assumption.
Qed.

Lemma str_in_In (x : string) (l : list string) : str_in x l = true <-> In x l.
Proof.
  unfold str_in. rewrite existsb_exists. split.
  - intros (y & Hy & E). apply String.eqb_eq in E. subst y. exact Hy.
  - intro H. exists x. split; [exact H|apply String.eqb_refl].
Qed.

(** X24.  The budgets derived from the budget export, whatever the order in
    which the set of their names is iterated: the two budgets for the money
    available this month and next month are known and active, whatever the
    export holds under their names; every budget named by a row that is no
    pre-YNAB debt is known under its name; and a budget that is known and not
    active is the budget of some row of the hidden categories. *)
Theorem budgets_of_export (all_budgets : list YNABBudget.t) (categories : list string)
        (budgets : StrDict ImportData.Budget) (history : list BudgetHistory.t) :
  is_set_order iter_pairs ->
  _process_budgets self iter_names iter_pairs all_budgets = Ok (categories, budgets, history) ->
  sget budgets this_month = Some (ImportData.mkBudget this_month true)
  /\ sget budgets next_month = Some (ImportData.mkBudget next_month true)
  /\ (forall bg b,
        In bg all_budgets -> YNABBudget.is_pre_ynab bg = false ->
        _budget_of_budget self bg = Ok b -> b <> "" ->
        exists known, sget budgets b = Some known /\ ImportData.name known = b)
  /\ (forall b known,
        sget budgets b = Some known ->
        ImportData.name known = b
        /\ (ImportData.active known = false ->
            exists bg, In bg all_budgets /\ YNABBudget.is_hidden bg = true
                       /\ _budget_of_budget self bg = Ok b)).
Proof.
  intros Horder H. apply process_budgets_completed in H.
  destruct H as (pairs & Hp & _ & -> & _).
  set (d := fold_budgets (iter_pairs pairs) []).
  split; [rewrite special_budgets_get; reflexivity|].
  split; [rewrite special_budgets_get; reflexivity|].
  assert (Horigin : forall b known, sget d b = Some known ->
            exists h, In (b, h) pairs /\ known = ImportData.mkBudget b (negb h)).
  { intros b known Hk. apply fold_budgets_origin in Hk.
    destruct Hk as [Hk|(h & Hin & ->)]; [discriminate Hk|].
    exists h. split; [apply (proj2 (Horder pairs)); exact Hin|reflexivity]. }
  split.
  - intros bg b Hin Hpre Hb Hne. rewrite special_budgets_get.
    destruct (String.eqb_spec this_month b) as [<-|_]; [eexists; split; reflexivity|].
    destruct (String.eqb_spec next_month b) as [<-|_]; [eexists; split; reflexivity|].
    assert (Hsome : sget d b <> None)
      by (eapply exported_budget_is_known; eassumption).
    destruct (sget d b) as [known|] eqn:Hk; [|contradiction].
    exists known. split; [reflexivity|].
    destruct (Horigin _ _ Hk) as (h & _ & ->). reflexivity.
  - intros b known. rewrite special_budgets_get.
    destruct (String.eqb_spec this_month b) as [<-|_];
      [intro E; injection E as <-; split; [reflexivity|discriminate]|].
    destruct (String.eqb_spec next_month b) as [<-|_];
      [intro E; injection E as <-; split; [reflexivity|discriminate]|].
    intro Hk. destruct (Horigin _ _ Hk) as (h & Hin & ->). split; [reflexivity|].
    cbn [ImportData.active]. intro Hact. apply negb_false_iff in Hact. subst h.
    apply (budget_pairs_spec _ Hp) in Hin.
    destruct Hin as (bg & Hbg & _ & Hb & _ & Hh). exists bg.
    split; [exact Hbg|]. split; [symmetry; exact Hh|exact Hb].
Qed.

Lemma field_of_agree (f : Config.Field) (tx : YNABTransaction) (bg : YNABBudget.t) :
  category tx = YNABBudget.category bg ->
  master_category tx = YNABBudget.master_category bg ->
  sub_category tx = YNABBudget.sub_category bg ->
  field_of f tx = budget_field_of f bg.
Proof. intros H1 H2 H3. destruct f; assumption. Qed.

(** X25.  A row of the register that carries the category columns of a row of
    the budget export which is no pre-YNAB debt has a known budget, and when
    that row is not of the hidden categories it has a known category: the two
    checks of the loop over the register rows cannot fail for it. *)
Theorem exported_category_line_is_known
        (all_budgets : list YNABBudget.t) (categories : list string)
        (budgets : StrDict ImportData.Budget) (history : list BudgetHistory.t)
        (tx : YNABTransaction) (bg : YNABBudget.t) :
  is_set_order iter_names -> is_set_order iter_pairs ->
  _process_budgets self iter_names iter_pairs all_budgets = Ok (categories, budgets, history) ->
  In bg all_budgets -> YNABBudget.is_pre_ynab bg = false ->
  category tx = YNABBudget.category bg ->
  master_category tx = YNABBudget.master_category bg ->
  sub_category tx = YNABBudget.sub_category bg ->
  exists budget,
    _budget self tx = Ok budget
    /\ (budget = "" \/ smem budgets budget = true)
    /\ (YNABBudget.is_hidden bg = false ->
        _category self tx = "" \/ str_in (_category self tx) categories = true).
Proof.
  intros Hnames Hpairs H Hin Hpre Hc Hm Hs.
  apply process_budgets_completed in H. destruct H as (pairs & Hp & _ & -> & ->).
  assert (Hsame : _budget self tx = _budget_of_budget self bg).
  { unfold _budget, _budget_of_budget.
    rewrite (field_of_agree _ tx bg Hc Hm Hs), Hc, Hm. reflexivity. }
  destruct (@budget_pairs_total all_budgets pairs bg Hp Hin Hpre) as [b Hb].
  exists b. split; [rewrite Hsame; exact Hb|]. split.
  - destruct (String.eqb_spec b "") as [->|Hne]; [left; reflexivity|right].
    unfold smem, PyDict.mem.
    match goal with |- match PyDict.get String.eqb ?d b with _ => _ end = true =>
      change (PyDict.get String.eqb d b) with (sget d b) end.
    rewrite special_budgets_get.
    destruct (String.eqb this_month b); [reflexivity|].
    destruct (String.eqb next_month b); [reflexivity|].
    assert (Hsome : sget (fold_budgets (iter_pairs pairs) []) b <> None)
      by (eapply exported_budget_is_known; eassumption).
    destruct (sget (fold_budgets (iter_pairs pairs) []) b); [reflexivity|contradiction].
  - intro Hh. unfold _category.
    rewrite (field_of_agree _ tx bg Hc Hm Hs).
    fold (_category_of_budget self bg).
    destruct (PyStr.is_empty (_category_of_budget self bg)) eqn:He;
      [left; apply is_empty_eq; exact He|right].
    apply str_in_In. apply in_or_app. left. apply (proj2 (Hnames _)).
    apply in_map. apply filter_In. split; [exact Hin|].
    rewrite He, Hh. reflexivity.
Qed.

Lemma monthrange_days_bounds (y m d : Z) :
  monthrange_days y m = Ok d -> 28 <= d <= 31.
Proof.
  unfold monthrange_days. destruct ((1 <=? m) && (m <=? 12)); [|discriminate].
  intro H. injection H as <-.
  destruct (m =? 2); [destruct (isleap y); lia|].
  destruct ((m =? 4) || (m =? 6) || (m =? 9) || (m =? 11)); lia.
Qed.

(** X26.  Every entry of the budget history comes from a row of the export that
    is no pre-YNAB debt, has a budget name and a budgeted amount that is not
    zero; it carries that name and amount, starts at the month of the row and
    ends in the same month and year on the last day of that month. *)
Theorem budget_history_spans_the_month (all_budgets : list YNABBudget.t) :
  forall history,
    budget_history_of self all_budgets = Ok history ->
    Forall (fun h =>
              exists bg,
                In bg all_budgets
                /\ YNABBudget.is_pre_ynab bg = false
                /\ _budget_of_budget self bg = Ok (BudgetHistory.name h)
                /\ BudgetHistory.name h <> ""
                /\ BudgetHistory.amount h = YNABBudget.budgeted bg
                /\ ~ (BudgetHistory.amount h == 0)%Q
                /\ BudgetHistory.start h = YNABBudget.month bg
                /\ year (BudgetHistory.end_ h) = year (BudgetHistory.start h)
                /\ month (BudgetHistory.end_ h) = month (BudgetHistory.start h)
                /\ monthrange_days (year (BudgetHistory.start h))
                                   (month (BudgetHistory.start h))
                   = Ok (day (BudgetHistory.end_ h))
                /\ 28 <= day (BudgetHistory.end_ h) <= 31)
           history.
Proof.
  induction all_budgets as [|bg rest IH]; intros history H.
  - cbn in H. injection H as <-. constructor.
  - assert (Hweaken : forall hs, budget_history_of self rest = Ok hs ->
              Forall (fun h =>
                exists bg0,
                  In bg0 (bg :: rest)
                  /\ YNABBudget.is_pre_ynab bg0 = false
                  /\ _budget_of_budget self bg0 = Ok (BudgetHistory.name h)
                  /\ BudgetHistory.name h <> ""
                  /\ BudgetHistory.amount h = YNABBudget.budgeted bg0
                  /\ ~ (BudgetHistory.amount h == 0)%Q
                  /\ BudgetHistory.start h = YNABBudget.month bg0
                  /\ year (BudgetHistory.end_ h) = year (BudgetHistory.start h)
                  /\ month (BudgetHistory.end_ h) = month (BudgetHistory.start h)
                  /\ monthrange_days (year (BudgetHistory.start h))
                                     (month (BudgetHistory.start h))
                     = Ok (day (BudgetHistory.end_ h))
                  /\ 28 <= day (BudgetHistory.end_ h) <= 31) hs).
    { intros hs Hhs. eapply Forall_impl; [|exact (IH _ Hhs)].
      intros h (bg0 & Hin & Hrest). exists bg0. split; [right; exact Hin|exact Hrest]. }
    cbn [budget_history_of] in H.
    destruct (YNABBudget.is_pre_ynab bg) eqn:Hpre; [exact (Hweaken _ H)|].
    destruct (_budget_of_budget self bg) as [b|] eqn:Hb; [|discriminate]. cbn [bind] in H.
    destruct (PyStr.is_empty b) eqn:He; [exact (Hweaken _ H)|].
    destruct (Dec.truthy (YNABBudget.budgeted bg)) eqn:Ht; cbn [negb] in H;
      [|exact (Hweaken _ H)].
    unfold end_of_month in H.
    destruct (monthrange_days (year (YNABBudget.month bg)) (month (YNABBudget.month bg)))
      as [last|] eqn:Hlast; [|discriminate].
    cbn [bind] in H.
    destruct (budget_history_of self rest) as [hs|]; [|discriminate]. cbn [bind] in H.
    injection H as <-. constructor; [|exact (Hweaken _ eq_refl)].
    exists bg. cbn. split; [left; reflexivity|]. split; [exact Hpre|]. split; [exact Hb|].
    split; [intros ->; discriminate He|]. split; [reflexivity|].
    split; [apply truthy_nonzero; exact Ht|]. split; [reflexivity|].
    split; [reflexivity|]. split; [reflexivity|]. split; [exact Hlast|].
    exact (monthrange_days_bounds _ _ Hlast).
Qed.

End Budgets2.

Lemma names_order_is_set_order : is_set_order FixtureBudgets.names_order.
Proof. apply first_appearances_order. intros a b. apply String.eqb_eq. Qed.

Lemma pairs_order_is_set_order : is_set_order FixtureBudgets.pairs_order.
Proof. apply first_appearances_order. exact pair_eqb_eq. Qed.

Lemma budgets_of_export_witness :
  sget FixtureBudgets.budgets this_month = Some (ImportData.mkBudget this_month true)
  /\ sget FixtureBudgets.budgets next_month = Some (ImportData.mkBudget next_month true)
  /\ (forall bg b,
        In bg FixtureBudgets.rows -> YNABBudget.is_pre_ynab bg = false ->
        _budget_of_budget Sample.plain bg = Ok b -> b <> "" ->
        exists known, sget FixtureBudgets.budgets b = Some known
                      /\ ImportData.name known = b)
  /\ (forall b known,
        sget FixtureBudgets.budgets b = Some known ->
        ImportData.name known = b
        /\ (ImportData.active known = false ->
            exists bg, In bg FixtureBudgets.rows /\ YNABBudget.is_hidden bg = true
                       /\ _budget_of_budget Sample.plain bg = Ok b)).
Proof.
  exact (@budgets_of_export Sample.plain FixtureBudgets.names_order
           FixtureBudgets.pairs_order FixtureBudgets.rows FixtureBudgets.categories
           FixtureBudgets.budgets FixtureBudgets.history
           pairs_order_is_set_order eq_refl).
Defined.

Lemma exported_category_line_is_known_witness :
  exists budget,
    _budget Sample.plain FixtureBudgets.food_purchase = Ok budget
    /\ (budget = "" \/ smem FixtureBudgets.budgets budget = true)
    /\ (YNABBudget.is_hidden FixtureBudgets.food_row = false ->
        _category Sample.plain FixtureBudgets.food_purchase = ""
        \/ str_in (_category Sample.plain FixtureBudgets.food_purchase)
                  FixtureBudgets.categories = true).
Proof.
  exact (@exported_category_line_is_known Sample.plain FixtureBudgets.names_order
           FixtureBudgets.pairs_order FixtureBudgets.rows FixtureBudgets.categories
           FixtureBudgets.budgets FixtureBudgets.history
           FixtureBudgets.food_purchase FixtureBudgets.food_row
           names_order_is_set_order pairs_order_is_set_order eq_refl
           (or_introl eq_refl) eq_refl eq_refl eq_refl eq_refl).
Defined.

Lemma budget_history_spans_the_month_witness :
  Forall (fun h =>
            exists bg,
              In bg FixtureBudgets.rows
              /\ YNABBudget.is_pre_ynab bg = false
              /\ _budget_of_budget Sample.plain bg = Ok (BudgetHistory.name h)
              /\ BudgetHistory.name h <> ""
              /\ BudgetHistory.amount h = YNABBudget.budgeted bg
              /\ ~ (BudgetHistory.amount h == 0)%Q
              /\ BudgetHistory.start h = YNABBudget.month bg
              /\ year (BudgetHistory.end_ h) = year (BudgetHistory.start h)
              /\ month (BudgetHistory.end_ h) = month (BudgetHistory.start h)
              /\ monthrange_days (year (BudgetHistory.start h))
                                 (month (BudgetHistory.start h))
                 = Ok (day (BudgetHistory.end_ h))
              /\ 28 <= day (BudgetHistory.end_ h) <= 31)
         FixtureBudgets.history.
Proof.
  exact (@budget_history_spans_the_month Sample.plain FixtureBudgets.rows
           FixtureBudgets.history eq_refl).
Defined.

(** ** Accounts derived from the register *)

Lemma find_app {A} (p : A -> bool) (a b : list A) :
  find p (a ++ b) = match find p a with Some x => Some x | None => find p b end.
Proof.
  induction a as [|x a IH]; [reflexivity|]. cbn [app find].
  destruct (p x); [reflexivity|exact IH].
Qed.

Lemma starting_balances_fold (acc : string) (txs : list YNABTransaction) :
  forall d,
    sget (fold_left (fun d tx =>
                       if String.eqb (payee tx) "Starting Balance"
                       then sset d (account tx) (date tx, (inflow tx - outflow tx)%Q)
                       else d) txs d) acc
    = match starting_row_of acc txs with
      | Some tx => Some (date tx, (inflow tx - outflow tx)%Q)
      | None => sget d acc
      end.
Proof.
  unfold starting_row_of. induction txs as [|tx txs IH]; intro d; [reflexivity|].
  cbn [fold_left rev]. rewrite IH, find_app. cbn [find].
  destruct (find _ (rev txs)); [reflexivity|].
  destruct (String.eqb (payee tx) "Starting Balance"); cbn [andb]; [|reflexivity].
  rewrite sget_sset. destruct (String.eqb (account tx) acc); reflexivity.
Qed.

Lemma starting_balance_lookup (acc : string) (txs : list YNABTransaction) :
  sget (starting_balances_of txs) acc
  = option_map (fun tx => (date tx, (inflow tx - outflow tx)%Q)) (starting_row_of acc txs).
Proof.
  unfold starting_balances_of. rewrite starting_balances_fold.
  destruct (starting_row_of acc txs); reflexivity.
Qed.

Section Accounts.

Variable self : Importer.
Variable iter_names : list string -> list string.
Variable parse_date_iso : string -> Parse.
Variable parse_date_configured : string -> Parse.
Variable all_transactions : list YNABTransaction.

Let account_of := asset_account_of self parse_date_iso parse_date_configured all_transactions.

(** The asset account made for a name, when one is made. *)
Lemma asset_account_of_completed (acc : string) (a : ImportData.Account) :
  account_of (starting_balances_of all_transactions) acc = Ok a ->
  ImportData.acc_name a = acc
  /\ exists tx,
       starting_row_of acc all_transactions = Some tx
       /\ ImportData.opening_date a = date tx
       /\ ImportData.opening_balance a = (inflow tx - outflow tx)%Q
       /\ ImportData.role a = import_role (Config.Account.role (_acc_config self acc))
       /\ (ImportData.monthly_payment_date a <> None
           <-> ImportData.role a = ImportData.credit_card).
Proof.
  unfold account_of, asset_account_of, sitem, PyDict.item.
  fold (sget (starting_balances_of all_transactions) acc).
  rewrite starting_balance_lookup.
  destruct (starting_row_of acc all_transactions) as [tx|]; [|discriminate].
  cbn [option_map bind]. cbv zeta.
  destruct (import_role (Config.Account.role (_acc_config self acc))) eqn:Hr.
  - destruct (monthly_payment_date_of _ _ _ _ _) as [d|]; [|discriminate].
    cbn [bind]. intro H. injection H as <-. cbn. split; [reflexivity|].
    exists tx. repeat split; try reflexivity; try discriminate.
  - cbn [bind]. intro H. injection H as <-. cbn. split; [reflexivity|].
    exists tx. repeat split; try reflexivity; try discriminate; intro F; contradiction.
  - cbn [bind]. intro H. injection H as <-. cbn. split; [reflexivity|].
    exists tx. repeat split; try reflexivity; try discriminate; intro F; contradiction.
  - cbn [bind]. intro H. injection H as <-. cbn. split; [reflexivity|].
    exists tx. repeat split; try reflexivity; try discriminate; intro F; contradiction.
Qed.

Lemma asset_accounts_of_completed (names : list string) :
  forall accounts,
    asset_accounts_of self parse_date_iso parse_date_configured all_transactions
                      (starting_balances_of all_transactions) names = Ok accounts ->
    map ImportData.acc_name accounts = names
    /\ Forall (fun a =>
                 exists tx,
                   starting_row_of (ImportData.acc_name a) all_transactions = Some tx
                   /\ ImportData.opening_date a = date tx
                   /\ ImportData.opening_balance a = (inflow tx - outflow tx)%Q
                   /\ ImportData.role a
                      = import_role (Config.Account.role
                                       (_acc_config self (ImportData.acc_name a)))
                   /\ (ImportData.monthly_payment_date a <> None
                       <-> ImportData.role a = ImportData.credit_card))
              accounts.
Proof.
  induction names as [|acc names IH]; intros accounts H.
  - cbn in H. injection H as <-. split; [reflexivity|constructor].
  - cbn [asset_accounts_of] in H. fold account_of in H.
    destruct (account_of (starting_balances_of all_transactions) acc) as [a|] eqn:Ha;
      [|discriminate]. cbn [bind] in H.
    destruct (asset_accounts_of _ _ _ _ _ names) as [rest|]; [|discriminate].
    cbn [bind] in H. injection H as <-.
    destruct (IH _ eq_refl) as [Hn Hall].
    destruct (asset_account_of_completed _ Ha) as [Hname Htx].
    split; [cbn [map]; rewrite Hname, Hn; reflexivity|].
    constructor; [rewrite Hname; exact Htx|exact Hall].
Qed.

Lemma process_accounts_completed (assets : list ImportData.Account)
      (revenue expense : list string) :
  _process_accounts self iter_names parse_date_iso parse_date_configured all_transactions
  = Ok (assets, revenue, expense) ->
  forallb (fun acc => str_in acc (map account all_transactions))
          (map fst (Config.accounts (config self))) = true
  /\ asset_accounts_of self parse_date_iso parse_date_configured all_transactions
                       (starting_balances_of all_transactions)
                       (iter_names (map account all_transactions)) = Ok assets
  /\ revenue = iter_names (map (_payee self)
                    (filter (fun tx => Dec.ltb 0 (inflow tx) && negb (_is_transfer tx))
                            all_transactions))
  /\ expense = iter_names (map (_payee self)
                    (filter (fun tx => Dec.ltb 0 (outflow tx) && negb (_is_transfer tx))
                            all_transactions)).
Proof.
  unfold _process_accounts. cbv zeta.
  destruct (forallb _ _); [|discriminate].
  destruct (asset_accounts_of _ _ _ _ _ _) as [accounts|]; [|discriminate].
  cbn [bind]. intro H. injection H as <- <- <-. repeat split; reflexivity.
Qed.

(** X27.  When the accounts are derived from the register without an exception,
    there is one asset account for each account name of the register, in the
    order in which the set of names is iterated; every account of the
    configuration has rows in the register; and each asset account opens on
    the date and with the balance, inflow less outflow, of the last row of the
    register that is the starting balance of that account.  So an account
    with rows and without a starting balance row makes the derivation fail. *)
Theorem asset_accounts_of_register (assets : list ImportData.Account)
        (revenue expense : list string) :
  _process_accounts self iter_names parse_date_iso parse_date_configured all_transactions
  = Ok (assets, revenue, expense) ->
  map ImportData.acc_name assets = iter_names (map account all_transactions)
  /\ (forall acc, smem (Config.accounts (config self)) acc = true ->
                  In acc (map account all_transactions))
  /\ Forall (fun a =>
               exists tx,
                 starting_row_of (ImportData.acc_name a) all_transactions = Some tx
                 /\ ImportData.opening_date a = date tx
                 /\ ImportData.opening_balance a = (inflow tx - outflow tx)%Q
                 /\ ImportData.role a
                    = import_role (Config.Account.role
                                     (_acc_config self (ImportData.acc_name a)))
                 /\ (ImportData.monthly_payment_date a <> None
                     <-> ImportData.role a = ImportData.credit_card))
            assets.
Proof.
  intro H. apply process_accounts_completed in H. destruct H as (Hassert & Hassets & _ & _).
  destruct (asset_accounts_of_completed _ Hassets) as [Hn Hall].
  split; [exact Hn|]. split; [|exact Hall].
  intros acc Hacc. rewrite smem_keys in Hacc. apply str_in_In in Hacc.
  rewrite forallb_forall in Hassert. apply str_in_In. exact (Hassert acc Hacc).
Qed.

(** X28.  The accounts a leg names have been derived.  When the derivation of the
    accounts completes, the account of every row of the register is an asset
    account; the leg of a row is booked on it, a Withdrawal paying an expense
    account and a Deposit receiving from a revenue account that were derived,
    and a Transfer has it as its source or as its destination. *)
Theorem legs_name_derived_accounts
        (assets : list ImportData.Account) (revenue expense : list string)
        (budgets : StrDict ImportData.Budget) (categories : list string)
        (st st1 : RowState) (tx : YNABTransaction) (leg : ImportData.Leg) :
  is_set_order iter_names ->
  _process_accounts self iter_names parse_date_iso parse_date_configured all_transactions
  = Ok (assets, revenue, expense) ->
  In tx all_transactions ->
  process_row self budgets categories st tx = Ok (st1, Some leg) ->
  In (account tx) (map ImportData.acc_name assets)
  /\ match leg with
     | ImportData.Withdrawal _ a p _ _ => a = account tx /\ In p expense
     | ImportData.Deposit _ a p _ _ => a = account tx /\ In p revenue
     | ImportData.Transfer _ from_account to_account _ =>
         from_account = account tx \/ to_account = account tx
     end.
Proof.
  intros Horder H Hin Hrow. apply process_accounts_completed in H.
  destruct H as (_ & Hassets & -> & ->).
  destruct (asset_accounts_of_completed _ Hassets) as [Hn _]. split.
  - rewrite Hn. apply (proj2 (Horder _)). apply in_map. exact Hin.
  - apply process_row_cases in Hrow.
    destruct Hrow as (budget & _ & _ & [(_ & tx' & Hc & [Ho|Ho]) | (Ht & _ & Hrest)]).
    + discriminate Ho.
    + destruct Ho as (a & d & fa & _ & Ho). injection Ho as ->.
      destruct (corrected_row_keeps _ Hc)
        as (_ & _ & _ & _ & [(_ & E & _)|(_ & E & _)]); [left|right]; exact E.
    + destruct Hrest as (a & d & c & _ & _ & [(E & Ho)|(_ & E & Ho)]);
        injection Ho as ->; (split; [reflexivity|]);
        apply (proj2 (Horder _)); apply in_map; apply filter_In;
        (split; [exact Hin|]); rewrite E, Ht; reflexivity.
Qed.

End Accounts.

Lemma asset_accounts_of_register_witness :
  map ImportData.acc_name FixtureAccounts.assets
  = FixtureBudgets.names_order (map account FixtureAccounts.register)
  /\ (forall acc, smem (Config.accounts (config Sample.plain)) acc = true ->
                  In acc (map account FixtureAccounts.register))
  /\ Forall (fun a =>
               exists tx,
                 starting_row_of (ImportData.acc_name a) FixtureAccounts.register = Some tx
                 /\ ImportData.opening_date a = date tx
                 /\ ImportData.opening_balance a = (inflow tx - outflow tx)%Q
                 /\ ImportData.role a
                    = import_role (Config.Account.role
                                     (_acc_config Sample.plain (ImportData.acc_name a)))
                 /\ (ImportData.monthly_payment_date a <> None
                     <-> ImportData.role a = ImportData.credit_card))
            FixtureAccounts.assets.
Proof.
  exact (@asset_accounts_of_register Sample.plain FixtureBudgets.names_order
           FixtureAccounts.no_parse FixtureAccounts.no_parse FixtureAccounts.register
           FixtureAccounts.assets ["Starting Balance"] ["Shop"] eq_refl).
Defined.

Lemma legs_name_derived_accounts_witness :
  In (account Sample.early_row) (map ImportData.acc_name FixtureAccounts.assets)
  /\ ("A" = account Sample.early_row /\ In "Shop" ["Shop"]).
Proof.
  exact (@legs_name_derived_accounts Sample.plain FixtureBudgets.names_order
           FixtureAccounts.no_parse FixtureAccounts.no_parse FixtureAccounts.register
           FixtureAccounts.assets ["Starting Balance"] ["Shop"] [] []
           initial_row_state {| transfers_seen_map := []; category_var := Some "" |}
           Sample.early_row
           (ImportData.Withdrawal
              (ImportData.mkMeta (mkArrow 2020 1 5) 10 "(empty description)" ""
                                 ["import-2020"] false 100)
              "A" "Shop" "" "")
           names_order_is_set_order eq_refl (or_intror (or_introl eq_refl)) eq_refl).
Defined.

(** ** Collecting the pages of a listing *)

Lemma concat_firstn_S {A} (pages : list (list A)) :
  forall k, (k < List.length pages)%nat ->
    List.concat (firstn (S k) pages) = (List.concat (firstn k pages) ++ nth k pages [])%list.
Proof.
  induction pages as [|p pages IH]; intros k Hk; [cbn in Hk; lia|].
  destruct k as [|k].
  - cbn. rewrite app_nil_r. reflexivity.
  - cbn [List.length] in Hk. rewrite (firstn_cons (S k)), (firstn_cons k).
    cbn [List.concat nth]. rewrite (IH k) by lia. rewrite app_assoc. reflexivity.
Qed.

Lemma Qeq_bool_inject_Z (a b : Z) : Qeq_bool (inject_Z a) (inject_Z b) = (a =? b).
Proof.
  unfold Qeq_bool, inject_Z. cbn [Qnum Qden]. rewrite !Z.mul_1_r.
  reflexivity.
Qed.

Lemma pagination_of_page (pages : list (list Json)) (k : nat) :
  Pages.pagination (Pages.page_json pages k) "current_page"
  = Ok (JNum (inject_Z (Z.of_nat k)))
  /\ Pages.pagination (Pages.page_json pages k) "total_pages"
     = Ok (JNum (inject_Z (Z.of_nat (List.length pages))))
  /\ PyJson.item (Pages.page_json pages k) "data" = Ok (JArr (nth (k - 1) pages [])).
Proof. repeat split; reflexivity. Qed.

Section Listing.

Variable server : Pages.PageServer.
Variable url : string.
Variable pages : list (list Json).
Hypothesis served : Pages.serves server url pages.

Lemma pages_loop_collects (m : nat) :
  forall k fuel params sent,
    (1 <= k)%nat -> (k + m = List.length pages)%nat -> (m <= fuel)%nat ->
    exists requests,
      Pages.pages_loop server url fuel params (Pages.page_json pages k)
                       (JArr (List.concat (firstn k pages))) sent
      = (Pages.Returned (JArr (List.concat pages)), (rev requests ++ sent)%list)
      /\ List.length requests = m
      /\ forall i r, nth_error requests i = Some r ->
           Pages.page_url r = url
           /\ (Pages.page_of r == inject_Z (Z.of_nat (k + S i)))%Q.
Proof.
  induction m as [|m IH]; intros k fuel params sent Hk Hn Hfuel.
  - exists []. assert (k = List.length pages) by lia. subst k.
    destruct (pagination_of_page pages (List.length pages)) as (Hc & Ht & _).
    destruct fuel; cbn [Pages.pages_loop]; rewrite Hc, Ht; cbn [bind Pages.json_eqb];
      rewrite Qeq_bool_inject_Z, Z.eqb_refl; cbn [negb]; rewrite firstn_all;
      (split; [reflexivity|]); (split; [reflexivity|]); intros [|i] r Hr; discriminate Hr.
  - destruct fuel as [|fuel]; [lia|].
    destruct (pagination_of_page pages k) as (Hc & Ht & _).
    cbn [Pages.pages_loop]. rewrite Hc, Ht. cbn [bind Pages.json_eqb Pages.plus_one].
    rewrite Qeq_bool_inject_Z.
    assert (Hneq : (Z.of_nat k =? Z.of_nat (List.length pages)) = false)
      by (apply Z.eqb_neq; lia).
    rewrite Hneq. cbn [negb]. unfold Pages.get. cbv zeta.
    match goal with |- context [server sent ?x] => set (r := x) end.
    assert (Hpage : (Pages.page_of r == inject_Z (Z.of_nat (S k)))%Q).
    { unfold Pages.page_of, r. cbn [Pages.page_params].
      rewrite sget_sset, String.eqb_refl. rewrite Nat2Z.inj_succ.
      unfold Z.succ. rewrite inject_Z_plus. reflexivity. }
    rewrite (@served sent r (S k) eq_refl ltac:(lia) Hpage).
    cbn [status_code content]. change ((400 <=? 200) && (200 <? 600)) with false. cbv iota.
    destruct (pagination_of_page pages (S k)) as (_ & _ & Hd). rewrite Hd.
    cbn [bind Pages.extended]. replace (S k - 1)%nat with k by lia.
    rewrite <- concat_firstn_S by lia.
    destruct (IH (S k) fuel (Pages.page_params r) (r :: sent) ltac:(lia) ltac:(lia) ltac:(lia))
      as (requests & Hrun & Hlen & Hreq).
    exists (r :: requests). cbn [rev]. rewrite <- app_assoc.
    split; [exact Hrun|]. split; [cbn [List.length]; lia|].
    intros [|i] r' Hr'.
    + injection Hr' as <-. split; [reflexivity|].
      replace (k + 1)%nat with (S k) by lia. exact Hpage.
    + destruct (Hreq i r' Hr') as [Hu Hp]. split; [exact Hu|].
      replace (k + S (S i))%nat with (S k + S i)%nat by lia. exact Hp.
Qed.

(** X29.  A listing of several pages is collected whole.  Against a server that
    serves the pages of a listing, and given turns enough for the pages after
    the first, the call returns the items of all the pages in their order; it
    has sent one request for each page, the first without a page number and
    then page 2, page 3 and so on up to the last. *)
Theorem all_pages_are_collected (fuel : nat) (sent : list Pages.PageRequest) :
  pages <> [] ->
  (List.length pages - 1 <= fuel)%nat ->
  exists requests,
    Pages.get_all_pages server url fuel None sent
    = (Pages.Returned (JArr (List.concat pages)), (rev requests ++ sent)%list)
    /\ List.length requests = List.length pages
    /\ forall i r, nth_error requests i = Some r ->
         Pages.page_url r = url /\ (Pages.page_of r == inject_Z (Z.of_nat (S i)))%Q.
Proof.
  intros Hne Hfuel.
  assert (Hlen : (1 <= List.length pages)%nat).
  { destruct pages; [contradiction|cbn; lia]. }
  unfold Pages.get_all_pages, Pages.get. cbv zeta.
  set (r := Pages.mkPageRequest url None).
  assert (Hpage : (Pages.page_of r == inject_Z (Z.of_nat 1))%Q) by reflexivity.
  rewrite (@served sent r 1%nat eq_refl ltac:(lia) Hpage).
  cbn [status_code content]. change ((400 <=? 200) && (200 <? 600)) with false. cbv iota.
  destruct (pagination_of_page pages 1) as (_ & _ & Hd). rewrite Hd.
  assert (Hfirst : nth (1 - 1) pages [] = List.concat (firstn 1 pages)).
  { destruct pages as [|p ps]; [contradiction|]. cbn. rewrite app_nil_r. reflexivity. }
  rewrite Hfirst.
  destruct (@pages_loop_collects (List.length pages - 1)%nat 1%nat fuel None (r :: sent)
              ltac:(lia) ltac:(lia) Hfuel) as (requests & Hrun & Hl & Hreq).
  exists (r :: requests). rewrite Hrun. cbn [rev]. rewrite <- app_assoc.
  split; [reflexivity|]. split; [cbn [List.length]; lia|].
  intros [|i] r' Hr'.
  - injection Hr' as <-. split; [reflexivity|exact Hpage].
  - destruct (Hreq i r' Hr') as [Hu Hp]. split; [exact Hu|].
    replace (S (S i)) with (1 + S i)%nat by lia. exact Hp.
Qed.

End Listing.

Lemma fixture_server_serves (url : string) :
  Pages.serves FixturePages.server url FixturePages.pages.
Proof.
  intros sent r k _ _ Hq. unfold FixturePages.server. f_equal. f_equal.
  unfold Qeq in Hq. cbn [Qnum Qden inject_Z] in Hq. rewrite Z.mul_1_r in Hq.
  rewrite Hq, Z.div_mul by discriminate. apply Nat2Z.id.
Qed.

Lemma all_pages_are_collected_witness :
  exists requests,
    Pages.get_all_pages FixturePages.server "/api/v1/budgets" 1 None []
    = (Pages.Returned (JArr (List.concat FixturePages.pages)), (rev requests ++ [])%list)
    /\ List.length requests = List.length FixturePages.pages
    /\ forall i r, nth_error requests i = Some r ->
         Pages.page_url r = "/api/v1/budgets"
         /\ (Pages.page_of r == inject_Z (Z.of_nat (S i)))%Q.
Proof.
  apply (@all_pages_are_collected FixturePages.server "/api/v1/budgets" FixturePages.pages
           (@fixture_server_serves "/api/v1/budgets") 1%nat []).
  - discriminate.
  - cbn. lia.
Defined.

(** ** The requests of the synchronisation of currencies *)

Lemma sends_only_silent (P : Request -> Prop) {A} (m : IO A) :
  silent m -> sends_only P m.
Proof. intros H w. exists []. split; [exact (H w)|constructor]. Qed.

Lemma sends_only_bind (P : Request -> Prop) {A B} (m : IO A) (k : A -> IO B) :
  sends_only P m -> (forall a, sends_only P (k a)) -> sends_only P (iobind m k).
Proof.
  intros Hm Hk w. unfold iobind. destruct (Hm w) as (n1 & H1 & F1).
  destruct (m w) as [[a|e] w1]; cbn [snd] in *.
  - destruct (Hk a w1) as (n2 & H2 & F2). exists (n2 ++ n1)%list.
    split; [rewrite H2, H1, app_assoc; reflexivity|apply Forall_app; split; assumption].
  - exists n1. split; assumption.
Qed.

Lemma sends_only_for_each (P : Request -> Prop) {A} (l : list A) (body : A -> IO unit) :
  (forall a, sends_only P (body a)) -> sends_only P (for_each l body).
Proof.
  intro Hb. induction l as [|a l IH]; cbn [for_each].
  - apply sends_only_silent, silent_ret.
  - apply sends_only_bind; [apply Hb|intros _; exact IH].
Qed.

Lemma sends_only_request (P : Request -> Prop) (remote : Remote) (r : Request) :
  P r -> sends_only P (request remote r).
Proof.
  intros Hr w. exists [r]. unfold request. cbv zeta.
  destruct ((400 <=? status_code (remote (sent w) r))
            && (status_code (remote (sent w) r) <? 600));
    (split; [reflexivity|constructor; [exact Hr|constructor]]).
Qed.

Lemma sends_only_when (P : Request -> Prop) (b : bool) (m : IO unit) :
  sends_only P m -> sends_only P (when b m).
Proof. intro H. destruct b; [exact H|apply sends_only_silent, silent_ret]. Qed.

Lemma silent_get_data : silent get_data.
Proof. intro w. reflexivity. Qed.

Lemma silent_put_data (fd : FireflyData) : silent (put_data fd).
Proof. intro w. reflexivity. Qed.

Lemma silent_update_cache : silent _update_cache.
Proof. intro w. reflexivity. Qed.

(** X30.  Whatever the server lists and answers, the synchronisation of
    currencies sends nothing but the listing and, for codes the listing holds,
    the call that makes the configured currency the default, calls that enable
    the configured currency, INR or EUR, and calls that disable other codes.
    In particular the configured currency, INR and EUR are never disabled. *)
Theorem currency_requests_are_limited (self : Importer) (remote : Remote) (w : World) :
  exists new,
    sent (snd (_create_currencies self remote w)) = (new ++ sent w)%list
    /\ Forall (currency_request self) new
    /\ forall r code,
         In r new -> action r = "/disable" -> ident r = Some (JStr code) ->
         code <> Config.currency (config self) /\ code <> "INR" /\ code <> "EUR".
Proof.
  assert (H : sends_only (currency_request self) (_create_currencies self remote)).
  { unfold _create_currencies.
    apply sends_only_bind; [apply sends_only_silent, silent_get_data|]. intro fd.
    destruct (PyDict.truthy (fd_currencies fd)); [apply sends_only_silent, silent_ret|].
    apply sends_only_bind.
    { unfold get_all_pages. apply sends_only_bind.
      - apply sends_only_request. left. reflexivity.
      - intro response. apply sends_only_silent.
        apply silent_bind; [apply silent_lift|intro; apply silent_lift]. }
    intro data.
    apply sends_only_bind; [apply sends_only_silent, silent_lift|]. intro ids.
    apply sends_only_bind; [apply sends_only_silent, silent_put_data|]. intros _.
    apply sends_only_bind; [apply sends_only_silent, silent_lift|]. intro currencies.
    cbv zeta.
    apply sends_only_bind; [|intros _; apply sends_only_silent, silent_update_cache].
    apply sends_only_for_each. intros [code d].
    apply sends_only_bind.
    - destruct (String.eqb_spec code (Config.currency (config self))) as [E|_];
        [|apply sends_only_silent, silent_ret].
      unfold when at 1.
      apply sends_only_bind; [apply sends_only_silent, silent_lift|]. intro is_default.
      apply sends_only_when.
      apply sends_only_bind; [|intros _; apply sends_only_silent, silent_ret].
      apply sends_only_request. right. exists code. split; [reflexivity|].
      left. split; [reflexivity|exact E].
    - intros _.
      destruct (str_in code [Config.currency (config self); "INR"; "EUR"]) eqn:Hin.
      + apply sends_only_bind; [apply sends_only_silent, silent_lift|]. intro enabled.
        apply sends_only_when.
        apply sends_only_bind; [|intros _; apply sends_only_silent, silent_ret].
        apply sends_only_request. right. exists code. split; [reflexivity|].
        right. left. split; [reflexivity|exact Hin].
      + apply sends_only_bind; [apply sends_only_silent, silent_lift|]. intro enabled.
        apply sends_only_when.
        apply sends_only_bind; [|intros _; apply sends_only_silent, silent_ret].
        apply sends_only_request. right. exists code. split; [reflexivity|].
        right. right. split; [reflexivity|exact Hin]. }
  destruct (H w) as (new & Hs & Hall). exists new. split; [exact Hs|]. split; [exact Hall|].
  intros r code Hin Hact Hid. rewrite Forall_forall in Hall.
  destruct (Hall r Hin) as [->|(code' & Hr & Hcase)]; [discriminate Hact|].
  rewrite Hr in Hid. cbn [ident] in Hid. injection Hid as ->.
  destruct Hcase as [(Ha & _)|[(Ha & _)|(_ & Hnot)]];
    [rewrite Ha in Hact; discriminate Hact|rewrite Ha in Hact; discriminate Hact|].
  unfold str_in in Hnot. cbn [existsb] in Hnot.
  apply orb_false_iff in Hnot. destruct Hnot as [H1 Hnot].
  apply orb_false_iff in Hnot. destruct Hnot as [H2 Hnot].
  apply orb_false_iff in Hnot. destruct Hnot as [H3 _].
  apply String.eqb_neq in H1, H2, H3. repeat split; assumption.
Qed.
